(** * Reliable messaging over TCP: a shallow embedding of
      [tcp_comunicacion_confiable.py] (class [ComunicacionTCPConfiable])

    The development follows the Python source function by function.

    - Bytes are [list byte]; a Python [str] is a [string] holding its UTF-8
      encoding, so [str.encode('utf-8')] is [list_byte_of_string] and
      [bytes.decode('utf-8')] is a validity check followed by
      [string_of_list_byte].
    - Values exchanged with the [json] module are [pyval]s.
    - The object ([self]) and the world it acts on (clock, transport,
      log) form one record [estado]; methods are computations in a small
      state-and-exception monad [Py].
    - The [json] module itself is not part of the repository: the
      embedding is parametrised by [json_dumps] and [json_loads]
      (Section [Comunicacion]); a small reference implementation
      ([Json.dumps], [Json.loads]) instantiates them in the examples. *)

From Stdlib Require Import ZArith NArith Strings.String Strings.Ascii Strings.Byte Lia.
From stdpp Require Import gmap strings list fin_maps.

Local Open Scope Z_scope.
Local Set Warnings "-register-all".

(** ** Bytes, [struct.pack('!I', n)] and [struct.unpack('!I', b)] *)

Definition byte_de_N (n : N) : byte :=
  match Byte.of_N (n mod 256) with
  | Some b => b
  | None => x00
  end.

(** [struct.pack('!I', n)]: four bytes, most significant first;
    [struct.error] ([None]) when [n] does not fit 32 bits. *)
Definition struct_pack_I (n : N) : option (list byte) :=
  if (n <? 2 ^ 32)%N then
    Some [byte_de_N (n / 2 ^ 24); byte_de_N (n / 2 ^ 16);
          byte_de_N (n / 2 ^ 8); byte_de_N n]
  else None.

(** [struct.unpack('!I', b)[0]]: defined on exactly four bytes. *)
Definition struct_unpack_I (bs : list byte) : option N :=
  match bs with
  | [b3; b2; b1; b0] =>
      Some (((Byte.to_N b3 * 256 + Byte.to_N b2) * 256 + Byte.to_N b1) * 256
            + Byte.to_N b0)%N
  | _ => None
  end.

(** ** [bytes.decode('utf-8')] (strict)

    Well-formed UTF-8 byte sequences (Unicode, table 3-7): no overlong
    forms, no surrogates, nothing above U+10FFFF. *)

Definition entre (lo hi c : N) : bool := ((lo <=? c) && (c <=? hi))%N.

Definition cont (b : byte) : bool := entre 0x80 0xBF (Byte.to_N b).

Fixpoint utf8_valido (bs : list byte) : bool :=
  match bs with
  | [] => true
  | b0 :: r0 =>
    let c0 := Byte.to_N b0 in
    if (c0 <=? 0x7F)%N then utf8_valido r0
    else match r0 with
    | [] => false
    | b1 :: r1 =>
      let c1 := Byte.to_N b1 in
      if entre 0xC2 0xDF c0 then cont b1 && utf8_valido r1
      else match r1 with
      | [] => false
      | b2 :: r2 =>
        if (c0 =? 0xE0)%N then entre 0xA0 0xBF c1 && cont b2 && utf8_valido r2
        else if entre 0xE1 0xEC c0 || entre 0xEE 0xEF c0
             then cont b1 && cont b2 && utf8_valido r2
        else if (c0 =? 0xED)%N then entre 0x80 0x9F c1 && cont b2 && utf8_valido r2
        else match r2 with
        | [] => false
        | b3 :: r3 =>
          if (c0 =? 0xF0)%N
          then entre 0x90 0xBF c1 && cont b2 && cont b3 && utf8_valido r3
          else if entre 0xF1 0xF3 c0
          then cont b1 && cont b2 && cont b3 && utf8_valido r3
          else if (c0 =? 0xF4)%N
          then entre 0x80 0x8F c1 && cont b2 && cont b3 && utf8_valido r3
          else false
        end
      end
    end
  end.

(** ** Python values

    The values [json.loads] can return and [json.dumps] accepts. A
    [float] is kept in fixed point, as a number of thousandths (the
    resolution of the model's clock); rounding, NaN and the infinities are
    outside the model. A [dict] is the list of its items in insertion
    order (keys are [str], as [json] produces them). *)

Inductive pyval :=
  | VNone
  | VBool (b : bool)
  | VInt (z : Z)
  | VFloat (milesimas : Z)
  | VStr (s : string)
  | VList (l : list pyval)
  | VDict (d : list (string * pyval)).

(** [d.get(k, defecto)] *)
Fixpoint dict_get_def (k : string) (defecto : pyval) (d : list (string * pyval)) : pyval :=
  match d with
  | [] => defecto
  | (k', v) :: d' => if String.eqb k k' then v else dict_get_def k defecto d'
  end.

(** [d.get(k)] *)
Definition dict_get (k : string) (d : list (string * pyval)) : pyval :=
  dict_get_def k VNone d.

(** Truth value of an object, as tested by [if x:]. *)
Definition verdadero (v : pyval) : bool :=
  match v with
  | VNone => false
  | VBool b => b
  | VInt z => negb (z =? 0)
  | VFloat m => negb (m =? 0)
  | VStr s => negb (String.eqb s "")
  | VList l => negb (Nat.eqb (List.length l) 0)
  | VDict d => negb (Nat.eqb (List.length d) 0)
  end.

(** [v == s] for a [str] literal [s]: only a [str] equals a [str]. *)
Definition es_cadena (v : pyval) (s : string) : bool :=
  match v with
  | VStr s' => String.eqb s' s
  | _ => false
  end.

(** Keys of [dict]s and members of [set]s: hashable values up to Python's
    [==], under which [True == 1 == 1.0]. *)
Inductive clave :=
  | KNone
  | KInt (z : Z)
  | KFrac (milesimas : Z)
  | KStr (s : string).

(** [hash(v)]: the key a value stands for; [None] is [TypeError:
    unhashable type] (lists and dicts). *)
Definition clave_de (v : pyval) : option clave :=
  match v with
  | VNone => Some KNone
  | VBool b => Some (KInt (if b then 1 else 0))
  | VInt z => Some (KInt z)
  | VFloat m => Some (if m mod 1000 =? 0 then KInt (m / 1000) else KFrac m)
  | VStr s => Some (KStr s)
  | VList _ | VDict _ => None
  end.

#[global] Instance clave_eq_dec : EqDecision clave.
Proof. solve_decision. Defined.

#[global] Instance clave_countable : Countable clave.
Proof.
  refine (inj_countable'
    (fun k => match k with
              | KNone => inl (inl ())
              | KInt z => inl (inr z)
              | KFrac m => inr (inl m)
              | KStr s => inr (inr s)
              end)
    (fun x => match x with
              | inl (inl _) => KNone
              | inl (inr z) => KInt z
              | inr (inl m) => KFrac m
              | inr (inr s) => KStr s
              end) _).
  intros []; reflexivity.
Defined.

(** ** The object and its world *)

(** [self.stats]: a dict with six fixed keys. *)
Module Stats.
Record t := {
    mensajes_enviados : Z;
    mensajes_recibidos : Z;
    acks_enviados : Z;
    acks_recibidos : Z;
    reconexiones : Z;
    errores : Z
  }.

Definition cero : t :=
    {| mensajes_enviados := 0; mensajes_recibidos := 0; acks_enviados := 0;
       acks_recibidos := 0; reconexiones := 0; errores := 0 |}.

  (** [stats[k] += 1] for each key [k] *)
Definition incr_mensajes_enviados (s : t) : t :=
    {| mensajes_enviados := mensajes_enviados s + 1; mensajes_recibidos := mensajes_recibidos s;
    acks_enviados := acks_enviados s; acks_recibidos := acks_recibidos s; reconexiones :=
    reconexiones s; errores := errores s |}.
Definition incr_mensajes_recibidos (s : t) : t :=
    {| mensajes_enviados := mensajes_enviados s; mensajes_recibidos := mensajes_recibidos s + 1;
    acks_enviados := acks_enviados s; acks_recibidos := acks_recibidos s; reconexiones :=
    reconexiones s; errores := errores s |}.
Definition incr_acks_enviados (s : t) : t :=
    {| mensajes_enviados := mensajes_enviados s; mensajes_recibidos := mensajes_recibidos s;
    acks_enviados := acks_enviados s + 1; acks_recibidos := acks_recibidos s; reconexiones :=
    reconexiones s; errores := errores s |}.
Definition incr_acks_recibidos (s : t) : t :=
    {| mensajes_enviados := mensajes_enviados s; mensajes_recibidos := mensajes_recibidos s;
    acks_enviados := acks_enviados s; acks_recibidos := acks_recibidos s + 1; reconexiones :=
    reconexiones s; errores := errores s |}.
Definition incr_reconexiones (s : t) : t :=
    {| mensajes_enviados := mensajes_enviados s; mensajes_recibidos := mensajes_recibidos s;
    acks_enviados := acks_enviados s; acks_recibidos := acks_recibidos s; reconexiones :=
    reconexiones s + 1; errores := errores s |}.
Definition incr_errores (s : t) : t :=
    {| mensajes_enviados := mensajes_enviados s; mensajes_recibidos := mensajes_recibidos s;
    acks_enviados := acks_enviados s; acks_recibidos := acks_recibidos s; reconexiones :=
    reconexiones s; errores := errores s + 1 |}.
  (** Pointwise order on the six counters. *)
Definition le (a b : t) : Prop :=
    mensajes_enviados a <= mensajes_enviados b /\
    mensajes_recibidos a <= mensajes_recibidos b /\
    acks_enviados a <= acks_enviados b /\
    acks_recibidos a <= acks_recibidos b /\
    reconexiones a <= reconexiones b /\
    errores a <= errores b.
End Stats.

(** Exceptions raised inside the modelled methods. *)
Inductive excepcion :=
  | JSONDecodeError
  | UnicodeDecodeError
  | AttributeError
  | TypeError
  | StructError
  | OSError
  | ErrorRetrollamada.

(** What the object does to the outside, in order. A socket is named by
    the number it was created with. *)
Inductive evento :=
  | Envio (s : nat) (mensaje : pyval) (datos : list byte)
  | EnvioFallido (s : option nat) (mensaje : pyval) (e : excepcion)
  | Retrollamada (contenido remitente : pyval)
  | Impresion (remitente contenido : pyval)
  | IntentoConexion (s : nat) (ok : bool)
  | HiloEscucha (s : nat)
  | Cierre (s : nat)
  | Sueno (ms : Z).

(** The [logging] calls of the class, one constructor per call site. *)
Inductive nivel := INFO | WARNING | ERROR.

Inductive nota :=
  | ClienteConectado
  | IntentoFallo (reintentos : Z)
  | NoSePudoConectar
  | ErrorManejandoCliente (e : excepcion)
  | ErrorRecibiendoDatos
  | Recibido (mensaje : pyval)
  | AckRecibido (mensaje_id : pyval)
  | ErrorDecodificandoJSON (mensaje_texto : string)
  | ErrorProcesando (e : excepcion)
  | NoHayConexion
  | ErrorEnviando (e : excepcion)
  | TimeoutMensaje (mensaje_id reintentos : Z)
  | MensajeFallo (mensaje_id : Z)
  | ErrorConexionDetectado
  | IntentandoReconectar
  | ConexionCerrada
  | HeartbeatFallo.

(** The attributes of [self] set by [__init__], followed by the world:
    - [reloj]: the clock read by [time.time()], in milliseconds;
    - [traza]: the events so far, each with the time it happened, oldest
      first; [registro]: the log;
    - [envios]: whether each coming [sendall] succeeds ([true] once the
      list is used up); [conexiones]: whether each coming [connect]
      succeeds ([false] once used up);
    - [llegadas]: for each coming polling sleep of a sender blocked in
      [_esperar_ack], the frames (socket, text) the receive thread hands to
      the dispatcher meanwhile.
    [callback_mensaje], when set, is represented by its outcome: whether
    the call returns ([true]) or raises. Times ([timeout_ack],
    [intervalo_heartbeat]) are in milliseconds. *)
Record estado := {
  nombre : string;
  es_servidor : bool;
  timeout_ack : Z;
  max_reintentos : Z;
  intervalo_heartbeat : Z;
  socket_cliente : option nat;
  conexion_activa : bool;
  ejecutando : bool;
  mensajes_pendientes : gmap clave pyval;
  acks_recibidos : gset clave;
  callback_mensaje : option (pyval -> pyval -> bool);
  mensaje_id : Z;
  stats : Stats.t;
  reloj : Z;
  traza : list (Z * evento);
  registro : list (nivel * nota);
  envios : list bool;
  conexiones : list bool;
  llegadas : list (list (nat * string));
  sockets_creados : nat
}.

Definition con_socket_cliente (v : option nat) (st : estado) : estado :=
  {| nombre := nombre st; es_servidor := es_servidor st; timeout_ack := timeout_ack st;
  max_reintentos := max_reintentos st; intervalo_heartbeat := intervalo_heartbeat st;
  socket_cliente := v; conexion_activa := conexion_activa st; ejecutando := ejecutando st;
  mensajes_pendientes := mensajes_pendientes st; acks_recibidos := acks_recibidos st;
  callback_mensaje := callback_mensaje st; mensaje_id := mensaje_id st; stats := stats st; reloj
  := reloj st; traza := traza st; registro := registro st; envios := envios st; conexiones :=
  conexiones st; llegadas := llegadas st; sockets_creados := sockets_creados st |}.

Definition con_conexion_activa (v : bool) (st : estado) : estado :=
  {| nombre := nombre st; es_servidor := es_servidor st; timeout_ack := timeout_ack st;
  max_reintentos := max_reintentos st; intervalo_heartbeat := intervalo_heartbeat st;
  socket_cliente := socket_cliente st; conexion_activa := v; ejecutando := ejecutando st;
  mensajes_pendientes := mensajes_pendientes st; acks_recibidos := acks_recibidos st;
  callback_mensaje := callback_mensaje st; mensaje_id := mensaje_id st; stats := stats st; reloj
  := reloj st; traza := traza st; registro := registro st; envios := envios st; conexiones :=
  conexiones st; llegadas := llegadas st; sockets_creados := sockets_creados st |}.

Definition con_ejecutando (v : bool) (st : estado) : estado :=
  {| nombre := nombre st; es_servidor := es_servidor st; timeout_ack := timeout_ack st;
  max_reintentos := max_reintentos st; intervalo_heartbeat := intervalo_heartbeat st;
  socket_cliente := socket_cliente st; conexion_activa := conexion_activa st; ejecutando := v;
  mensajes_pendientes := mensajes_pendientes st; acks_recibidos := acks_recibidos st;
  callback_mensaje := callback_mensaje st; mensaje_id := mensaje_id st; stats := stats st; reloj
  := reloj st; traza := traza st; registro := registro st; envios := envios st; conexiones :=
  conexiones st; llegadas := llegadas st; sockets_creados := sockets_creados st |}.

Definition con_mensajes_pendientes (v : gmap clave pyval) (st : estado) : estado :=
  {| nombre := nombre st; es_servidor := es_servidor st; timeout_ack := timeout_ack st;
  max_reintentos := max_reintentos st; intervalo_heartbeat := intervalo_heartbeat st;
  socket_cliente := socket_cliente st; conexion_activa := conexion_activa st; ejecutando :=
  ejecutando st; mensajes_pendientes := v; acks_recibidos := acks_recibidos st; callback_mensaje
  := callback_mensaje st; mensaje_id := mensaje_id st; stats := stats st; reloj := reloj st; traza
  := traza st; registro := registro st; envios := envios st; conexiones := conexiones st; llegadas
  := llegadas st; sockets_creados := sockets_creados st |}.

Definition con_acks_recibidos (v : gset clave) (st : estado) : estado :=
  {| nombre := nombre st; es_servidor := es_servidor st; timeout_ack := timeout_ack st;
  max_reintentos := max_reintentos st; intervalo_heartbeat := intervalo_heartbeat st;
  socket_cliente := socket_cliente st; conexion_activa := conexion_activa st; ejecutando :=
  ejecutando st; mensajes_pendientes := mensajes_pendientes st; acks_recibidos := v;
  callback_mensaje := callback_mensaje st; mensaje_id := mensaje_id st; stats := stats st; reloj
  := reloj st; traza := traza st; registro := registro st; envios := envios st; conexiones :=
  conexiones st; llegadas := llegadas st; sockets_creados := sockets_creados st |}.

Definition con_callback_mensaje (v : option (pyval -> pyval -> bool)) (st : estado) : estado :=
  {| nombre := nombre st; es_servidor := es_servidor st; timeout_ack := timeout_ack st;
  max_reintentos := max_reintentos st; intervalo_heartbeat := intervalo_heartbeat st;
  socket_cliente := socket_cliente st; conexion_activa := conexion_activa st; ejecutando :=
  ejecutando st; mensajes_pendientes := mensajes_pendientes st; acks_recibidos := acks_recibidos
  st; callback_mensaje := v; mensaje_id := mensaje_id st; stats := stats st; reloj := reloj st;
  traza := traza st; registro := registro st; envios := envios st; conexiones := conexiones st;
  llegadas := llegadas st; sockets_creados := sockets_creados st |}.

Definition con_mensaje_id (v : Z) (st : estado) : estado :=
  {| nombre := nombre st; es_servidor := es_servidor st; timeout_ack := timeout_ack st;
  max_reintentos := max_reintentos st; intervalo_heartbeat := intervalo_heartbeat st;
  socket_cliente := socket_cliente st; conexion_activa := conexion_activa st; ejecutando :=
  ejecutando st; mensajes_pendientes := mensajes_pendientes st; acks_recibidos := acks_recibidos
  st; callback_mensaje := callback_mensaje st; mensaje_id := v; stats := stats st; reloj := reloj
  st; traza := traza st; registro := registro st; envios := envios st; conexiones := conexiones
  st; llegadas := llegadas st; sockets_creados := sockets_creados st |}.

Definition con_stats (v : Stats.t) (st : estado) : estado :=
  {| nombre := nombre st; es_servidor := es_servidor st; timeout_ack := timeout_ack st;
  max_reintentos := max_reintentos st; intervalo_heartbeat := intervalo_heartbeat st;
  socket_cliente := socket_cliente st; conexion_activa := conexion_activa st; ejecutando :=
  ejecutando st; mensajes_pendientes := mensajes_pendientes st; acks_recibidos := acks_recibidos
  st; callback_mensaje := callback_mensaje st; mensaje_id := mensaje_id st; stats := v; reloj :=
  reloj st; traza := traza st; registro := registro st; envios := envios st; conexiones :=
  conexiones st; llegadas := llegadas st; sockets_creados := sockets_creados st |}.

Definition con_reloj (v : Z) (st : estado) : estado :=
  {| nombre := nombre st; es_servidor := es_servidor st; timeout_ack := timeout_ack st;
  max_reintentos := max_reintentos st; intervalo_heartbeat := intervalo_heartbeat st;
  socket_cliente := socket_cliente st; conexion_activa := conexion_activa st; ejecutando :=
  ejecutando st; mensajes_pendientes := mensajes_pendientes st; acks_recibidos := acks_recibidos
  st; callback_mensaje := callback_mensaje st; mensaje_id := mensaje_id st; stats := stats st;
  reloj := v; traza := traza st; registro := registro st; envios := envios st; conexiones :=
  conexiones st; llegadas := llegadas st; sockets_creados := sockets_creados st |}.

Definition con_traza (v : list (Z * evento)) (st : estado) : estado :=
  {| nombre := nombre st; es_servidor := es_servidor st; timeout_ack := timeout_ack st;
  max_reintentos := max_reintentos st; intervalo_heartbeat := intervalo_heartbeat st;
  socket_cliente := socket_cliente st; conexion_activa := conexion_activa st; ejecutando :=
  ejecutando st; mensajes_pendientes := mensajes_pendientes st; acks_recibidos := acks_recibidos
  st; callback_mensaje := callback_mensaje st; mensaje_id := mensaje_id st; stats := stats st;
  reloj := reloj st; traza := v; registro := registro st; envios := envios st; conexiones :=
  conexiones st; llegadas := llegadas st; sockets_creados := sockets_creados st |}.

Definition con_registro (v : list (nivel * nota)) (st : estado) : estado :=
  {| nombre := nombre st; es_servidor := es_servidor st; timeout_ack := timeout_ack st;
  max_reintentos := max_reintentos st; intervalo_heartbeat := intervalo_heartbeat st;
  socket_cliente := socket_cliente st; conexion_activa := conexion_activa st; ejecutando :=
  ejecutando st; mensajes_pendientes := mensajes_pendientes st; acks_recibidos := acks_recibidos
  st; callback_mensaje := callback_mensaje st; mensaje_id := mensaje_id st; stats := stats st;
  reloj := reloj st; traza := traza st; registro := v; envios := envios st; conexiones :=
  conexiones st; llegadas := llegadas st; sockets_creados := sockets_creados st |}.

Definition con_envios (v : list bool) (st : estado) : estado :=
  {| nombre := nombre st; es_servidor := es_servidor st; timeout_ack := timeout_ack st;
  max_reintentos := max_reintentos st; intervalo_heartbeat := intervalo_heartbeat st;
  socket_cliente := socket_cliente st; conexion_activa := conexion_activa st; ejecutando :=
  ejecutando st; mensajes_pendientes := mensajes_pendientes st; acks_recibidos := acks_recibidos
  st; callback_mensaje := callback_mensaje st; mensaje_id := mensaje_id st; stats := stats st;
  reloj := reloj st; traza := traza st; registro := registro st; envios := v; conexiones :=
  conexiones st; llegadas := llegadas st; sockets_creados := sockets_creados st |}.

Definition con_conexiones (v : list bool) (st : estado) : estado :=
  {| nombre := nombre st; es_servidor := es_servidor st; timeout_ack := timeout_ack st;
  max_reintentos := max_reintentos st; intervalo_heartbeat := intervalo_heartbeat st;
  socket_cliente := socket_cliente st; conexion_activa := conexion_activa st; ejecutando :=
  ejecutando st; mensajes_pendientes := mensajes_pendientes st; acks_recibidos := acks_recibidos
  st; callback_mensaje := callback_mensaje st; mensaje_id := mensaje_id st; stats := stats st;
  reloj := reloj st; traza := traza st; registro := registro st; envios := envios st; conexiones
  := v; llegadas := llegadas st; sockets_creados := sockets_creados st |}.

Definition con_llegadas (v : list (list (nat * string))) (st : estado) : estado :=
  {| nombre := nombre st; es_servidor := es_servidor st; timeout_ack := timeout_ack st;
  max_reintentos := max_reintentos st; intervalo_heartbeat := intervalo_heartbeat st;
  socket_cliente := socket_cliente st; conexion_activa := conexion_activa st; ejecutando :=
  ejecutando st; mensajes_pendientes := mensajes_pendientes st; acks_recibidos := acks_recibidos
  st; callback_mensaje := callback_mensaje st; mensaje_id := mensaje_id st; stats := stats st;
  reloj := reloj st; traza := traza st; registro := registro st; envios := envios st; conexiones
  := conexiones st; llegadas := v; sockets_creados := sockets_creados st |}.

Definition con_sockets_creados (v : nat) (st : estado) : estado :=
  {| nombre := nombre st; es_servidor := es_servidor st; timeout_ack := timeout_ack st;
  max_reintentos := max_reintentos st; intervalo_heartbeat := intervalo_heartbeat st;
  socket_cliente := socket_cliente st; conexion_activa := conexion_activa st; ejecutando :=
  ejecutando st; mensajes_pendientes := mensajes_pendientes st; acks_recibidos := acks_recibidos
  st; callback_mensaje := callback_mensaje st; mensaje_id := mensaje_id st; stats := stats st;
  reloj := reloj st; traza := traza st; registro := registro st; envios := envios st; conexiones
  := conexiones st; llegadas := llegadas st; sockets_creados := v |}.

(** ** The monad of methods

    A method runs on a state and ends normally, by raising, or not at all
    within the steps allowed ([Agotado]); the state reached is kept in each
    case, so that what a [try] body did before raising is still there in
    the handler. *)

Inductive resultado (A : Type) :=
  | Normal (a : A)
  | Lanza (e : excepcion)
  | Agotado.
Arguments Normal {A} a.
Arguments Lanza {A} e.
Arguments Agotado {A}.

Definition Py (A : Type) : Type := estado -> resultado A * estado.

Definition ret {A} (a : A) : Py A := fun st => (Normal a, st).

Definition bind {A B} (m : Py A) (k : A -> Py B) : Py B :=
  fun st =>
    match m st with
    | (Normal a, st') => k a st'
    | (Lanza e, st') => (Lanza e, st')
    | (Agotado, st') => (Agotado, st')
    end.

Declare Scope py_scope.
Delimit Scope py_scope with py.
Notation "x <- m ;; k" := (bind m (fun x => k))
  (at level 100, m at next level, k at level 200, right associativity) : py_scope.
Notation "m ;; k" := (bind m (fun _ => k))
  (at level 100, k at level 200, right associativity) : py_scope.
Local Open Scope py_scope.

(** [raise e] *)
Definition lanzar {A} (e : excepcion) : Py A := fun st => (Lanza e, st).

(** Out of steps. *)
Definition agotado {A} : Py A := fun st => (Agotado, st).

(** [try: m  except Exception as e: h e] *)
Definition intentar {A} (m : Py A) (h : excepcion -> Py A) : Py A :=
  fun st =>
    match m st with
    | (Lanza e, st') => h e st'
    | r => r
    end.

(** [try: m  finally: f] *)
Definition finalmente {A} (m : Py A) (f : Py unit) : Py A :=
  fun st =>
    match m st with
    | (Normal a, st') => (f ;; ret a) st'
    | (Lanza e, st') => (f ;; lanzar e) st'
    | (Agotado, st') => (Agotado, st')
    end.

Definition leer : Py estado := fun st => (Normal st, st).

Definition modificar (f : estado -> estado) : Py unit :=
  fun st => (Normal tt, f st).

(** [cuando b m]: [if b: m] *)
Definition cuando (b : bool) (m : Py unit) : Py unit :=
  if b then m else ret tt.

(** ** Primitive effects *)

(** [time.time()] *)
Definition time_time : Py Z := fun st => (Normal (reloj st), st).

Definition emitir (e : evento) : Py unit :=
  modificar (fun st => con_traza (traza st ++ [(reloj st, e)]) st).

(** [logging.info], [logging.warning], [logging.error] *)
Definition anotar (n : nivel) (x : nota) : Py unit :=
  modificar (fun st => con_registro (registro st ++ [(n, x)]) st).

(** [time.sleep(ms / 1000)] in a thread whose sleep lets nothing else
    touch the object. *)
Definition time_sleep (ms : Z) : Py unit :=
  emitir (Sueno ms) ;;
  modificar (fun st => con_reloj (reloj st + ms) st).

(** [self.stats[k] += 1] *)
Definition incr (f : Stats.t -> Stats.t) : Py unit :=
  modificar (fun st => con_stats (f (stats st)) st).

(** [socket.socket(AF_INET, SOCK_STREAM)]: a fresh socket. *)
Definition socket_socket : Py nat :=
  fun st => (Normal (sockets_creados st), con_sockets_creados (S (sockets_creados st)) st).

(** [s.connect((host, puerto))]: succeeds or raises as [conexiones] says. *)
Definition connect (s : nat) : Py unit :=
  st <- leer ;;
  let ok := match conexiones st with [] => false | b :: _ => b end in
  modificar (fun st => con_conexiones (tail (conexiones st)) st) ;;
  emitir (IntentoConexion s ok) ;;
  if ok then ret tt else lanzar OSError.

(** [socket_destino.sendall(datos)]: [None] has no [sendall]; on a socket
    the write succeeds or raises as [envios] says. [mensaje] is the value
    being sent, kept in the event. *)
Definition sendall (socket_destino : option nat) (mensaje : pyval) (datos : list byte)
  : Py unit :=
  match socket_destino with
  | None => lanzar AttributeError
  | Some s =>
    st <- leer ;;
    let ok := match envios st with [] => true | b :: _ => b end in
    modificar (fun st => con_envios (tail (envios st)) st) ;;
    if ok then emitir (Envio s mensaje datos) else lanzar OSError
  end.

(** [s.close()] inside [try: ... except: pass] *)
Definition close (s : nat) : Py unit := emitir (Cierre s).

(** Lifting of partial library functions to raising computations. *)
Definition struct_pack (n : N) : Py (list byte) :=
  match struct_pack_I n with
  | Some bs => ret bs
  | None => lanzar StructError
  end.

Definition struct_unpack (bs : list byte) : Py N :=
  match struct_unpack_I bs with
  | Some n => ret n
  | None => lanzar StructError
  end.

(** [datos.decode('utf-8')] *)
Definition decode_utf8 (datos : list byte) : Py string :=
  if utf8_valido datos then ret (string_of_list_byte datos)
  else lanzar UnicodeDecodeError.

(** [mensaje.get(k)]: only a dict has [get]. *)
Definition py_get (mensaje : pyval) (k : string) : Py pyval :=
  match mensaje with
  | VDict d => ret (dict_get k d)
  | _ => lanzar AttributeError
  end.

(** [mensaje.get(k, defecto)] *)
Definition py_get_def (mensaje : pyval) (k : string) (defecto : pyval) : Py pyval :=
  match mensaje with
  | VDict d => ret (dict_get_def k defecto d)
  | _ => lanzar AttributeError
  end.

(** Hashing a value, as [set.add] and [in] do first. *)
Definition hash (v : pyval) : Py clave :=
  match clave_de v with
  | Some k => ret k
  | None => lanzar TypeError
  end.

(** A socket as the receive loop sees it: [corriente] is what the peer
    sends before closing, not yet read; [guion] says how the coming [recv]
    calls go. *)
Inductive recepcion :=
  | Entrega (k : nat)   (* at most [k + 1] bytes are there *)
  | Expira              (* [socket.timeout] *)
  | Falla.              (* any other exception *)

Record socket := {
  fileno : nat;
  corriente : list byte;
  guion : list recepcion
}.

(** ** The methods of [ComunicacionTCPConfiable] *)

(** [__init__(self, nombre, es_servidor, ...)], in a world with the given
    clock and scripts. *)
Definition __init__ (nombre : string) (es_servidor : bool)
    (reloj : Z) (envios conexiones : list bool) (llegadas : list (list (nat * string)))
  : estado :=
  {| nombre := nombre;
     es_servidor := es_servidor;
     socket_cliente := None;
     conexion_activa := false;
     ejecutando := false;
     mensajes_pendientes := ∅;
     acks_recibidos := ∅;
     callback_mensaje := None;
     timeout_ack := 5000;
     max_reintentos := 3;
     intervalo_heartbeat := 10000;
     mensaje_id := 0;
     stats := Stats.cero;
     reloj := reloj;
     traza := [];
     registro := [];
     envios := envios;
     conexiones := conexiones;
     llegadas := llegadas;
     sockets_creados := 0 |}.

(** [_limpiar_conexion(self, socket_cliente)] *)
Definition _limpiar_conexion (socket_cliente : nat) : Py unit :=
  modificar (con_conexion_activa false) ;;
  close socket_cliente ;;
  anotar INFO ConexionCerrada.

(** The loop of [_conectar_servidor]. It runs while [reintentos <
    max_reintentos], and [reintentos] grows by one in every round that does
    not return: [n] counts the rounds left (see [conectar_bucle_rondas]). *)
Fixpoint conectar_bucle (n : nat) (reintentos : Z) : Py bool :=
  match n with
  | O => ret false
  | S n' =>
    st <- leer ;;
    if ejecutando st && (reintentos <? max_reintentos st) then
      r <- intentar
             (s <- socket_socket ;;
              modificar (con_socket_cliente (Some s)) ;;
              connect s ;;
              modificar (con_conexion_activa true) ;;
              anotar INFO ClienteConectado ;;
              emitir (HiloEscucha s) ;;
              cuando (0 <? reintentos) (incr Stats.incr_reconexiones) ;;
              ret (Some true))
             (fun e =>
                let reintentos := reintentos + 1 in
                anotar WARNING (IntentoFallo reintentos) ;;
                st <- leer ;;
                (if reintentos <? max_reintentos st
                 then time_sleep (1000 * 2 ^ reintentos)
                 else (anotar ERROR NoSePudoConectar ;;
                       incr Stats.incr_errores)) ;;
                ret None) ;;
      match r with
      | Some b => ret b
      | None => conectar_bucle n' (reintentos + 1)
      end
    else ret false
  end.

(** [_conectar_servidor(self)] *)
Definition _conectar_servidor : Py bool :=
  st <- leer ;;
  conectar_bucle (Z.to_nat (max_reintentos st)) 0.

(** [_manejar_error_conexion(self)] *)
Definition _manejar_error_conexion : Py unit :=
  anotar WARNING ErrorConexionDetectado ;;
  modificar (con_conexion_activa false) ;;
  st <- leer ;;
  match socket_cliente st with
  | Some s => close s ;; modificar (con_socket_cliente None)
  | None => ret tt
  end ;;
  st <- leer ;;
  if negb (es_servidor st) && ejecutando st then
    anotar INFO IntentandoReconectar ;;
    time_sleep 2000 ;;
    _ <- _conectar_servidor ;;
    ret tt
  else ret tt.

(** ** A reference [json]

    [Json.dumps] prints as [json.dumps] does with its defaults
    ([ensure_ascii], separators [", "] and [": "]); [Json.loads] reads
    the JSON grammar as [json.loads] does (strict). Floats are read and
    printed in thousandths: a number with more decimals, an exponent that
    leaves a finer fraction, [NaN] and [Infinity] are not values of the
    model and are refused. Used to run the methods on concrete texts. *)
Module Json.

Definition car (b : byte) : N := Byte.to_N b.

(** Decimal digits of [n], most significant first. *)
Fixpoint digitos_desde (fuel : nat) (n : N) (acc : list byte) : list byte :=
  match fuel with
  | O => acc
  | S fuel' =>
    let acc' := byte_de_N (48 + n mod 10) :: acc in
    if (n <? 10)%N then acc' else digitos_desde fuel' (n / 10) acc'
  end.

Definition digitos (n : N) : list byte :=
  digitos_desde (S (N.to_nat (N.log2 n))) n [].

(** [repr] of an [int] *)
Definition entero (z : Z) : list byte :=
  if z <? 0 then x2d :: digitos (Z.to_N (- z)) else digitos (Z.to_N z).

(** [repr] of a [float] given in thousandths: at least one decimal, no
    trailing zero. *)
Definition flotante (m : Z) : list byte :=
  let a := Z.to_N (Z.abs m) in
  let f := (a mod 1000)%N in
  let d1 := byte_de_N (48 + f / 100) in
  let d2 := byte_de_N (48 + (f / 10) mod 10) in
  let d3 := byte_de_N (48 + f mod 10) in
  (if m <? 0 then [x2d] else []) ++ digitos (a / 1000) ++ [x2e] ++
  (if negb (f mod 10 =? 0)%N then [d1; d2; d3]
   else if negb ((f / 10) mod 10 =? 0)%N then [d1; d2]
   else [d1]).

Definition hex (n : N) : byte :=
  let d := (n mod 16)%N in
  if (d <? 10)%N then byte_de_N (48 + d) else byte_de_N (87 + d).

(** [\uXXXX] for a code unit *)
Definition escape_u (u : N) : list byte :=
  [x5c; x75; hex (u / 4096); hex (u / 256); hex (u / 16); hex u].

(** The escape of a code point: a surrogate pair above U+FFFF. *)
Definition escape_punto (cp : N) : list byte :=
  if (cp <? 0x10000)%N then escape_u cp
  else
    let v := (cp - 0x10000)%N in
    escape_u (0xD800 + v / 0x400) ++ escape_u (0xDC00 + v mod 0x400).

(** The body of a string literal, from the UTF-8 bytes of the [str]. *)
Fixpoint escapar (bs : list byte) : list byte :=
  match bs with
  | [] => []
  | b0 :: r0 =>
    let c0 := car b0 in
    if (c0 =? 0x22)%N then x5c :: x22 :: escapar r0
    else if (c0 =? 0x5c)%N then x5c :: x5c :: escapar r0
    else if (c0 =? 0x0a)%N then x5c :: x6e :: escapar r0
    else if (c0 =? 0x0d)%N then x5c :: x72 :: escapar r0
    else if (c0 =? 0x09)%N then x5c :: x74 :: escapar r0
    else if (c0 =? 0x08)%N then x5c :: x62 :: escapar r0
    else if (c0 =? 0x0c)%N then x5c :: x66 :: escapar r0
    else if entre 0x20 0x7e c0 then b0 :: escapar r0
    else if (c0 <? 0xC0)%N then escape_u c0 ++ escapar r0
    else match r0 with
    | [] => escape_u c0
    | b1 :: r1 =>
      let c1 := (car b1 mod 64)%N in
      if (c0 <? 0xE0)%N then escape_punto ((c0 mod 32) * 64 + c1) ++ escapar r1
      else match r1 with
      | [] => escape_u c0
      | b2 :: r2 =>
        let c2 := (car b2 mod 64)%N in
        if (c0 <? 0xF0)%N
        then escape_punto (((c0 mod 16) * 64 + c1) * 64 + c2) ++ escapar r2
        else match r2 with
        | [] => escape_u c0
        | b3 :: r3 =>
          let c3 := (car b3 mod 64)%N in
          escape_punto ((((c0 mod 8) * 64 + c1) * 64 + c2) * 64 + c3) ++ escapar r3
        end
      end
    end
  end.

Definition literal (s : string) : list byte :=
  x22 :: escapar (list_byte_of_string s) ++ [x22].

(** [", ".join(partes)] *)
Fixpoint unir (partes : list (list byte)) : list byte :=
  match partes with
  | [] => []
  | [p] => p
  | p :: resto => p ++ [x2c; x20] ++ unir resto
  end.

Fixpoint imprimir (v : pyval) : list byte :=
  match v with
  | VNone => list_byte_of_string "null"
  | VBool true => list_byte_of_string "true"
  | VBool false => list_byte_of_string "false"
  | VInt z => entero z
  | VFloat m => flotante m
  | VStr s => literal s
  | VList l => [x5b] ++ unir (map imprimir l) ++ [x5d]
  | VDict d =>
    [x7b] ++ unir (map (fun kv => literal kv.1 ++ [x3a; x20] ++ imprimir kv.2) d) ++ [x7d]
  end.

(** [json.dumps(v)] *)
Definition dumps (v : pyval) : string := string_of_list_byte (imprimir v).

(** *** Reading *)

Definition es_espacio (b : byte) : bool :=
  let c := car b in
  ((c =? 0x20) || (c =? 0x09) || (c =? 0x0a) || (c =? 0x0d))%N.

Fixpoint saltar (bs : list byte) : list byte :=
  match bs with
  | b :: r => if es_espacio b then saltar r else bs
  | [] => []
  end.

Definition valor_hex (b : byte) : option N :=
  let c := car b in
  if entre 0x30 0x39 c then Some (c - 0x30)%N
  else if entre 0x61 0x66 c then Some (c - 0x61 + 10)%N
  else if entre 0x41 0x46 c then Some (c - 0x41 + 10)%N
  else None.

Definition hex4 (h1 h2 h3 h4 : byte) : option N :=
  match valor_hex h1, valor_hex h2, valor_hex h3, valor_hex h4 with
  | Some a, Some b, Some c, Some d => Some (((a * 16 + b) * 16 + c) * 16 + d)%N
  | _, _, _, _ => None
  end.

(** The UTF-8 bytes of a code point. *)
Definition utf8_de (cp : N) : list byte :=
  if (cp <? 0x80)%N then [byte_de_N cp]
  else if (cp <? 0x800)%N then
    [byte_de_N (0xC0 + cp / 64); byte_de_N (0x80 + cp mod 64)]
  else if (cp <? 0x10000)%N then
    [byte_de_N (0xE0 + cp / 4096); byte_de_N (0x80 + (cp / 64) mod 64);
     byte_de_N (0x80 + cp mod 64)]
  else
    [byte_de_N (0xF0 + cp / 262144); byte_de_N (0x80 + (cp / 4096) mod 64);
     byte_de_N (0x80 + (cp / 64) mod 64); byte_de_N (0x80 + cp mod 64)].

(** A string literal after its opening quote: the bytes of the [str] read
    (last first in [acc]) and what follows the closing quote. *)
Fixpoint cadena (bs : list byte) (acc : list byte) : option (list byte * list byte) :=
  match bs with
  | [] => None
  | b :: r =>
    let c := car b in
    if (c =? 0x22)%N then Some (rev acc, r)
    else if (c <? 0x20)%N then None
    else if negb (c =? 0x5c)%N then cadena r (b :: acc)
    else match r with
    | [] => None
    | e :: r1 =>
      let ce := car e in
      if (ce =? 0x22)%N then cadena r1 (x22 :: acc)
      else if (ce =? 0x5c)%N then cadena r1 (x5c :: acc)
      else if (ce =? 0x2f)%N then cadena r1 (x2f :: acc)
      else if (ce =? 0x62)%N then cadena r1 (x08 :: acc)
      else if (ce =? 0x66)%N then cadena r1 (x0c :: acc)
      else if (ce =? 0x6e)%N then cadena r1 (x0a :: acc)
      else if (ce =? 0x72)%N then cadena r1 (x0d :: acc)
      else if (ce =? 0x74)%N then cadena r1 (x09 :: acc)
      else if negb (ce =? 0x75)%N then None
      else match r1 with
      | h1 :: h2 :: h3 :: h4 :: r2 =>
        match hex4 h1 h2 h3 h4 with
        | None => None
        | Some u =>
          let solo := cadena r2 (rev (utf8_de u) ++ acc) in
          if negb (entre 0xD800 0xDBFF u) then solo
          else match r2 with
          | s :: t :: l1 :: l2 :: l3 :: l4 :: r3 =>
            match hex4 l1 l2 l3 l4 with
            | Some w =>
              if (car s =? 0x5c)%N && (car t =? 0x75)%N && entre 0xDC00 0xDFFF w
              then cadena r3
                     (rev (utf8_de (0x10000 + (u - 0xD800) * 0x400 + (w - 0xDC00))) ++ acc)
              else solo
            | None => solo
            end
          | _ => solo
          end
        end
      | _ => None
      end
    end
  end.

(** A run of decimal digits: their value, how many, and the rest. *)
Fixpoint cifras (bs : list byte) (v : N) (n : nat) : N * nat * list byte :=
  match bs with
  | b :: r =>
    if entre 0x30 0x39 (car b) then cifras r (v * 10 + (car b - 0x30))%N (S n)
    else (v, n, bs)
  | [] => (v, n, [])
  end.

(** A number, after its sign if any: [int] when it has neither fraction
    nor exponent, else a [float]. *)
Definition numero (negativo : bool) (bs : list byte) : option (pyval * list byte) :=
  let signo (z : Z) := if negativo then - z else z in
  match bs with
  | [] => None
  | b :: r =>
    if negb (entre 0x30 0x39 (car b)) then None
    else
      let '(ent, _, r1) := if (car b =? 0x30)%N then (0%N, 1%nat, r) else cifras bs 0 0 in
      let fraccion :=
        match r1 with
        | p :: r2 =>
          if (car p =? 0x2e)%N then
            match cifras r2 0 0 with
            | (_, O, _) => None
            | (f, nf, r3) => Some (Some (f, nf), r3)
            end
          else Some (None, r1)
        | [] => Some (None, r1)
        end in
      match fraccion with
      | None => None
      | Some (fr, r3) =>
        let exponente :=
          match r3 with
          | e :: r4 =>
            if (car e =? 0x65)%N || (car e =? 0x45)%N then
              let '(neg, r5) :=
                match r4 with
                | s :: r5 =>
                  if (car s =? 0x2d)%N then (true, r5)
                  else if (car s =? 0x2b)%N then (false, r5)
                  else (false, r4)
                | [] => (false, r4)
                end in
              match cifras r5 0 0 with
              | (_, O, _) => Some (None, r3)
              | (x, _, r6) => Some (Some (if neg then - Z.of_N x else Z.of_N x), r6)
              end
            else Some (None, r3)
          | [] => Some (None, r3)
          end in
        match exponente with
        | None => None
        | Some (ex, r6) =>
          match fr, ex with
          | None, None => Some (VInt (signo (Z.of_N ent)), r6)
          | _, _ =>
            let '(f, nf) := default (0%N, 0%nat) fr in
            let mant := Z.of_N (ent * 10 ^ N.of_nat nf + f) in
            let e10 := default 0 ex - Z.of_nat nf + 3 in
            if 0 <=? e10 then Some (VFloat (signo (mant * 10 ^ e10)), r6)
            else if mant mod 10 ^ (- e10) =? 0
            then Some (VFloat (signo (mant / 10 ^ (- e10))), r6)
            else None
          end
        end
      end
  end.

(** [bs] starts with the bytes of [palabra]: what follows them. *)
Fixpoint tras (palabra bs : list byte) : option (list byte) :=
  match palabra, bs with
  | [], _ => Some bs
  | p :: palabra', b :: bs' => if (car p =? car b)%N then tras palabra' bs' else None
  | _ :: _, [] => None
  end.

(** [d[k] = v] on the items of a dict *)
Fixpoint dict_set (k : string) (v : pyval) (d : list (string * pyval))
  : list (string * pyval) :=
  match d with
  | [] => [(k, v)]
  | (k', v') :: d' =>
    if String.eqb k k' then (k, v) :: d' else (k', v') :: dict_set k v d'
  end.

(** A value, the elements of an array after [[] or [,], the members of an
    object after [{] or [,]. *)
Fixpoint valor (fuel : nat) (bs : list byte) : option (pyval * list byte) :=
  match fuel with
  | O => None
  | S fuel' =>
    match saltar bs with
    | [] => None
    | b :: r =>
      let c := car b in
      if (c =? 0x22)%N then
        match cadena r [] with
        | Some (s, r') => Some (VStr (string_of_list_byte s), r')
        | None => None
        end
      else if (c =? 0x7b)%N then
        match saltar r with
        | b' :: r' =>
          if (car b' =? 0x7d)%N then Some (VDict [], r') else miembros fuel' r []
        | [] => None
        end
      else if (c =? 0x5b)%N then
        match saltar r with
        | b' :: r' =>
          if (car b' =? 0x5d)%N then Some (VList [], r') else elementos fuel' r []
        | [] => None
        end
      else if (c =? 0x6e)%N then
        option_map (fun r' => (VNone, r')) (tras (list_byte_of_string "ull") r)
      else if (c =? 0x74)%N then
        option_map (fun r' => (VBool true, r')) (tras (list_byte_of_string "rue") r)
      else if (c =? 0x66)%N then
        option_map (fun r' => (VBool false, r')) (tras (list_byte_of_string "alse") r)
      else if (c =? 0x2d)%N then numero true r
      else numero false (b :: r)
    end
  end
with elementos (fuel : nat) (bs : list byte) (acc : list pyval)
  : option (pyval * list byte) :=
  match fuel with
  | O => None
  | S fuel' =>
    match valor fuel' bs with
    | None => None
    | Some (v, r) =>
      match saltar r with
      | b :: r' =>
        if (car b =? 0x2c)%N then elementos fuel' r' (v :: acc)
        else if (car b =? 0x5d)%N then Some (VList (rev (v :: acc)), r')
        else None
      | [] => None
      end
    end
  end
with miembros (fuel : nat) (bs : list byte) (acc : list (string * pyval))
  : option (pyval * list byte) :=
  match fuel with
  | O => None
  | S fuel' =>
    match saltar bs with
    | q :: r0 =>
      if negb (car q =? 0x22)%N then None
      else match cadena r0 [] with
      | None => None
      | Some (k, r1) =>
        match saltar r1 with
        | dp :: r2 =>
          if negb (car dp =? 0x3a)%N then None
          else match valor fuel' r2 with
          | None => None
          | Some (v, r3) =>
            let acc' := dict_set (string_of_list_byte k) v acc in
            match saltar r3 with
            | b :: r4 =>
              if (car b =? 0x2c)%N then miembros fuel' r4 acc'
              else if (car b =? 0x7d)%N then Some (VDict acc', r4)
              else None
            | [] => None
            end
          end
        | [] => None
        end
      end
    | [] => None
    end
  end.

(** [json.loads(s)]; [None] is [json.JSONDecodeError]. *)
Definition loads (s : string) : option pyval :=
  let bs := list_byte_of_string s in
  match valor (S (List.length bs)) bs with
  | Some (v, r) => match saltar r with [] => Some v | _ :: _ => None end
  | None => None
  end.

End Json.

(** ** Concrete objects, messages and sockets for the examples *)

(** A client right after it connected on socket 0, and a server that
    accepted socket 0 and has a callback that returns; the clock is at 0,
    every write succeeds, nothing arrives. *)
Definition cliente : estado :=
  con_sockets_creados 1
    (con_conexion_activa true
       (con_socket_cliente (Some 0%nat)
          (con_ejecutando true (__init__ "Cliente" false 0 [] [] [])))).

Definition servidor : estado :=
  con_sockets_creados 1
    (con_callback_mensaje (Some (fun _ _ => true))
       (con_conexion_activa true
          (con_socket_cliente (Some 0%nat)
             (con_ejecutando true (__init__ "Servidor" true 0 [] [] []))))).

(** A client that is started but not connected, whose [connect]s all
    fail. *)
Definition cliente_sin_servidor : estado :=
  con_ejecutando true (__init__ "Cliente" false 0 [] [] []).

(** The message [enviar_mensaje] builds for [contenido] in [cliente]. *)
Definition mensaje_de (contenido : pyval) (requiere_ack : bool) : pyval :=
  VDict [("tipo", VStr "MENSAJE");
         ("id", VInt 1);
         ("contenido", contenido);
         ("remitente", VStr "Cliente");
         ("timestamp", VFloat 0);
         ("requiere_ack", VBool requiere_ack)].

(** The ACK the dispatcher writes for it. *)
Definition ack_1 : pyval := VDict [("tipo", VStr "ACK"); ("mensaje_id", VInt 1)].

(** An ACK for a message nobody is waiting for. *)
Definition ack_7 : pyval := VDict [("tipo", VStr "ACK"); ("mensaje_id", VInt 7)].

(** The client once it has written message 1 of the examples and waits
    for its ACK. *)
Definition cliente_en_espera : estado :=
  con_mensajes_pendientes {[KInt 1 := mensaje_de (VStr "hola") true]}
    (con_mensaje_id 1 cliente).

(** A content of 2^32 letters [a]. *)
Definition contenido_enorme : pyval :=
  VStr (string_of_list_byte (replicate (N.to_nat (2 ^ 32)) x61)).

(** The frame of a text: its length on four bytes, then its bytes. *)
Definition trama_de (texto : string) : list byte :=
  let bs := list_byte_of_string texto in
  default [] (struct_pack_I (N.of_nat (List.length bs))) ++ bs.

(** A socket on which the peer sent [datos] and closed, read in pieces of
    at most three bytes with a timeout now and then. *)
Definition socket_con (datos : list byte) : socket :=
  {| fileno := 0;
     corriente := datos;
     guion := concat (replicate (List.length datos) [Entrega 2; Expira]) |}.

Section Comunicacion.

(** [json.dumps] and [json.loads] ([None]: [json.JSONDecodeError]). *)
Variable json_dumps : pyval -> string.
Variable json_loads : string -> option pyval.

(** The frame of a message, as [_enviar_mensaje_raw] builds it: the length
    of the UTF-8 JSON text on four bytes, then the text. *)
Definition codificar (mensaje : pyval) : Py (list byte) :=
  let mensaje_json := json_dumps mensaje in
  let mensaje_bytes := list_byte_of_string mensaje_json in
  longitud <- struct_pack (N.of_nat (List.length mensaje_bytes)) ;;
  ret (longitud ++ mensaje_bytes).

(** [_enviar_mensaje_raw(self, mensaje, socket_destino)]. A write that
    raised is recorded in the trace too ([EnvioFallido]), next to the
    error the handler logs. *)
Definition _enviar_mensaje_raw (mensaje : pyval) (socket_destino : option nat) : Py bool :=
  intentar
    (datos <- codificar mensaje ;;
     sendall socket_destino mensaje datos ;;
     ret true)
    (fun e =>
       emitir (EnvioFallido socket_destino mensaje e) ;;
       anotar ERROR (ErrorEnviando e) ;;
       _manejar_error_conexion ;;
       incr Stats.incr_errores ;;
       ret false).

(** The [try] body of [_procesar_mensaje_recibido], after [json.loads]. *)
Definition despachar (mensaje : pyval) (socket_cliente : nat) : Py unit :=
  tipo_mensaje <- py_get mensaje "tipo" ;;
  incr Stats.incr_mensajes_recibidos ;;
  anotar INFO (Recibido mensaje) ;;
  if es_cadena tipo_mensaje "HEARTBEAT" then
    t <- time_time ;;
    let respuesta :=
      VDict [("tipo", VStr "HEARTBEAT_RESPONSE"); ("timestamp", VFloat t)] in
    _ <- _enviar_mensaje_raw respuesta (Some socket_cliente) ;;
    ret tt
  else if es_cadena tipo_mensaje "HEARTBEAT_RESPONSE" then
    ret tt
  else if es_cadena tipo_mensaje "ACK" then
    mensaje_id <- py_get mensaje "mensaje_id" ;;
    k <- hash mensaje_id ;;
    modificar (fun st => con_acks_recibidos ({[k]} ∪ acks_recibidos st) st) ;;
    incr Stats.incr_acks_recibidos ;;
    anotar INFO (AckRecibido mensaje_id) ;;
    st <- leer ;;
    match mensajes_pendientes st !! k with
    | Some _ =>
      modificar (fun st => con_mensajes_pendientes (delete k (mensajes_pendientes st)) st)
    | None => ret tt
    end
  else if es_cadena tipo_mensaje "MENSAJE" then
    mensaje_id <- py_get mensaje "id" ;;
    (if verdadero mensaje_id then
       let ack := VDict [("tipo", VStr "ACK"); ("mensaje_id", mensaje_id)] in
       _ <- _enviar_mensaje_raw ack (Some socket_cliente) ;;
       incr Stats.incr_acks_enviados
     else ret tt) ;;
    st <- leer ;;
    match callback_mensaje st with
    | Some f =>
      contenido <- py_get mensaje "contenido" ;;
      remitente <- py_get mensaje "remitente" ;;
      emitir (Retrollamada contenido remitente) ;;
      if f contenido remitente then ret tt else lanzar ErrorRetrollamada
    | None =>
      remitente <- py_get_def mensaje "remitente" (VStr "desconocido") ;;
      contenido <- py_get mensaje "contenido" ;;
      emitir (Impresion remitente contenido)
    end
  else ret tt.

(** [_procesar_mensaje_recibido(self, mensaje_texto, socket_cliente)] *)
Definition _procesar_mensaje_recibido (mensaje_texto : string) (socket_cliente : nat)
  : Py unit :=
  intentar
    (mensaje <- match json_loads mensaje_texto with
                | Some m => ret m
                | None => lanzar JSONDecodeError
                end ;;
     despachar mensaje socket_cliente)
    (fun e =>
       match e with
       | JSONDecodeError =>
         anotar ERROR (ErrorDecodificandoJSON mensaje_texto) ;;
         incr Stats.incr_errores
       | _ =>
         anotar ERROR (ErrorProcesando e) ;;
         incr Stats.incr_errores
       end).

(** What the receive thread does with the frames it gets while a sender
    sleeps: [_manejar_cliente] hands each text to the dispatcher. *)
Fixpoint procesar_todos (tramas : list (nat * string)) : Py unit :=
  match tramas with
  | [] => ret tt
  | (s, texto) :: tramas' =>
    _procesar_mensaje_recibido texto s ;;
    procesar_todos tramas'
  end.

(** [time.sleep(ms / 1000)] of a sender blocked in [_esperar_ack]: the
    receive thread runs meanwhile, on the next entry of [llegadas]. *)
Definition dormir_cediendo (ms : Z) : Py unit :=
  st <- leer ;;
  modificar (fun st => con_llegadas (tail (llegadas st)) st) ;;
  time_sleep ms ;;
  procesar_todos (match llegadas st with [] => [] | tramas :: _ => tramas end).

(** The inner loop of [_esperar_ack]: poll [acks_recibidos] every 0.1 s
    until [timeout_ack] has passed since [tiempo_inicio]. *)
Fixpoint sondear (fuel : nat) (mensaje_id tiempo_inicio : Z) : Py bool :=
  match fuel with
  | O => agotado
  | S fuel' =>
    t <- time_time ;;
    st <- leer ;;
    if t - tiempo_inicio <? timeout_ack st then
      if bool_decide (KInt mensaje_id ∈ acks_recibidos st) then
        modificar (fun st =>
          con_acks_recibidos (acks_recibidos st ∖ {[KInt mensaje_id]}) st) ;;
        ret true
      else
        dormir_cediendo 100 ;;
        sondear fuel' mensaje_id tiempo_inicio
    else ret false
  end.

(** The outer loop of [_esperar_ack] and what follows it. [fuel] bounds
    the rounds of this loop and, in each, the polls of the inner one. *)
Fixpoint esperar_bucle (fuel : nat) (mensaje_id reintentos : Z) : Py bool :=
  match fuel with
  | O => agotado
  | S fuel' =>
    st <- leer ;;
    if reintentos <? max_reintentos st then
      tiempo_inicio <- time_time ;;
      ack <- sondear fuel mensaje_id tiempo_inicio ;;
      if ack then ret true
      else
        let reintentos := reintentos + 1 in
        st <- leer ;;
        (if reintentos <? max_reintentos st then
           match mensajes_pendientes st !! KInt mensaje_id with
           | Some mensaje =>
             anotar WARNING (TimeoutMensaje mensaje_id reintentos) ;;
             _ <- _enviar_mensaje_raw mensaje (socket_cliente st) ;;
             ret tt
           | None => ret tt
           end
         else ret tt) ;;
        esperar_bucle fuel' mensaje_id reintentos
    else
      anotar ERROR (MensajeFallo mensaje_id) ;;
      st <- leer ;;
      match mensajes_pendientes st !! KInt mensaje_id with
      | Some _ =>
        modificar (fun st =>
          con_mensajes_pendientes (delete (KInt mensaje_id) (mensajes_pendientes st)) st)
      | None => ret tt
      end ;;
      ret false
  end.

(** [_esperar_ack(self, mensaje_id)] *)
Definition _esperar_ack (fuel : nat) (mensaje_id : Z) : Py bool :=
  esperar_bucle fuel mensaje_id 0.

(** [enviar_mensaje(self, contenido, requiere_ack)] *)
Definition enviar_mensaje (fuel : nat) (contenido : pyval) (requiere_ack : bool) : Py bool :=
  st <- leer ;;
  if negb (conexion_activa st) || negb (bool_decide (is_Some (socket_cliente st))) then
    anotar WARNING NoHayConexion ;;
    ret false
  else
    modificar (fun st => con_mensaje_id (mensaje_id st + 1) st) ;;
    st <- leer ;;
    t <- time_time ;;
    let mensaje :=
      VDict [("tipo", VStr "MENSAJE");
             ("id", VInt (mensaje_id st));
             ("contenido", contenido);
             ("remitente", VStr (nombre st));
             ("timestamp", VFloat t);
             ("requiere_ack", VBool requiere_ack)] in
    ok <- _enviar_mensaje_raw mensaje (socket_cliente st) ;;
    if ok then
      incr Stats.incr_mensajes_enviados ;;
      if requiere_ack then
        st <- leer ;;
        modificar (fun st =>
          con_mensajes_pendientes
            (<[KInt (mensaje_id st) := mensaje]> (mensajes_pendientes st)) st) ;;
        _esperar_ack fuel (mensaje_id st)
      else ret true
    else ret false.

(** The loop of [_recibir_completo]: every round takes one [recv] from the
    script. The result comes with what is left of the stream and of the
    script. *)
Fixpoint recibir_bucle (guion : list recepcion) (corriente datos : list byte) (longitud : N)
  : Py (option (list byte) * (list byte * list recepcion)) :=
  if (N.of_nat (List.length datos) <? longitud)%N then
    match guion with
    | [] => agotado
    | Entrega k :: guion' =>
      let pedido := (longitud - N.of_nat (List.length datos))%N in
      let fragmento := take (N.to_nat (N.min pedido (N.of_nat (S k)))) corriente in
      match fragmento with
      | [] => ret (None, (corriente, guion'))
      | _ :: _ =>
        recibir_bucle guion' (drop (List.length fragmento) corriente)
                      (datos ++ fragmento) longitud
      end
    | Expira :: guion' => recibir_bucle guion' corriente datos longitud
    | Falla :: guion' =>
      anotar ERROR ErrorRecibiendoDatos ;;
      ret (None, (corriente, guion'))
    end
  else ret (Some datos, (corriente, guion)).

(** [_recibir_completo(self, socket_obj, longitud)] *)
Definition _recibir_completo (socket_obj : socket) (longitud : N)
  : Py (option (list byte) * socket) :=
  r <- recibir_bucle (guion socket_obj) (corriente socket_obj) [] longitud ;;
  ret (r.1, {| fileno := fileno socket_obj; corriente := r.2.1; guion := r.2.2 |}).

(** One round of the loop of [_manejar_cliente], up to the text handed to
    the dispatcher: the length on four bytes, then the message, then
    [decode('utf-8')]. [None] is [break]. *)
Definition recibir_trama (socket_cliente : socket) : Py (option string * socket) :=
  r <- _recibir_completo socket_cliente 4 ;;
  match r.1 with
  | None | Some [] => ret (None, r.2)
  | Some ((_ :: _) as longitud_data) =>
    longitud_mensaje <- struct_unpack longitud_data ;;
    r <- _recibir_completo r.2 longitud_mensaje ;;
    match r.1 with
    | None | Some [] => ret (None, r.2)
    | Some ((_ :: _) as mensaje_data) =>
      mensaje_texto <- decode_utf8 mensaje_data ;;
      ret (Some mensaje_texto, r.2)
    end
  end.

(** The [while] loop of [_manejar_cliente]; [fuel] bounds its rounds. *)
Fixpoint manejar_bucle (fuel : nat) (socket_cliente : socket) : Py unit :=
  match fuel with
  | O => agotado
  | S fuel' =>
    st <- leer ;;
    if ejecutando st && conexion_activa st then
      r <- recibir_trama socket_cliente ;;
      match r.1 with
      | None => ret tt
      | Some mensaje_texto =>
        _procesar_mensaje_recibido mensaje_texto (fileno socket_cliente) ;;
        manejar_bucle fuel' r.2
      end
    else ret tt
  end.

(** [_manejar_cliente(self, socket_cliente)] *)
Definition _manejar_cliente (fuel : nat) (socket_cliente : socket) : Py unit :=
  finalmente
    (intentar
       (manejar_bucle fuel socket_cliente)
       (fun e =>
          anotar ERROR (ErrorManejandoCliente e) ;;
          incr Stats.incr_errores))
    (_limpiar_conexion (fileno socket_cliente)).

(** One round of [_heartbeat_loop]. *)
Definition heartbeat_ronda : Py unit :=
  st <- leer ;;
  time_sleep (intervalo_heartbeat st) ;;
  st <- leer ;;
  if conexion_activa st && bool_decide (is_Some (socket_cliente st)) then
    t <- time_time ;;
    let heartbeat :=
      VDict [("tipo", VStr "HEARTBEAT");
             ("timestamp", VFloat t);
             ("remitente", VStr (nombre st))] in
    ok <- _enviar_mensaje_raw heartbeat (socket_cliente st) ;;
    if ok then ret tt
    else (anotar WARNING HeartbeatFallo ;; _manejar_error_conexion)
  else ret tt.

(** [obtener_estadisticas(self)]: a copy of the counters. *)
Definition obtener_estadisticas : Py Stats.t :=
  st <- leer ;; ret (stats st).

(** [_heartbeat_loop(self)]; [fuel] bounds the rounds of its [while]. *)
Fixpoint _heartbeat_loop (fuel : nat) : Py unit :=
  match fuel with
  | O => agotado
  | S fuel' =>
    st <- leer ;;
    if ejecutando st then heartbeat_ronda ;; _heartbeat_loop fuel'
    else ret tt
  end.

(** ** Vocabulary of the statements *)

(** A script on which no [recv] fails. *)
Definition sin_fallas (guion : list recepcion) : Prop :=
  Forall (fun e => e <> Falla) guion.

(** The number of [recv]s of a script that deliver bytes. *)
Fixpoint entregas (guion : list recepcion) : nat :=
  match guion with
  | [] => 0
  | Entrega _ :: guion' => S (entregas guion')
  | _ :: guion' => entregas guion'
  end.

(** The event is a write, done or failed, of [mensaje]. *)
Definition es_envio_de (mensaje : pyval) (e : evento) : Prop :=
  match e with
  | Envio _ m _ | EnvioFallido _ m _ => m = mensaje
  | _ => False
  end.

#[global] Instance pyval_eq_dec : EqDecision pyval.
Proof.
  refine (fix go (v v' : pyval) {struct v} : Decision (v = v') :=
    match v, v' with
    | VNone, VNone => left eq_refl
    | VBool b, VBool b' => cast_if (decide (b = b'))
    | VInt z, VInt z' => cast_if (decide (z = z'))
    | VFloat m, VFloat m' => cast_if (decide (m = m'))
    | VStr s, VStr s' => cast_if (decide (s = s'))
    | VList l, VList l' => cast_if (@list_eq_dec _ go l l')
    | VDict d, VDict d' =>
      cast_if (@list_eq_dec _ (@prod_eq_dec _ _ _ go) d d')
    | _, _ => right _
    end); congruence.
Defined.

#[global] Instance es_envio_de_dec mensaje e : Decision (es_envio_de mensaje e).
Proof. destruct e; cbn; apply _. Defined.

(** The events of connection handling: connecting, closing, sleeping. *)
Definition de_conexion (e : evento) : Prop :=
  match e with
  | IntentoConexion _ _ | HiloEscucha _ | Cierre _ | Sueno _ => True
  | _ => False
  end.

(** [marco K P st st']: from [st] to [st'] the configuration, the
    callback and the message counter are the same;
    the pending table and the set of received ACKs are the same at every
    key of [K]; the clock and the counters have not gone back; the trace
    has only grown, by events of [P] stamped between the two clocks. *)
Record marco (K : clave -> Prop) (P : evento -> Prop) (st st' : estado) : Prop := {
  marco_nombre : nombre st' = nombre st;
  marco_es_servidor : es_servidor st' = es_servidor st;
  marco_timeout_ack : timeout_ack st' = timeout_ack st;
  marco_max_reintentos : max_reintentos st' = max_reintentos st;
  marco_intervalo_heartbeat : intervalo_heartbeat st' = intervalo_heartbeat st;
  marco_ejecutando : ejecutando st' = ejecutando st;
  marco_callback_mensaje : callback_mensaje st' = callback_mensaje st;
  marco_mensaje_id : mensaje_id st' = mensaje_id st;
  marco_pendientes :
    forall k, K k -> mensajes_pendientes st' !! k = mensajes_pendientes st !! k;
  marco_acks :
    forall k, K k -> k ∈ acks_recibidos st' <-> k ∈ acks_recibidos st;
  marco_reloj : reloj st <= reloj st';
  marco_stats : Stats.le (stats st) (stats st');
  marco_traza :
    exists nuevos,
      traza st' = traza st ++ nuevos /\
      Forall (fun te => reloj st <= te.1 <= reloj st' /\ P te.2) nuevos
}.

(** A method keeps a relation between the state it starts from and the
    one it ends in, however it ends. *)
Definition preserva (R : estado -> estado -> Prop) {A} (m : Py A) : Prop :=
  forall st, R st (m st).2.

(** A method ends, normally or by raising, on every state. *)
Definition termina {A} (m : Py A) : Prop :=
  forall st, (m st).1 <> Agotado.

(** A method returns on every state: it neither raises nor runs out. *)
Definition retorna {A} (m : Py A) : Prop :=
  forall st, exists a, (m st).1 = Normal a.

(** [mensaje] is an ACK whose [mensaje_id] stands for the key [k]. *)
Definition es_ack_para (mensaje : pyval) (k : clave) : Prop :=
  match mensaje with
  | VDict d =>
    es_cadena (dict_get "tipo" d) "ACK" = true /\
    clave_de (dict_get "mensaje_id" d) = Some k
  | _ => False
  end.

(** The messages the dispatcher itself writes: ACKs and heartbeat
    responses. *)
Definition es_respuesta (m : pyval) : Prop :=
  match m with
  | VDict (("tipo", VStr t) :: _) => t = "ACK" \/ t = "HEARTBEAT_RESPONSE"
  | _ => False
  end.

(** The events the dispatcher can cause: anything but the write of a
    message that is not one of its own. *)
Definition de_despacho (e : evento) : Prop :=
  match e with
  | Envio _ m _ | EnvioFallido _ m _ => es_respuesta m
  | _ => True
  end.

(** What [_limpiar_conexion] leaves of a state. *)
Definition limpiada (s : nat) (st : estado) : estado :=
  con_registro (registro st ++ [(INFO, ConexionCerrada)])
    (con_traza (traza st ++ [(reloj st, Cierre s)])
       (con_conexion_activa false st)).

(** The counters move as connection handling moves them: the four
    message counters stay, [reconexiones] and [errores] do not go back. *)
Definition solo_conexion (st st' : estado) : Prop :=
  Stats.mensajes_enviados (stats st') = Stats.mensajes_enviados (stats st) /\
  Stats.mensajes_recibidos (stats st') = Stats.mensajes_recibidos (stats st) /\
  Stats.acks_enviados (stats st') = Stats.acks_enviados (stats st) /\
  Stats.acks_recibidos (stats st') = Stats.acks_recibidos (stats st) /\
  Stats.reconexiones (stats st) <= Stats.reconexiones (stats st') /\
  Stats.errores (stats st) <= Stats.errores (stats st').

Definition es_intento (e : evento) : bool :=
  match e with
  | IntentoConexion _ _ => true
  | _ => false
  end.

(** The times of the connection attempts of a trace. *)
Definition tiempos_intentos (tr : list (Z * evento)) : list Z :=
  map fst (List.filter (fun te => es_intento te.2) tr).

(** The state after a round of [_conectar_servidor] whose [connect]
    failed, [reintentos] being the count after that failure. *)
Definition tras_fallo (reintentos : Z) (st : estado) : estado :=
  let s := sockets_creados st in
  let st1 :=
    con_registro (registro st ++ [(WARNING, IntentoFallo reintentos)])
      (con_traza (traza st ++ [(reloj st, IntentoConexion s false)])
         (con_conexiones (tail (conexiones st))
            (con_socket_cliente (Some s)
               (con_sockets_creados (S s) st)))) in
  if reintentos <? max_reintentos st then
    con_reloj (reloj st1 + 1000 * 2 ^ reintentos)
      (con_traza (traza st1 ++ [(reloj st1, Sueno (1000 * 2 ^ reintentos))]) st1)
  else
    con_stats (Stats.incr_errores (stats st1))
      (con_registro (registro st1 ++ [(ERROR, NoSePudoConectar)]) st1).

(** The state after a round of [_conectar_servidor] whose [connect]
    succeeded, [reintentos] being the failures before it. *)
Definition tras_exito (reintentos : Z) (st : estado) : estado :=
  let s := sockets_creados st in
  let st1 :=
    con_traza (traza st ++ [(reloj st, IntentoConexion s true); (reloj st, HiloEscucha s)])
      (con_registro (registro st ++ [(INFO, ClienteConectado)])
         (con_conexion_activa true
            (con_conexiones (tail (conexiones st))
               (con_socket_cliente (Some s)
                  (con_sockets_creados (S s) st))))) in
  if 0 <? reintentos then con_stats (Stats.incr_reconexiones (stats st1)) st1 else st1.

(** What the next [connect] does. *)
Definition proxima_conexion (st : estado) : bool :=
  match conexiones st with
  | [] => false
  | b :: _ => b
  end.

(** The times of the writes, done or failed, of [mensaje] in a trace. *)
Definition tiempos_envios (mensaje : pyval) (tr : list (Z * evento)) : list Z :=
  map fst (filter (fun te => es_envio_de mensaje te.2) tr).

(** Successive times at least [d] apart. *)
Fixpoint separados (d : Z) (ts : list Z) : Prop :=
  match ts with
  | a :: (b :: _) as ts' => a + d <= b /\ separados d ts'
  | _ => True
  end.

(** No frame of the script of arrivals is an ACK for the key [k]. *)
Definition sin_ack (k : clave) (llegadas : list (list (nat * string))) : Prop :=
  Forall (Forall (fun trama : nat * string =>
                    forall mensaje, json_loads trama.2 = Some mensaje ->
                                    ~ es_ack_para mensaje k)) llegadas.

(** A text the dispatcher has no reply to write for: whatever it is, it
    is no [HEARTBEAT] and no [MENSAJE]. *)
Definition sin_replica (texto : string) : Prop :=
  forall d, json_loads texto = Some (VDict d) ->
    es_cadena (dict_get "tipo" d) "HEARTBEAT" = false /\
    es_cadena (dict_get "tipo" d) "MENSAJE" = false.

(** Nothing will trouble the connection: every [sendall] to come
    succeeds, and the dispatcher has no reply to write for anything that
    is still to arrive. *)
Definition sin_tropiezos (st : estado) : Prop :=
  Forall (fun b : bool => b = true) (envios st) /\
  Forall (Forall (fun trama : nat * string => sin_replica trama.2)) (llegadas st).

(** The script of arrivals is untouched. *)
Definition mismas_llegadas (st st' : estado) : Prop :=
  llegadas st' = llegadas st.

(** The one key [k0]. *)
Definition solo (k0 k : clave) : Prop := k = k0.

(** No key at all, and any event: [marco nada cualquiera] leaves the
    pending table, the set of ACKs and the kind of the new events free. *)
Definition nada (k : clave) : Prop := False.

Definition cualquiera (e : evento) : Prop := True.

(** A method lets no exception out: it returns or is still running. *)
Definition sin_excepcion {A} (m : Py A) : Prop :=
  forall st e, (m st).1 <> Lanza e.

(** What is read by [g] from the state is the same after as before. *)
Definition igual {A} (g : estado -> A) (st st' : estado) : Prop := g st' = g st.

(** The bytes hold less than one frame: not even the four bytes of a
    length, or a length and fewer bytes than it announces. *)
Definition trama_incompleta (bs : list byte) : Prop :=
  (List.length bs < 4)%nat \/
  exists cabecera parcial n,
    bs = cabecera ++ parcial /\
    List.length cabecera = 4%nat /\
    struct_unpack_I cabecera = Some n /\
    (N.of_nat (List.length parcial) < n)%N.

(** What [_manejar_error_conexion] leaves of a state before it thinks of
    reconnecting: the warning, the connection marked inactive, the socket
    closed and forgotten. *)
Definition desconectada (st : estado) : estado :=
  let st1 :=
    con_conexion_activa false
      (con_registro (registro st ++ [(WARNING, ErrorConexionDetectado)]) st) in
  match socket_cliente st with
  | Some s => con_socket_cliente None (con_traza (traza st1 ++ [(reloj st1, Cierre s)]) st1)
  | None => st1
  end.

(** The state after [time.sleep(ms / 1000)]. *)
Definition dormida (ms : Z) (st : estado) : estado :=
  con_reloj (reloj st + ms) (con_traza (traza st ++ [(reloj st, Sueno ms)]) st).

(** Whether the next write of [mensaje] goes through: its frame can be
    built and [sendall] succeeds. *)
Definition escribe (mensaje : pyval) (st : estado) : bool :=
  match struct_pack_I (N.of_nat (List.length (list_byte_of_string (json_dumps mensaje)))) with
  | Some _ => match envios st with [] => true | b :: _ => b end
  | None => false
  end.

(** The message [enviar_mensaje] builds in the state [st]. *)
Definition mensaje_nuevo (contenido : pyval) (requiere_ack : bool) (st : estado) : pyval :=
  VDict [("tipo", VStr "MENSAJE");
         ("id", VInt (mensaje_id st + 1));
         ("contenido", contenido);
         ("remitente", VStr (nombre st));
         ("timestamp", VFloat (reloj st));
         ("requiere_ack", VBool requiere_ack)].

(** As an acceptor, no new connection attempt is in the trace and no
    socket has been created. *)
Definition sin_marcar (st st' : estado) : Prop :=
  es_servidor st = true ->
  es_servidor st' = true /\
  tiempos_intentos (traza st') = tiempos_intentos (traza st) /\
  sockets_creados st' = sockets_creados st.

(** The state after the dispatcher processed the ACK [mensaje], whose
    [mensaje_id] stands for the key [k]. *)
Definition tras_ack (mensaje mensaje_id : pyval) (k : clave) (st : estado) : estado :=
  con_mensajes_pendientes (delete k (mensajes_pendientes st))
    (con_registro
       ((registro st ++ [(INFO, Recibido mensaje)]) ++ [(INFO, AckRecibido mensaje_id)])
       (con_stats (Stats.incr_acks_recibidos (Stats.incr_mensajes_recibidos (stats st)))
          (con_acks_recibidos ({[k]} ∪ acks_recibidos st) st))).

(** A text the dispatcher has nothing to do for: no JSON, or an object
    that is no heartbeat, no ACK and no message (a heartbeat response, a
    kind it does not know, no kind at all). *)
Definition inerte (texto : string) : Prop :=
  json_loads texto = None \/
  exists d,
    json_loads texto = Some (VDict d) /\
    es_cadena (dict_get "tipo" d) "HEARTBEAT" = false /\
    es_cadena (dict_get "tipo" d) "ACK" = false /\
    es_cadena (dict_get "tipo" d) "MENSAJE" = false.

(** The state after [_manejar_error_conexion] reconnected at the first
    attempt. *)
Definition reconectada (st : estado) : estado :=
  let st1 := desconectada st in
  tras_exito 0
    (dormida 2000
       (con_registro (registro st1 ++ [(INFO, IntentandoReconectar)]) st1)).

(** The state after [n] polling sleeps of 0.1 s during which nothing was
    dispatched. *)
Fixpoint siestas (n : nat) (st : estado) : estado :=
  match n with
  | O => st
  | S n' => siestas n' (dormida 100 (con_llegadas (tail (llegadas st)) st))
  end.

(** What a round of [_heartbeat_loop] does once it has slept. *)
Definition heartbeat_envio : Py unit :=
  st <- leer ;;
  if conexion_activa st && bool_decide (is_Some (socket_cliente st)) then
    t <- time_time ;;
    let heartbeat :=
      VDict [("tipo", VStr "HEARTBEAT");
             ("timestamp", VFloat t);
             ("remitente", VStr (nombre st))] in
    ok <- _enviar_mensaje_raw heartbeat (socket_cliente st) ;;
    if ok then ret tt
    else (anotar WARNING HeartbeatFallo ;; _manejar_error_conexion)
  else ret tt.

(** * Properties *)

(** Unfolding of the monad and of the primitive effects. *)
Ltac py_desplegar :=
  unfold cuando, incr, anotar, emitir, time_sleep, time_time, close, socket_socket,
    struct_pack, struct_unpack, decode_utf8, py_get, py_get_def, hash,
    bind, ret, lanzar, agotado, intentar, finalmente, leer, modificar in *.

Ltac py_simpl := py_desplegar; cbn in *.

(** ** The length prefix *)

Lemma byte_de_N_to_N n : Byte.to_N (byte_de_N n) = (n mod 256)%N.
Proof.
  unfold byte_de_N. destruct (Byte.of_N (n mod 256)) as [b|] eqn:E.
  - by apply Byte.to_of_N.
  - apply Byte.of_N_None_iff in E.
    pose proof (N.mod_upper_bound n 256). lia.
Qed.

Lemma struct_pack_I_length n bs : struct_pack_I n = Some bs -> List.length bs = 4%nat.
Proof. unfold struct_pack_I. case_match; [|done]. by intros [= <-]. Qed.

Lemma struct_pack_I_Some n :
  (n < 2 ^ 32)%N -> exists bs, struct_pack_I n = Some bs.
Proof.
  intros H. unfold struct_pack_I.
  destruct (n <? 2 ^ 32)%N eqn:E; [eauto|]. apply N.ltb_ge in E. lia.
Qed.

Lemma struct_pack_I_None n :
  (2 ^ 32 <= n)%N -> struct_pack_I n = None.
Proof.
  intros H. unfold struct_pack_I.
  destruct (n <? 2 ^ 32)%N eqn:E; [|done]. apply N.ltb_lt in E. lia.
Qed.

Lemma struct_unpack_pack n bs :
  struct_pack_I n = Some bs -> struct_unpack_I bs = Some n.
Proof.
  unfold struct_pack_I. destruct (n <? 2 ^ 32)%N eqn:E; [|done].
  apply N.ltb_lt in E. intros [= <-]. cbn [struct_unpack_I].
  rewrite !byte_de_N_to_N. f_equal.
  change (2 ^ 32)%N with 4294967296%N in E.
  change (2 ^ 24)%N with 16777216%N. change (2 ^ 16)%N with 65536%N.
  change (2 ^ 8)%N with 256%N.
  zify. Z.to_euclidean_division_equations. lia.
Qed.

(** ** Equations of the monad *)

Lemma bind_ret {A B} (a : A) (k : A -> Py B) st : bind (ret a) k st = k a st.
Proof. reflexivity. Qed.

Lemma bind_lanzar {A B} e (k : A -> Py B) st : bind (lanzar e) k st = (Lanza e, st).
Proof. reflexivity. Qed.

Lemma bind_leer {B} (k : estado -> Py B) st : bind leer k st = k st st.
Proof. reflexivity. Qed.

Lemma bind_time_time {B} (k : Z -> Py B) st : bind time_time k st = k (reloj st) st.
Proof. reflexivity. Qed.

Lemma bind_modificar {B} f (k : unit -> Py B) st : bind (modificar f) k st = k tt (f st).
Proof. reflexivity. Qed.

Lemma bind_anotar {B} n x (k : unit -> Py B) st :
  bind (anotar n x) k st = k tt (con_registro (registro st ++ [(n, x)]) st).
Proof. reflexivity. Qed.

Lemma bind_emitir {B} e (k : unit -> Py B) st :
  bind (emitir e) k st = k tt (con_traza (traza st ++ [(reloj st, e)]) st).
Proof. reflexivity. Qed.

Lemma bind_incr {B} f (k : unit -> Py B) st :
  bind (incr f) k st = k tt (con_stats (f (stats st)) st).
Proof. reflexivity. Qed.

Lemma bind_normal {A B} (m : Py A) (k : A -> Py B) st a st' :
  m st = (Normal a, st') -> bind m k st = k a st'.
Proof. intros H. unfold bind. by rewrite H. Qed.

Lemma bind_bind {A B C} (m : Py A) (k : A -> Py B) (k' : B -> Py C) st :
  bind (bind m k) k' st = bind m (fun a => bind (k a) k') st.
Proof. unfold bind. destruct (m st) as [[a|e|] st1]; reflexivity. Qed.

(** ** Receiving *)

Lemma sin_fallas_cons e guion :
  sin_fallas (e :: guion) -> e <> Falla /\ sin_fallas guion.
Proof. intros H. by apply Forall_cons in H. Qed.

(** With no failing [recv], enough delivering [recv]s and enough bytes in
    the stream, the loop of [_recibir_completo] returns exactly the bytes
    still missing, whatever the fragmentation and the timeouts, and
    leaves the state alone. *)
Lemma recibir_bucle_completo guion : forall corriente datos longitud st,
  sin_fallas guion ->
  let falta := N.to_nat (longitud - N.of_nat (List.length datos)) in
  (falta <= entregas guion)%nat ->
  (falta <= List.length corriente)%nat ->
  exists guion',
    recibir_bucle guion corriente datos longitud st =
      (Normal (Some (datos ++ take falta corriente), (drop falta corriente, guion')), st) /\
    sin_fallas guion' /\
    (entregas guion <= entregas guion' + falta)%nat.
Proof.
  induction guion as [|e guion IH]; intros corriente datos longitud st Hsf falta He Hc.
  - cbn in He. assert (falta = 0%nat) as Hf by lia.
    exists []. cbn. subst falta.
    destruct (N.of_nat (List.length datos) <? longitud)%N eqn:E.
    { apply N.ltb_lt in E. lia. }
    rewrite Hf, take_0, drop_0, app_nil_r. done.
  - apply sin_fallas_cons in Hsf as [Hne Hsf].
    cbn [recibir_bucle].
    destruct (N.of_nat (List.length datos) <? longitud)%N eqn:E.
    2:{ apply N.ltb_ge in E. assert (falta = 0%nat) as Hf by (subst falta; lia).
        exists (e :: guion). rewrite Hf, take_0, drop_0, app_nil_r.
        split; [done|]. split; [by constructor|lia]. }
    apply N.ltb_lt in E.
    destruct e as [k| |]; [| |done].
    + set (n := N.to_nat (N.min (longitud - N.of_nat (List.length datos)) (N.of_nat (S k)))).
      assert (1 <= n <= falta)%nat as Hn by (subst n falta; lia).
      assert (List.length (take n corriente) = n) as Hlen by (rewrite length_take; lia).
      destruct (take n corriente) as [|b fragmento] eqn:Et; [cbn in Hlen; lia|].
      rewrite <- Et in *. rewrite Hlen.
      cbn in He.
      destruct (IH (drop n corriente) (datos ++ take n corriente) longitud st Hsf)
        as (guion' & Hr & Hsf' & He').
      * rewrite length_app, Hlen. subst falta. lia.
      * rewrite length_app, Hlen, length_drop. subst falta. lia.
      * rewrite length_app, Hlen in Hr, He'.
        replace (N.to_nat (longitud - N.of_nat (List.length datos + n)))
          with (falta - n)%nat in Hr, He' by (subst falta; lia).
        rewrite <- app_assoc, take_take_drop, drop_drop in Hr.
        replace (n + (falta - n))%nat with falta in Hr by lia.
        exists guion'. split; [done|]. split; [done|]. cbn [entregas]. lia.
    + cbn in He.
      destruct (IH corriente datos longitud st Hsf He Hc) as (guion' & Hr & Hsf' & He').
      exists guion'. split; [done|]. split; [done|]. cbn. lia.
Qed.

Lemma _recibir_completo_completo socket_obj longitud st :
  sin_fallas (guion socket_obj) ->
  (N.to_nat longitud <= entregas (guion socket_obj))%nat ->
  (N.to_nat longitud <= List.length (corriente socket_obj))%nat ->
  exists guion',
    _recibir_completo socket_obj longitud st =
      (Normal (Some (take (N.to_nat longitud) (corriente socket_obj)),
               {| fileno := fileno socket_obj;
                  corriente := drop (N.to_nat longitud) (corriente socket_obj);
                  guion := guion' |}), st) /\
    sin_fallas guion' /\
    (entregas (guion socket_obj) <= entregas guion' + N.to_nat longitud)%nat.
Proof.
  intros Hsf He Hc.
  destruct (recibir_bucle_completo (guion socket_obj) (corriente socket_obj) []
              longitud st Hsf) as (guion' & Hr & Hsf' & He').
  - cbn. by rewrite N.sub_0_r.
  - cbn. by rewrite N.sub_0_r.
  - exists guion'. unfold _recibir_completo, bind, ret. rewrite Hr. cbn in *.
    rewrite N.sub_0_r in *. done.
Qed.

(** A frame at the head of the stream is read whole: the header, then
    exactly the announced bytes, which are then decoded, or refused when
    they are not UTF-8. *)
Lemma recibir_trama_trama socket_cliente st cabecera cuerpo resto :
  corriente socket_cliente = cabecera ++ cuerpo ++ resto ->
  List.length cabecera = 4%nat ->
  struct_unpack_I cabecera = Some (N.of_nat (List.length cuerpo)) ->
  cuerpo <> [] ->
  sin_fallas (guion socket_cliente) ->
  (4 + List.length cuerpo <= entregas (guion socket_cliente))%nat ->
  exists guion',
    recibir_trama socket_cliente st =
      (if utf8_valido cuerpo
       then Normal (Some (string_of_list_byte cuerpo),
                    {| fileno := fileno socket_cliente;
                       corriente := resto; guion := guion' |})
       else Lanza UnicodeDecodeError,
       st) /\
    sin_fallas guion' /\
    (entregas (guion socket_cliente) <= entregas guion' + 4 + List.length cuerpo)%nat.
Proof.
  intros Hc H4 Hu Hne Hsf He.
  destruct (_recibir_completo_completo socket_cliente 4 st Hsf)
    as (g1 & Hr1 & Hsf1 & He1).
  { change (N.to_nat 4) with 4%nat. lia. }
  { change (N.to_nat 4) with 4%nat. rewrite Hc, length_app. lia. }
  change (N.to_nat 4) with 4%nat in *.
  rewrite Hc in Hr1. rewrite <- H4 in Hr1 at 1 2.
  rewrite take_app_length, drop_app_length in Hr1.
  unfold recibir_trama. unfold bind at 1. rewrite Hr1. cbn [fst snd].
  destruct cabecera as [|c0 cabecera]; [done|].
  unfold struct_unpack. rewrite Hu. unfold bind at 1, ret at 1.
  set (s1 := {| fileno := _; corriente := cuerpo ++ resto; guion := g1 |}).
  destruct (_recibir_completo_completo s1 (N.of_nat (List.length cuerpo)) st Hsf1)
    as (g2 & Hr2 & Hsf2 & He2).
  { cbn. lia. }
  { cbn. rewrite length_app. lia. }
  rewrite Nat2N.id in *. cbn [corriente s1] in Hr2.
  rewrite take_app_length, drop_app_length in Hr2.
  unfold bind at 1. rewrite Hr2. cbn [fst snd fileno s1].
  destruct cuerpo as [|b cuerpo]; [done|].
  unfold decode_utf8, bind, ret, lanzar.
  exists g2. split; [by destruct (utf8_valido _)|]. split; [done|]. cbn in *. lia.
Qed.

(** A header announcing no byte: [_recibir_completo] returns the empty
    bytes at once and the round stops ([break]). *)
Lemma recibir_trama_vacia socket_cliente st cabecera resto :
  corriente socket_cliente = cabecera ++ resto ->
  List.length cabecera = 4%nat ->
  struct_unpack_I cabecera = Some 0%N ->
  sin_fallas (guion socket_cliente) ->
  (4 <= entregas (guion socket_cliente))%nat ->
  exists guion',
    _recibir_completo
      {| fileno := fileno socket_cliente; corriente := resto; guion := guion' |} 0 st
      = (Normal (Some [],
                 {| fileno := fileno socket_cliente; corriente := resto; guion := guion' |}),
         st) /\
    recibir_trama socket_cliente st =
      (Normal (None,
               {| fileno := fileno socket_cliente; corriente := resto; guion := guion' |}),
       st).
Proof.
  intros Hc H4 Hu Hsf He.
  destruct (_recibir_completo_completo socket_cliente 4 st Hsf)
    as (g1 & Hr1 & Hsf1 & He1).
  { change (N.to_nat 4) with 4%nat. lia. }
  { change (N.to_nat 4) with 4%nat. rewrite Hc, length_app. lia. }
  change (N.to_nat 4) with 4%nat in *.
  rewrite Hc in Hr1. rewrite <- H4 in Hr1 at 1 2.
  rewrite take_app_length, drop_app_length in Hr1.
  exists g1.
  assert (forall s, _recibir_completo s 0 st = (Normal (Some [], s), st)) as H0.
  { intros [f c [|e g]]; reflexivity. }
  split; [apply H0|].
  unfold recibir_trama. unfold bind at 1. rewrite Hr1. cbn [fst snd].
  destruct cabecera as [|c0 cabecera]; [done|].
  unfold struct_unpack. rewrite Hu. unfold bind at 1, ret at 1.
  unfold bind at 1. rewrite H0. done.
Qed.

(** ** A small logic of preserved relations *)

Section Preserva.

Context (R : relation estado) `{!PreOrder R}.

Lemma preserva_ret {A} (a : A) : preserva R (ret a).
Proof. intros st. reflexivity. Qed.

Lemma preserva_lanzar {A} e : preserva R (@lanzar A e).
Proof. intros st. reflexivity. Qed.

Lemma preserva_lanzar_bind {A B} e (k : A -> Py B) : preserva R (bind (lanzar e) k).
Proof. intros st. reflexivity. Qed.

Lemma preserva_agotado {A} : preserva R (@agotado A).
Proof. intros st. reflexivity. Qed.

Lemma preserva_leer : preserva R leer.
Proof. intros st. reflexivity. Qed.

Lemma preserva_time_time : preserva R time_time.
Proof. intros st. reflexivity. Qed.

Lemma preserva_modificar f : (forall st, R st (f st)) -> preserva R (modificar f).
Proof. intros H st. apply H. Qed.

Lemma preserva_bind {A B} (m : Py A) (k : A -> Py B) :
  preserva R m -> (forall a, preserva R (k a)) -> preserva R (bind m k).
Proof.
  intros Hm Hk st. unfold bind. specialize (Hm st).
  destruct (m st) as [[a| |] st1]; cbn in *; [|done..].
  etrans; [exact Hm|apply Hk].
Qed.

Lemma preserva_intentar {A} (m : Py A) h :
  preserva R m -> (forall e, preserva R (h e)) -> preserva R (intentar m h).
Proof.
  intros Hm Hh st. unfold intentar. specialize (Hm st).
  destruct (m st) as [[a|e|] st1]; cbn in *; [done| |done].
  etrans; [exact Hm|apply Hh].
Qed.

Lemma preserva_finalmente {A} (m : Py A) f :
  preserva R m -> preserva R f -> preserva R (finalmente m f).
Proof.
  intros Hm Hf st. unfold finalmente. specialize (Hm st).
  destruct (m st) as [[a|e|] st1]; cbn in *; [| |done].
  - etrans; [exact Hm|]. apply (preserva_bind f); [done|]. intros; apply preserva_ret.
  - etrans; [exact Hm|]. apply (preserva_bind f); [done|]. intros; apply preserva_lanzar.
Qed.

Lemma preserva_cuando b m : preserva R m -> preserva R (cuando b m).
Proof. intros H. destruct b; [done|apply preserva_ret]. Qed.

End Preserva.

(** Syntax-directed use of the rules; leaves the primitive steps. *)
Ltac preserva_paso :=
  lazymatch goal with
  | |- preserva _ (ret _) => apply preserva_ret; tc_solve
  | |- preserva _ (lanzar _) => apply preserva_lanzar; tc_solve
  | |- preserva _ agotado => apply preserva_agotado; tc_solve
  | |- preserva _ leer => apply preserva_leer; tc_solve
  | |- preserva _ time_time => apply preserva_time_time; tc_solve
  | |- preserva _ (cuando _ _) => apply preserva_cuando; [tc_solve|]
  | |- preserva ?R (bind (ret ?a) ?k) => change (preserva R (k a)); cbv beta
  | |- preserva _ (bind (lanzar _) _) => apply preserva_lanzar_bind; tc_solve
  | |- preserva _ (bind _ _) => apply preserva_bind; [tc_solve| |intros ?]
  | |- preserva _ (intentar _ _) => apply preserva_intentar; [tc_solve| |intros ?]
  | |- preserva _ (finalmente _ _) => apply preserva_finalmente; [tc_solve|..]
  | |- preserva _ (if ?b then _ else _) => destruct b
  | |- preserva _ (match ?x with _ => _ end) => destruct x
  end.

Ltac preserva_auto := repeat (preserva_paso; try assumption).

(** ** The frame of the methods *)

#[global] Instance stats_le_preorder : PreOrder Stats.le.
Proof.
  split.
  - intros s. unfold Stats.le. lia.
  - intros a b c. unfold Stats.le. lia.
Qed.

#[global] Instance marco_preorder K P : PreOrder (marco K P).
Proof.
  split.
  - intros st. split; try done.
    exists []. by rewrite app_nil_r.
  - intros a b c [] []. split; try (etrans; eassumption); try congruence.
    + intros k Hk. rewrite marco_pendientes1, marco_pendientes0; done.
    + intros k Hk. rewrite marco_acks1, marco_acks0; done.
    + destruct marco_traza0 as (n0 & E0 & F0), marco_traza1 as (n1 & E1 & F1).
      exists (n0 ++ n1). split; [by rewrite E1, E0, app_assoc|].
      apply Forall_app.
      split; (eapply Forall_impl; [eassumption|]); cbn; intros te [? ?]; (split; [lia|done]).
Qed.

Section MarcoPrimitivas.

Context (K : clave -> Prop) (P : evento -> Prop).

(** A state that differs from [st] only in attributes the frame does not
    fix is within the frame. *)
Ltac marco_trivial :=
  intros; split; cbn; try done; try lia; try (by unfold Stats.le; cbn; lia);
  exists []; rewrite app_nil_r; done.

Lemma marco_anotar n x : preserva (marco K P) (anotar n x).
Proof. marco_trivial. Qed.

Lemma marco_incr f :
  (forall s, Stats.le s (f s)) -> preserva (marco K P) (incr f).
Proof.
  intros Hf st. split; cbn; try done; try lia; try apply Hf.
  exists []. by rewrite app_nil_r.
Qed.

Lemma marco_con_conexion_activa b : preserva (marco K P) (modificar (con_conexion_activa b)).
Proof. marco_trivial. Qed.

Lemma marco_con_socket_cliente s : preserva (marco K P) (modificar (con_socket_cliente s)).
Proof. marco_trivial. Qed.

Lemma marco_con_envios f :
  preserva (marco K P) (modificar (fun st => con_envios (f st) st)).
Proof. marco_trivial. Qed.

Lemma marco_con_conexiones f :
  preserva (marco K P) (modificar (fun st => con_conexiones (f st) st)).
Proof. marco_trivial. Qed.

Lemma marco_socket_socket : preserva (marco K P) socket_socket.
Proof. marco_trivial. Qed.

Lemma marco_emitir e : P e -> preserva (marco K P) (emitir e).
Proof.
  intros He st. split; cbn; try done; try lia.
  exists [(reloj st, e)]. split; [done|]. constructor; [|done]. cbn. split; [lia|done].
Qed.

Lemma marco_time_sleep ms :
  0 <= ms -> P (Sueno ms) -> preserva (marco K P) (time_sleep ms).
Proof.
  intros Hms He st. split; cbn; try done; try lia.
  exists [(reloj st, Sueno ms)]. split; [done|]. constructor; [|done]. cbn. split; [lia|done].
Qed.

End MarcoPrimitivas.

Lemma stats_le_incr_mensajes_enviados s : Stats.le s (Stats.incr_mensajes_enviados s).
Proof. unfold Stats.le. cbn. lia. Qed.
Lemma stats_le_incr_mensajes_recibidos s : Stats.le s (Stats.incr_mensajes_recibidos s).
Proof. unfold Stats.le. cbn. lia. Qed.
Lemma stats_le_incr_acks_enviados s : Stats.le s (Stats.incr_acks_enviados s).
Proof. unfold Stats.le. cbn. lia. Qed.
Lemma stats_le_incr_acks_recibidos s : Stats.le s (Stats.incr_acks_recibidos s).
Proof. unfold Stats.le. cbn. lia. Qed.
Lemma stats_le_incr_reconexiones s : Stats.le s (Stats.incr_reconexiones s).
Proof. unfold Stats.le. cbn. lia. Qed.
Lemma stats_le_incr_errores s : Stats.le s (Stats.incr_errores s).
Proof. unfold Stats.le. cbn. lia. Qed.

Create HintDb marco discriminated.
#[local] Hint Resolve marco_anotar marco_incr marco_con_conexion_activa
  marco_con_socket_cliente marco_con_envios marco_con_conexiones marco_socket_socket
  marco_emitir marco_time_sleep
  stats_le_incr_mensajes_enviados stats_le_incr_mensajes_recibidos
  stats_le_incr_acks_enviados stats_le_incr_acks_recibidos
  stats_le_incr_reconexiones stats_le_incr_errores : marco.

(** The frame of a method whose steps are all framed. *)
Ltac marco_auto :=
  repeat (first [ preserva_paso | solve [eauto with marco] ]).

Section MarcoConexion.

Context (K : clave -> Prop) (P : evento -> Prop).
Hypothesis P_conexion : forall e, de_conexion e -> P e.

Local Hint Extern 1 (P _) => (apply P_conexion; exact I) : marco.

Lemma marco_close s : preserva (marco K P) (close s).
Proof. unfold close. marco_auto. Qed.

Lemma marco_connect s : preserva (marco K P) (connect s).
Proof. unfold connect. marco_auto. Qed.

Lemma marco__limpiar_conexion s : preserva (marco K P) (_limpiar_conexion s).
Proof. unfold _limpiar_conexion. pose proof marco_close. marco_auto. Qed.

Lemma marco_conectar_bucle n : forall reintentos,
  0 <= reintentos -> preserva (marco K P) (conectar_bucle n reintentos).
Proof.
  pose proof marco_connect.
  induction n as [|n IH]; intros reintentos Hr; cbn [conectar_bucle].
  - marco_auto.
  - marco_auto.
    + apply marco_time_sleep; [|apply P_conexion; exact I].
      assert (0 < 2 ^ (reintentos + 1)) by (apply Z.pow_pos_nonneg; lia). lia.
    + apply IH. lia.
Qed.

Lemma marco__conectar_servidor : preserva (marco K P) _conectar_servidor.
Proof.
  unfold _conectar_servidor. pose proof marco_conectar_bucle.
  marco_auto. apply marco_conectar_bucle. lia.
Qed.

Lemma marco__manejar_error_conexion : preserva (marco K P) _manejar_error_conexion.
Proof.
  unfold _manejar_error_conexion.
  pose proof marco__conectar_servidor. pose proof marco_close.
  marco_auto. apply marco_time_sleep; [lia|apply P_conexion; exact I].
Qed.

End MarcoConexion.

(** ** Methods that always return *)

Lemma retorna_termina {A} (m : Py A) : retorna m -> termina m.
Proof. intros H st. destruct (H st) as [a ->]. done. Qed.

Lemma retorna_ret {A} (a : A) : retorna (ret a).
Proof. intros st. by exists a. Qed.

Lemma retorna_leer : retorna leer.
Proof. intros st. by exists st. Qed.

Lemma retorna_time_time : retorna time_time.
Proof. intros st. by eexists. Qed.

Lemma retorna_modificar f : retorna (modificar f).
Proof. intros st. by exists tt. Qed.

Lemma retorna_socket_socket : retorna socket_socket.
Proof. intros st. by eexists. Qed.

Lemma retorna_bind {A B} (m : Py A) (k : A -> Py B) :
  retorna m -> (forall a, retorna (k a)) -> retorna (bind m k).
Proof.
  intros Hm Hk st. unfold bind. destruct (Hm st) as [a Ha].
  destruct (m st) as [r st1]. cbn in Ha. subst r. apply Hk.
Qed.

Lemma termina_lanzar {A} e : termina (@lanzar A e).
Proof. intros st. done. Qed.

Lemma termina_bind {A B} (m : Py A) (k : A -> Py B) :
  termina m -> (forall a, termina (k a)) -> termina (bind m k).
Proof.
  intros Hm Hk st. unfold bind. specialize (Hm st).
  destruct (m st) as [[a|e|] st1]; cbn in *; [apply Hk|done..].
Qed.

Lemma retorna_intentar {A} (m : Py A) h :
  termina m -> (forall e, retorna (h e)) -> retorna (intentar m h).
Proof.
  intros Hm Hh st. unfold intentar. specialize (Hm st).
  destruct (m st) as [[a|e|] st1]; cbn in *; [by exists a|apply Hh|done].
Qed.

Lemma retorna_cuando b m : retorna m -> retorna (cuando b m).
Proof. intros H. destruct b; [done|apply retorna_ret]. Qed.

Ltac retorna_paso :=
  lazymatch goal with
  | |- retorna (ret _) => apply retorna_ret
  | |- retorna leer => apply retorna_leer
  | |- retorna time_time => apply retorna_time_time
  | |- retorna (modificar _) => apply retorna_modificar
  | |- retorna socket_socket => apply retorna_socket_socket
  | |- retorna (anotar _ _) => apply retorna_modificar
  | |- retorna (emitir _) => apply retorna_modificar
  | |- retorna (incr _) => apply retorna_modificar
  | |- retorna (cuando _ _) => apply retorna_cuando
  | |- retorna (bind (ret ?a) ?k) => change (retorna (k a)); cbv beta
  | |- retorna (bind _ _) => apply retorna_bind; [|intros ?]
  | |- retorna (intentar _ _) => apply retorna_intentar; [|intros ?]
  | |- retorna (if ?b then _ else _) => destruct b
  | |- retorna (match ?x with _ => _ end) => destruct x
  | |- termina (lanzar _) => apply termina_lanzar
  | |- termina (bind (ret ?a) ?k) => change (termina (k a)); cbv beta
  | |- termina (bind _ _) => apply termina_bind; [|intros ?]
  | |- termina (if ?b then _ else _) => destruct b
  | |- termina (match ?x with _ => _ end) => destruct x
  | |- termina _ => apply retorna_termina
  end.

Ltac retorna_auto := repeat (first [solve [auto] | retorna_paso]).

Lemma retorna_time_sleep ms : retorna (time_sleep ms).
Proof. unfold time_sleep. retorna_auto. Qed.

Lemma retorna_close s : retorna (close s).
Proof. unfold close. retorna_auto. Qed.

Lemma termina_connect s : termina (connect s).
Proof. unfold connect. retorna_auto. Qed.

Lemma retorna__limpiar_conexion s : retorna (_limpiar_conexion s).
Proof. unfold _limpiar_conexion. pose proof retorna_close. retorna_auto. Qed.

Lemma retorna_conectar_bucle n : forall reintentos, retorna (conectar_bucle n reintentos).
Proof.
  pose proof termina_connect. pose proof retorna_time_sleep.
  induction n as [|n IH]; intros reintentos; cbn [conectar_bucle]; retorna_auto.
Qed.

Lemma retorna__conectar_servidor : retorna _conectar_servidor.
Proof.
  unfold _conectar_servidor. pose proof retorna_conectar_bucle. retorna_auto.
Qed.

Lemma retorna__manejar_error_conexion : retorna _manejar_error_conexion.
Proof.
  unfold _manejar_error_conexion.
  pose proof retorna__conectar_servidor. pose proof retorna_close.
  pose proof retorna_time_sleep. retorna_auto.
Qed.

Lemma termina_sendall s m datos : termina (sendall s m datos).
Proof. unfold sendall. retorna_auto. Qed.

Lemma termina_codificar m : termina (codificar m).
Proof. unfold codificar, struct_pack. retorna_auto. Qed.

Lemma retorna__enviar_mensaje_raw m s : retorna (_enviar_mensaje_raw m s).
Proof.
  unfold _enviar_mensaje_raw.
  pose proof termina_sendall. pose proof termina_codificar.
  pose proof retorna__manejar_error_conexion. retorna_auto.
Qed.

Lemma termina_py_get m k : termina (py_get m k).
Proof. unfold py_get. retorna_auto. Qed.

Lemma termina_py_get_def m k d : termina (py_get_def m k d).
Proof. unfold py_get_def. retorna_auto. Qed.

Lemma termina_hash v : termina (hash v).
Proof. unfold hash. retorna_auto. Qed.

Lemma termina_despachar m s : termina (despachar m s).
Proof.
  unfold despachar.
  pose proof termina_py_get. pose proof termina_py_get_def. pose proof termina_hash.
  pose proof retorna__enviar_mensaje_raw. retorna_auto.
Qed.

(** The dispatcher never raises: both handlers return. *)
Lemma retorna__procesar_mensaje_recibido texto s :
  retorna (_procesar_mensaje_recibido texto s).
Proof.
  unfold _procesar_mensaje_recibido. pose proof termina_despachar. retorna_auto.
Qed.

Lemma retorna_procesar_todos tramas : retorna (procesar_todos tramas).
Proof.
  pose proof retorna__procesar_mensaje_recibido.
  induction tramas as [|[s texto] tramas IH]; cbn [procesar_todos]; retorna_auto.
Qed.

Lemma retorna_dormir_cediendo ms : retorna (dormir_cediendo ms).
Proof.
  unfold dormir_cediendo.
  pose proof retorna_procesar_todos. pose proof retorna_time_sleep. retorna_auto.
Qed.

(** ** [_enviar_mensaje_raw] *)

Section MarcoEnvio.

Context (K : clave -> Prop) (P : evento -> Prop).
Hypothesis P_conexion : forall e, de_conexion e -> P e.

Lemma marco_codificar m : preserva (marco K P) (codificar m).
Proof. unfold codificar, struct_pack. marco_auto. Qed.

Lemma marco_sendall s m datos :
  (forall e, es_envio_de m e -> P e) -> preserva (marco K P) (sendall s m datos).
Proof. intros Hm. unfold sendall. marco_auto. apply marco_emitir, Hm. done. Qed.

Lemma marco__enviar_mensaje_raw m s :
  (forall e, es_envio_de m e -> P e) -> preserva (marco K P) (_enviar_mensaje_raw m s).
Proof.
  intros Hm. unfold _enviar_mensaje_raw.
  pose proof (marco_codificar m). pose proof (marco_sendall s m).
  pose proof (marco__manejar_error_conexion K P P_conexion).
  marco_auto. apply marco_emitir, Hm. done.
Qed.

End MarcoEnvio.

(** A successful write (the frame fits 32 bits of length, the socket is
    there and [sendall] goes through) adds the frame to the trace and
    touches nothing else but the script of writes. *)
Lemma _enviar_mensaje_raw_exito mensaje s st longitud :
  struct_pack_I (N.of_nat (List.length (list_byte_of_string (json_dumps mensaje))))
    = Some longitud ->
  match envios st with [] => true | b :: _ => b end = true ->
  _enviar_mensaje_raw mensaje (Some s) st =
    (Normal true,
     con_traza (traza st ++
                  [(reloj st,
                    Envio s mensaje (longitud ++ list_byte_of_string (json_dumps mensaje)))])
       (con_envios (tail (envios st)) st)).
Proof.
  intros Hp Ho. unfold _enviar_mensaje_raw, codificar, sendall. py_desplegar.
  rewrite Hp. cbn. rewrite Ho. done.
Qed.

(** Whatever happens, a call leaves exactly one event for [mensaje] in the
    trace, the write or its failure, stamped with the time of the call;
    what may follow it is connection handling. The call returns. *)
Lemma _enviar_mensaje_raw_traza mensaje s st :
  exists b st' e nuevos,
    _enviar_mensaje_raw mensaje s st = (Normal b, st') /\
    es_envio_de mensaje e /\
    traza st' = traza st ++ (reloj st, e) :: nuevos /\
    Forall (fun te => reloj st <= te.1 <= reloj st' /\ de_conexion te.2) nuevos.
Proof.
  unfold _enviar_mensaje_raw.
  assert (forall e st0, reloj st0 = reloj st -> traza st0 = traza st ->
    exists st' nuevos,
      (emitir (EnvioFallido s mensaje e) ;; anotar ERROR (ErrorEnviando e) ;;
       _manejar_error_conexion ;; incr Stats.incr_errores ;; ret false) st0
        = (Normal false, st') /\
      traza st' = traza st ++ (reloj st, EnvioFallido s mensaje e) :: nuevos /\
      Forall (fun te => reloj st <= te.1 <= reloj st' /\ de_conexion te.2) nuevos)
    as Hfallo.
  { intros e st0 Hr Ht.
    unfold bind at 1. unfold emitir at 1, modificar at 1.
    unfold bind at 1. unfold anotar at 1, modificar at 1.
    set (st1 := con_registro _ _).
    pose proof (marco__manejar_error_conexion (fun _ => True) de_conexion
                  (fun e H => H) st1) as Hm.
    destruct (retorna__manejar_error_conexion st1) as [[] Hn].
    unfold bind at 1.
    destruct (_manejar_error_conexion st1) as [r st2]. cbn in Hn, Hm. subst r.
    destruct Hm. destruct marco_traza0 as (nuevos & Et & Hf).
    eexists _, nuevos. split; [reflexivity|]. cbn in *.
    rewrite Et, Hr, Ht, <- app_assoc. split; [done|by rewrite <- Hr]. }
  unfold intentar, codificar, struct_pack, bind at 2.
  destruct (struct_pack_I _) as [longitud|]; cbn.
  2:{ destruct (Hfallo StructError st) as (st' & nuevos & E & Et & Hf); try done.
      unfold lanzar. eexists _, _, (EnvioFallido _ _ _), _.
      split; [exact E|]. split; [by cbn|]. split; eassumption. }
  unfold ret at 1, bind at 1, bind at 1, ret at 1.
  destruct s as [s|]; cbn [sendall].
  2:{ destruct (Hfallo AttributeError st) as (st' & nuevos & E & Et & Hf); try done.
      unfold lanzar. eexists _, _, (EnvioFallido _ _ _), _.
      split; [exact E|]. split; [by cbn|]. split; eassumption. }
  unfold bind at 1, leer at 1. unfold bind at 1, modificar at 1.
  destruct (match envios st with [] => true | b :: _ => b end).
  - unfold emitir, modificar, ret. cbn.
    eexists _, _, (Envio _ _ _), []. split; [reflexivity|]. cbn.
    split; [reflexivity|]. split; [done|constructor].
  - unfold lanzar at 1.
    destruct (Hfallo OSError (con_envios (tail (envios st)) st))
      as (st' & nuevos & E & Et & Hf); try done.
    eexists _, _, (EnvioFallido _ _ _), _.
    split; [exact E|]. split; [by cbn|]. split; eassumption.
Qed.

(** ** [enviar_mensaje] *)

(** The guard of [enviar_mensaje]: without a connection, only the warning. *)
Lemma enviar_mensaje_inactiva fuel contenido requiere_ack st :
  conexion_activa st = false \/ socket_cliente st = None ->
  enviar_mensaje fuel contenido requiere_ack st =
    (Normal false, con_registro (registro st ++ [(WARNING, NoHayConexion)]) st).
Proof.
  intros H. unfold enviar_mensaje. py_simpl.
  destruct H as [-> | ->]; cbn; [done|].
  by rewrite orb_true_r.
Qed.

(** C9. [enviar_mensaje] without an active connection ([conexion_activa]
    false, or no [socket_cliente]) returns [False] at once and changes
    nothing but the log, which gets the warning: the message counter, the
    transport trace, the pending table, the counters, the clock and the
    scripts of the world are as before. *)
Theorem enviar_mensaje_sin_conexion fuel contenido requiere_ack st :
  conexion_activa st = false \/ socket_cliente st = None ->
  exists st',
    enviar_mensaje fuel contenido requiere_ack st = (Normal false, st') /\
    st' = con_registro (registro st ++ [(WARNING, NoHayConexion)]) st /\
    mensaje_id st' = mensaje_id st /\
    traza st' = traza st /\
    mensajes_pendientes st' = mensajes_pendientes st /\
    acks_recibidos st' = acks_recibidos st /\
    stats st' = stats st /\
    reloj st' = reloj st /\
    envios st' = envios st /\
    llegadas st' = llegadas st.
Proof.
  intros H. eexists. split; [by apply enviar_mensaje_inactiva|].
  split; [reflexivity|by cbn].
Qed.

(** C6. With an active connection, [enviar_mensaje(contenido,
    requiere_ack=False)] whose write succeeds returns [True] at once: the
    message went out once, no entry was put in [mensajes_pendientes], the
    set of ACKs was neither read nor changed, no time passed and nothing
    that arrives was waited for (this holds with no step of waiting
    allowed at all, [fuel = 0]). *)
Theorem enviar_mensaje_sin_ack fuel contenido st s longitud :
  let mensaje :=
    VDict [("tipo", VStr "MENSAJE");
           ("id", VInt (mensaje_id st + 1));
           ("contenido", contenido);
           ("remitente", VStr (nombre st));
           ("timestamp", VFloat (reloj st));
           ("requiere_ack", VBool false)] in
  conexion_activa st = true ->
  socket_cliente st = Some s ->
  struct_pack_I (N.of_nat (List.length (list_byte_of_string (json_dumps mensaje))))
    = Some longitud ->
  match envios st with [] => true | b :: _ => b end = true ->
  exists st',
    enviar_mensaje fuel contenido false st = (Normal true, st') /\
    mensajes_pendientes st' = mensajes_pendientes st /\
    acks_recibidos st' = acks_recibidos st /\
    reloj st' = reloj st /\
    llegadas st' = llegadas st /\
    mensaje_id st' = mensaje_id st + 1 /\
    stats st' = Stats.incr_mensajes_enviados (stats st) /\
    traza st' =
      traza st ++
        [(reloj st, Envio s mensaje (longitud ++ list_byte_of_string (json_dumps mensaje)))].
Proof.
  intros mensaje Hc Hs Hp Ho.
  unfold enviar_mensaje.
  unfold bind at 1, leer at 1. rewrite Hc, Hs. cbn [negb orb bool_decide decide_rel].
  rewrite bool_decide_eq_true_2 by eauto. cbn [negb].
  unfold bind at 1, modificar at 1. unfold bind at 1, leer at 1.
  unfold bind at 1, time_time at 1. cbn [reloj con_mensaje_id mensaje_id nombre socket_cliente].
  rewrite Hs. fold mensaje.
  unfold bind at 1.
  rewrite (_enviar_mensaje_raw_exito mensaje s _ longitud) by (cbn; assumption).
  py_simpl. eexists. split; [reflexivity|]. cbn. done.
Qed.

(** ** The dispatcher *)

Lemma de_conexion_despacho e : de_conexion e -> de_despacho e.
Proof. by destruct e. Qed.

Lemma es_envio_de_despacho m e : es_respuesta m -> es_envio_de m e -> de_despacho e.
Proof. intros Hm. destruct e; cbn; try done; by intros ->. Qed.

Section MarcoDespacho.

Context (K : clave -> Prop).

Lemma marco_despachar mensaje s :
  (forall k, K k -> ~ es_ack_para mensaje k) ->
  preserva (marco K de_despacho) (despachar mensaje s).
Proof.
  intros HK. unfold despachar, py_get, py_get_def, hash.
  pose proof (marco__enviar_mensaje_raw K de_despacho de_conexion_despacho) as Hraw.
  destruct mensaje as [| | | | | |d]; try (marco_auto; fail).
  preserva_paso.
  apply preserva_bind; [tc_solve|marco_auto|intros _].
  apply preserva_bind; [tc_solve|marco_auto|intros _].
  destruct (es_cadena (dict_get "tipo" d) "HEARTBEAT") eqn:E1.
  { marco_auto. apply Hraw. intros e. apply es_envio_de_despacho. cbn. by right. }
  destruct (es_cadena (dict_get "tipo" d) "HEARTBEAT_RESPONSE") eqn:E2; [marco_auto|].
  destruct (es_cadena (dict_get "tipo" d) "ACK") eqn:E3.
  { preserva_paso.
    destruct (clave_de (dict_get "mensaje_id" d)) as [k|] eqn:Ek; [|marco_auto].
    preserva_paso.
    assert (forall k', K k' -> k' <> k) as Hne.
    { intros k' Hk' ->. by apply (HK k). }
    apply preserva_bind; [tc_solve| |intros _].
    { intros st. split; cbn; try done; try lia.
      - intros k' Hk'. specialize (Hne k' Hk').
        rewrite elem_of_union, elem_of_singleton.
        split; [intros [?|?]; [congruence|done]|by right].
      - exists []. by rewrite app_nil_r. }
    marco_auto.
    intros st. split; cbn; try done; try lia.
    - intros k' Hk'. specialize (Hne k' Hk'). by rewrite lookup_delete_ne.
    - exists []. by rewrite app_nil_r. }
  destruct (es_cadena (dict_get "tipo" d) "MENSAJE") eqn:E4; [|marco_auto].
  marco_auto.
  - apply Hraw. intros e. apply es_envio_de_despacho. cbn. by left.
  - apply marco_emitir. done.
  - apply marco_emitir. done.
Qed.

Lemma marco__procesar_mensaje_recibido texto s :
  (forall mensaje k, json_loads texto = Some mensaje -> K k -> ~ es_ack_para mensaje k) ->
  preserva (marco K de_despacho) (_procesar_mensaje_recibido texto s).
Proof.
  intros HK. unfold _procesar_mensaje_recibido.
  destruct (json_loads texto) as [mensaje|] eqn:E.
  - pose proof (marco_despachar mensaje s (fun k => HK mensaje k eq_refl)).
    marco_auto.
  - marco_auto.
Qed.

End MarcoDespacho.

Lemma es_cadena_true v s : es_cadena v s = true -> v = VStr s.
Proof.
  destruct v; cbn; try done. intros H. apply String.eqb_eq in H. by subst.
Qed.

(** C5 (as the code has it). An ACK whose id matches no entry of
    [mensajes_pendientes] is processed without an error (the dispatcher
    returns, also when the id is not even hashable), writes nothing,
    takes no time, and leaves [mensajes_pendientes] as it was, every
    entry of it. It is not without effect, though. Its id, when it can
    be a key, is put in [acks_recibidos], where the next sender that
    waits for that id finds it, and the ACK is counted as a message
    received and as an ACK received; an id that cannot be a key makes it
    counted as a message received and as an error. The set of ACKs, the
    counters and the log are all that changes. *)
Theorem ack_sin_pendiente texto d s st :
  json_loads texto = Some (VDict d) ->
  es_cadena (dict_get "tipo" d) "ACK" = true ->
  (forall k, clave_de (dict_get "mensaje_id" d) = Some k ->
             mensajes_pendientes st !! k = None) ->
  exists st',
    _procesar_mensaje_recibido texto s st = (Normal tt, st') /\
    mensajes_pendientes st' = mensajes_pendientes st /\
    traza st' = traza st /\
    reloj st' = reloj st /\
    conexion_activa st' = conexion_activa st /\
    socket_cliente st' = socket_cliente st /\
    mensaje_id st' = mensaje_id st /\
    st' = con_registro (registro st')
            (con_stats (stats st')
               (con_acks_recibidos (acks_recibidos st') st)) /\
    match clave_de (dict_get "mensaje_id" d) with
    | Some k =>
      acks_recibidos st' = {[k]} ∪ acks_recibidos st /\
      stats st' = Stats.incr_acks_recibidos (Stats.incr_mensajes_recibidos (stats st)) /\
      registro st' =
        registro st ++
          [(INFO, Recibido (VDict d)); (INFO, AckRecibido (dict_get "mensaje_id" d))]
    | None =>
      acks_recibidos st' = acks_recibidos st /\
      stats st' = Stats.incr_errores (Stats.incr_mensajes_recibidos (stats st)) /\
      registro st' =
        registro st ++ [(INFO, Recibido (VDict d)); (ERROR, ErrorProcesando TypeError)]
    end.
Proof.
  intros Hl Ht Hk.
  unfold _procesar_mensaje_recibido, despachar. rewrite Hl.
  apply es_cadena_true in Ht.
  py_simpl. rewrite Ht. cbn.
  destruct (clave_de (dict_get "mensaje_id" d)) as [k|] eqn:Ek; cbn.
  - rewrite (Hk k eq_refl). cbn. eexists. split; [reflexivity|]. cbn.
    rewrite <- !app_assoc. done.
  - eexists. split; [reflexivity|]. cbn. rewrite <- !app_assoc. done.
Qed.


(** ** The receive loop *)

Lemma _limpiar_conexion_eq s st : _limpiar_conexion s st = (Normal tt, limpiada s st).
Proof. reflexivity. Qed.

(** A round of the loop on a well-formed frame hands its text to the
    dispatcher and goes on with the next round. *)
Lemma manejar_bucle_trama fuel socket_cliente st cabecera cuerpo resto :
  ejecutando st = true ->
  conexion_activa st = true ->
  corriente socket_cliente = cabecera ++ cuerpo ++ resto ->
  List.length cabecera = 4%nat ->
  struct_unpack_I cabecera = Some (N.of_nat (List.length cuerpo)) ->
  cuerpo <> [] ->
  utf8_valido cuerpo = true ->
  sin_fallas (guion socket_cliente) ->
  (4 + List.length cuerpo <= entregas (guion socket_cliente))%nat ->
  exists guion',
    manejar_bucle (S fuel) socket_cliente st =
      (_procesar_mensaje_recibido (string_of_list_byte cuerpo) (fileno socket_cliente) ;;
       manejar_bucle fuel
         {| fileno := fileno socket_cliente; corriente := resto; guion := guion' |}) st /\
    sin_fallas guion' /\
    (entregas (guion socket_cliente) <= entregas guion' + 4 + List.length cuerpo)%nat.
Proof.
  intros He Ha Hc H4 Hu Hne Hv Hsf Hen.
  destruct (recibir_trama_trama socket_cliente st cabecera cuerpo resto)
    as (guion' & Hr & Hsf' & Hen'); try done.
  exists guion'. split; [|done].
  cbn [manejar_bucle]. rewrite bind_leer, He, Ha. cbn [andb].
  rewrite Hv in Hr. by rewrite (bind_normal _ _ _ _ _ Hr).
Qed.

(** C10. A frame that announces a body of zero bytes: [_recibir_completo]
    returns the empty bytes for it, and the receive loop takes that for a
    closed connection. [_manejar_cliente] ends there, with the
    connection cleaned up ([conexion_activa] false, the socket closed);
    nothing was handed to the dispatcher (no counter moved, nothing was
    written), whatever follows in the stream and however many rounds the
    loop could still make. *)
Theorem _manejar_cliente_longitud_cero fuel socket_cliente st resto :
  ejecutando st = true ->
  conexion_activa st = true ->
  corriente socket_cliente = [x00; x00; x00; x00] ++ resto ->
  sin_fallas (guion socket_cliente) ->
  (4 <= entregas (guion socket_cliente))%nat ->
  exists guion' st',
    let socket_cliente' :=
      {| fileno := fileno socket_cliente; corriente := resto; guion := guion' |} in
    _recibir_completo socket_cliente' 0 st = (Normal (Some [], socket_cliente'), st) /\
    _manejar_cliente (S fuel) socket_cliente st = (Normal tt, st') /\
    conexion_activa st' = false /\
    stats st' = stats st /\
    traza st' = traza st ++ [(reloj st, Cierre (fileno socket_cliente))] /\
    mensajes_pendientes st' = mensajes_pendientes st /\
    acks_recibidos st' = acks_recibidos st.
Proof.
  intros He Ha Hc Hsf Hen.
  destruct (recibir_trama_vacia socket_cliente st [x00; x00; x00; x00] resto)
    as (guion' & H0 & Hr); try done.
  exists guion', (limpiada (fileno socket_cliente) st).
  split; [exact H0|]. split; [|done].
  unfold _manejar_cliente, finalmente, intentar. cbn [manejar_bucle].
  rewrite bind_leer, He, Ha. cbn [andb].
  rewrite (bind_normal _ _ _ _ _ Hr). reflexivity.
Qed.

(** A frame whose body is not UTF-8 ends the receive loop: the
    [UnicodeDecodeError] of [decode] is raised outside the dispatcher, in
    [_manejar_cliente], whose handler counts an error and whose [finally]
    closes the connection. What follows in the stream is never read. *)
Lemma _manejar_cliente_utf8_invalido fuel socket_cliente st cabecera cuerpo resto :
  ejecutando st = true ->
  conexion_activa st = true ->
  corriente socket_cliente = cabecera ++ cuerpo ++ resto ->
  List.length cabecera = 4%nat ->
  struct_unpack_I cabecera = Some (N.of_nat (List.length cuerpo)) ->
  cuerpo <> [] ->
  utf8_valido cuerpo = false ->
  sin_fallas (guion socket_cliente) ->
  (4 + List.length cuerpo <= entregas (guion socket_cliente))%nat ->
  _manejar_cliente (S fuel) socket_cliente st =
    (Normal tt,
     limpiada (fileno socket_cliente)
       (con_stats (Stats.incr_errores (stats st))
          (con_registro
             (registro st ++ [(ERROR, ErrorManejandoCliente UnicodeDecodeError)]) st))).
Proof.
  intros He Ha Hc H4 Hu Hne Hv Hsf Hen.
  destruct (recibir_trama_trama socket_cliente st cabecera cuerpo resto)
    as (guion' & Hr & Hsf' & Hen'); try done.
  unfold _manejar_cliente, finalmente, intentar. cbn [manejar_bucle].
  rewrite bind_leer, He, Ha. cbn [andb].
  rewrite Hv in Hr. unfold bind at 1. rewrite Hr. reflexivity.
Qed.

(** Inside the dispatcher, a text that is not JSON is logged, counted as
    an error and dropped. *)
Lemma _procesar_mensaje_recibido_json_invalido texto s st :
  json_loads texto = None ->
  _procesar_mensaje_recibido texto s st =
    (Normal tt,
     con_stats (Stats.incr_errores (stats st))
       (con_registro (registro st ++ [(ERROR, ErrorDecodificandoJSON texto)]) st)).
Proof. intros H. unfold _procesar_mensaje_recibido. rewrite H. reflexivity. Qed.

(** A message of a kind the dispatcher does not know is logged, counted
    as received and dropped. *)
Lemma _procesar_mensaje_recibido_tipo_desconocido texto d s st :
  json_loads texto = Some (VDict d) ->
  es_cadena (dict_get "tipo" d) "HEARTBEAT" = false ->
  es_cadena (dict_get "tipo" d) "HEARTBEAT_RESPONSE" = false ->
  es_cadena (dict_get "tipo" d) "ACK" = false ->
  es_cadena (dict_get "tipo" d) "MENSAJE" = false ->
  _procesar_mensaje_recibido texto s st =
    (Normal tt,
     con_registro (registro st ++ [(INFO, Recibido (VDict d))])
       (con_stats (Stats.incr_mensajes_recibidos (stats st)) st)).
Proof.
  intros H H1 H2 H3 H4. unfold _procesar_mensaje_recibido, despachar. rewrite H.
  py_simpl. rewrite H1, H2, H3, H4. reflexivity.
Qed.

(** ** Framing *)

(** C3 (as the code has it). Take a message that [json] itself reads
    back from what it printed, as valid UTF-8 text, and whose text is
    shorter than 2^32 bytes. Then [_enviar_mensaje_raw] frames it, the
    length on four bytes before the text, and writes the frame; and the
    receive loop, reading the four bytes and then exactly as many bytes as
    they say from a stream that starts with that frame, however the
    stream is cut into [recv]s and whatever timeouts come between, gets
    the text whose [json.loads] is the message, and stops reading right
    after the frame. *)
Theorem trama_ida_y_vuelta mensaje st :
  let mensaje_bytes := list_byte_of_string (json_dumps mensaje) in
  json_loads (json_dumps mensaje) = Some mensaje ->
  utf8_valido mensaje_bytes = true ->
  mensaje_bytes <> [] ->
  (N.of_nat (List.length mensaje_bytes) < 2 ^ 32)%N ->
  exists datos,
    codificar mensaje st = (Normal datos, st) /\
    List.length datos = (4 + List.length mensaje_bytes)%nat /\
    (forall s st1,
       match envios st1 with [] => true | b :: _ => b end = true ->
       exists st2,
         _enviar_mensaje_raw mensaje (Some s) st1 = (Normal true, st2) /\
         traza st2 = traza st1 ++ [(reloj st1, Envio s mensaje datos)]) /\
    (forall socket_cliente resto st',
       corriente socket_cliente = datos ++ resto ->
       sin_fallas (guion socket_cliente) ->
       (List.length datos <= entregas (guion socket_cliente))%nat ->
       exists texto guion',
         recibir_trama socket_cliente st' =
           (Normal (Some texto,
                    {| fileno := fileno socket_cliente;
                       corriente := resto; guion := guion' |}),
            st') /\
         json_loads texto = Some mensaje).
Proof.
  intros mensaje_bytes Hj Hv Hne Hlen.
  destruct (struct_pack_I_Some _ Hlen) as [longitud Hp].
  pose proof (struct_pack_I_length _ _ Hp) as H4.
  pose proof (struct_unpack_pack _ _ Hp) as Hu.
  exists (longitud ++ mensaje_bytes).
  split; [|split; [|split]].
  - unfold codificar, struct_pack. fold mensaje_bytes. by rewrite Hp.
  - rewrite length_app. lia.
  - intros s st1 Ho. eexists. split.
    + apply _enviar_mensaje_raw_exito; [exact Hp|exact Ho].
    + reflexivity.
  - intros socket_cliente resto st' Hc Hsf Hen.
    rewrite <- app_assoc in Hc. rewrite length_app, H4 in Hen.
    destruct (recibir_trama_trama socket_cliente st' longitud mensaje_bytes resto)
      as (guion' & Hr & _ & _); try done.
    rewrite Hv in Hr.
    exists (string_of_list_byte mensaje_bytes), guion'. split; [exact Hr|].
    subst mensaje_bytes. by rewrite string_of_list_byte_of_string.
Qed.

(** ** Connecting *)

#[global] Instance solo_conexion_preorder : PreOrder solo_conexion.
Proof.
  split.
  - intros st. unfold solo_conexion. lia.
  - intros a b c. unfold solo_conexion. lia.
Qed.

Lemma solo_conexion_modificar f :
  (forall st, stats (f st) = stats st) -> preserva solo_conexion (modificar f).
Proof. intros H st. cbn. unfold solo_conexion. rewrite H. lia. Qed.

Lemma solo_conexion_conectar_bucle n : forall reintentos,
  preserva solo_conexion (conectar_bucle n reintentos).
Proof.
  assert (forall f, (forall s, Stats.mensajes_enviados (f s) = Stats.mensajes_enviados s /\
                       Stats.mensajes_recibidos (f s) = Stats.mensajes_recibidos s /\
                       Stats.acks_enviados (f s) = Stats.acks_enviados s /\
                       Stats.acks_recibidos (f s) = Stats.acks_recibidos s /\
                       Stats.reconexiones s <= Stats.reconexiones (f s) /\
                       Stats.errores s <= Stats.errores (f s)) ->
            preserva solo_conexion (incr f)) as Hincr.
  { intros f Hf st. cbn. unfold solo_conexion. cbn. apply Hf. }
  induction n as [|n IH]; intros reintentos; cbn [conectar_bucle].
  - preserva_auto.
  - unfold connect, socket_socket, time_sleep, anotar, emitir.
    repeat first
      [ preserva_paso
      | apply IH
      | apply solo_conexion_modificar; intros; reflexivity
      | apply Hincr; intros; cbn; lia
      | match goal with
        | |- preserva _ (fun st => _) => intros ?; cbn; unfold solo_conexion; cbn; lia
        end ].
Qed.

Lemma solo_conexion__conectar_servidor : preserva solo_conexion _conectar_servidor.
Proof.
  unfold _conectar_servidor. preserva_auto. apply solo_conexion_conectar_bucle.
Qed.

Lemma solo_conexion__manejar_error_conexion :
  preserva solo_conexion _manejar_error_conexion.
Proof.
  unfold _manejar_error_conexion, close, time_sleep, anotar, emitir.
  repeat first
    [ preserva_paso
    | apply solo_conexion__conectar_servidor
    | apply solo_conexion_modificar; intros; reflexivity ].
Qed.

(** C7 (as the code has it). The six counters are zero when the object
    is built, and nothing resets them afterwards: opening a connection
    ([_conectar_servidor], first connection or reconnection) and the
    handling of a connection failure that leads to it
    ([_manejar_error_conexion]) leave [mensajes_enviados],
    [mensajes_recibidos], [acks_enviados] and [acks_recibidos] as they
    are, and [reconexiones] and [errores] can only have grown. *)
Theorem contadores_sin_reinicio :
  (forall nombre es_servidor reloj envios conexiones llegadas,
     stats (__init__ nombre es_servidor reloj envios conexiones llegadas) = Stats.cero) /\
  (forall st, solo_conexion st (_conectar_servidor st).2) /\
  (forall st, solo_conexion st (_manejar_error_conexion st).2).
Proof.
  split; [reflexivity|]. split.
  - apply solo_conexion__conectar_servidor.
  - apply solo_conexion__manejar_error_conexion.
Qed.

Lemma conectar_bucle_fallo n reintentos st :
  ejecutando st = true ->
  reintentos < max_reintentos st ->
  proxima_conexion st = false ->
  conectar_bucle (S n) reintentos st =
    conectar_bucle n (reintentos + 1) (tras_fallo (reintentos + 1) st).
Proof.
  intros He Hr Ho. cbn [conectar_bucle]. rewrite bind_leer, He.
  apply Z.ltb_lt in Hr. rewrite Hr. cbn [andb].
  unfold tras_fallo, proxima_conexion in *.
  unfold connect, socket_socket, time_sleep. py_desplegar. cbn.
  rewrite Ho. cbn.
  destruct (reintentos + 1 <? max_reintentos st); reflexivity.
Qed.

Lemma conectar_bucle_exito n reintentos st :
  ejecutando st = true ->
  reintentos < max_reintentos st ->
  proxima_conexion st = true ->
  conectar_bucle (S n) reintentos st = (Normal true, tras_exito reintentos st).
Proof.
  intros He Hr Ho. cbn [conectar_bucle]. rewrite bind_leer, He.
  apply Z.ltb_lt in Hr. rewrite Hr. cbn [andb].
  unfold tras_exito, proxima_conexion in *.
  unfold connect, socket_socket. py_desplegar. cbn.
  rewrite Ho. cbn.
  destruct (0 <? reintentos); cbn; rewrite <- app_assoc; reflexivity.
Qed.

Lemma conectar_bucle_parado n reintentos st :
  ejecutando st && (reintentos <? max_reintentos st) = false ->
  conectar_bucle n reintentos st = (Normal false, st).
Proof.
  intros H. destruct n; [reflexivity|]. cbn [conectar_bucle].
  by rewrite bind_leer, H.
Qed.

Lemma tiempos_intentos_app tr tr' :
  tiempos_intentos (tr ++ tr') = tiempos_intentos tr ++ tiempos_intentos tr'.
Proof. unfold tiempos_intentos. by rewrite List.filter_app, map_app. Qed.

Lemma max_reintentos_tras_fallo r st :
  max_reintentos (tras_fallo r st) = max_reintentos st.
Proof. unfold tras_fallo. by destruct (r <? max_reintentos st). Qed.

Lemma ejecutando_tras_fallo r st : ejecutando (tras_fallo r st) = ejecutando st.
Proof. unfold tras_fallo. by destruct (r <? max_reintentos st). Qed.

Lemma conexiones_tras_fallo r st : conexiones (tras_fallo r st) = tail (conexiones st).
Proof. unfold tras_fallo. by destruct (r <? max_reintentos st). Qed.

Lemma conexion_activa_tras_fallo r st :
  conexion_activa (tras_fallo r st) = conexion_activa st.
Proof. unfold tras_fallo. by destruct (r <? max_reintentos st). Qed.

(** The counter of rounds of [conectar_bucle] is the number of rounds the
    [while] makes at most: with any larger one the result is the same. *)
Lemma conectar_bucle_rondas n : forall reintentos st,
  (Z.to_nat (max_reintentos st - reintentos) <= n)%nat ->
  conectar_bucle n reintentos st =
    conectar_bucle (Z.to_nat (max_reintentos st - reintentos)) reintentos st.
Proof.
  induction n as [|n IH]; intros r st Hn.
  - by replace (Z.to_nat (max_reintentos st - r)) with 0%nat by lia.
  - destruct (ejecutando st && (r <? max_reintentos st)) eqn:Hg.
    2:{ by rewrite !conectar_bucle_parado. }
    apply andb_true_iff in Hg as [He Hr]. apply Z.ltb_lt in Hr.
    destruct (Z.to_nat (max_reintentos st - r)) as [|m] eqn:Em; [lia|].
    destruct (proxima_conexion st) eqn:Ho.
    + by rewrite !conectar_bucle_exito.
    + rewrite !conectar_bucle_fallo by done.
      rewrite IH by (rewrite max_reintentos_tras_fallo; lia).
      rewrite max_reintentos_tras_fallo. f_equal. lia.
Qed.

(** Whatever the [connect]s do, the loop makes at most as many attempts
    as it has rounds. *)
Lemma conectar_bucle_intentos n : forall reintentos st,
  exists nuevos,
    traza (conectar_bucle n reintentos st).2 = traza st ++ nuevos /\
    (List.length (tiempos_intentos nuevos) <= n)%nat.
Proof.
  induction n as [|n IH]; intros r st.
  - exists []. cbn. by rewrite app_nil_r.
  - destruct (ejecutando st && (r <? max_reintentos st)) eqn:Hg.
    2:{ rewrite conectar_bucle_parado by done. exists []. cbn.
        rewrite app_nil_r. split; [done|lia]. }
    apply andb_true_iff in Hg as [He Hr]. apply Z.ltb_lt in Hr.
    destruct (proxima_conexion st) eqn:Ho.
    + rewrite conectar_bucle_exito by done.
      eexists. split.
      * unfold tras_exito. destruct (0 <? r); cbn; reflexivity.
      * cbn. lia.
    + rewrite conectar_bucle_fallo by done.
      destruct (IH (r + 1) (tras_fallo (r + 1) st)) as (nuevos & Ht & Hl).
      rewrite Ht. unfold tras_fallo.
      destruct (r + 1 <? max_reintentos st); cbn; rewrite <- !app_assoc;
        (eexists; split; [reflexivity|]);
        rewrite ?tiempos_intentos_app; cbn; lia.
Qed.

(** When every [connect] fails: the rounds, their times and the error. *)
Lemma conectar_bucle_fallos n : forall reintentos st,
  ejecutando st = true ->
  0 <= reintentos ->
  Z.of_nat n = max_reintentos st - reintentos ->
  (forall i, (i < n)%nat -> conexiones st !! i <> Some true) ->
  exists st' nuevos,
    conectar_bucle n reintentos st = (Normal false, st') /\
    conexion_activa st' = conexion_activa st /\
    stats st' = match n with O => stats st | S _ => Stats.incr_errores (stats st) end /\
    traza st' = traza st ++ nuevos /\
    tiempos_intentos nuevos =
      map (fun i : nat => reloj st + 1000 * 2 ^ (reintentos + 1) * (2 ^ Z.of_nat i - 1))
          (seq 0 n).
Proof.
  induction n as [|n IH]; intros r st He Hr Hn Ho.
  - exists st, []. cbn. by rewrite app_nil_r.
  - assert (proxima_conexion st = false) as Hp.
    { specialize (Ho 0%nat ltac:(lia)). unfold proxima_conexion.
      destruct (conexiones st) as [|[] ?]; cbn in *; congruence. }
    rewrite conectar_bucle_fallo by (done || lia).
    destruct (IH (r + 1) (tras_fallo (r + 1) st)) as (st' & nuevos & Hb & Ha & Hs & Ht & Hi).
    + by rewrite ejecutando_tras_fallo.
    + lia.
    + rewrite max_reintentos_tras_fallo. lia.
    + intros i Hi. rewrite conexiones_tras_fallo.
      specialize (Ho (S i) ltac:(lia)).
      destruct (conexiones st); cbn in *; [by rewrite lookup_nil|done].
    + rewrite Hb. rewrite conexion_activa_tras_fallo in Ha.
      assert (0 < 2 ^ (r + 1)) as Hpos by (apply Z.pow_pos_nonneg; lia).
      assert (2 ^ (r + 1 + 1) = 2 * 2 ^ (r + 1)) as Hdoble
        by (rewrite Z.pow_add_r by lia; lia).
      unfold tras_fallo in Hs, Ht, Hi.
      destruct (r + 1 <? max_reintentos st) eqn:Hlt.
      * apply Z.ltb_lt in Hlt. destruct n as [|n]; [lia|].
        cbn [traza reloj stats con_reloj con_traza con_registro con_conexiones
             con_socket_cliente con_sockets_creados] in Hs, Ht, Hi.
        rewrite <- !app_assoc in Ht.
        eexists _, _. split; [reflexivity|]. split; [done|]. split; [done|].
        split; [exact Ht|].
        rewrite !tiempos_intentos_app, Hi.
        change (seq 0 (S (S n))) with (0%nat :: seq 1 (S n)).
        rewrite <- (seq_shift (S n) 0). cbn [map]. rewrite (map_map S).
        cbn [tiempos_intentos List.filter es_intento map fst snd app].
        f_equal; [lia|].
        apply map_ext. intros i. rewrite Hdoble.
        replace (2 ^ Z.of_nat (S i)) with (2 * 2 ^ Z.of_nat i)
          by (rewrite Nat2Z.inj_succ, Z.pow_succ_r; lia).
        lia.
      * apply Z.ltb_ge in Hlt. destruct n as [|n]; [|lia].
        cbn [traza reloj stats con_stats con_reloj con_traza con_registro con_conexiones
             con_socket_cliente con_sockets_creados] in Hs, Ht, Hi.
        rewrite <- !app_assoc in Ht.
        eexists _, _. split; [reflexivity|]. split; [done|]. split; [done|].
        split; [exact Ht|].
        rewrite !tiempos_intentos_app, Hi. cbn. f_equal. lia.
Qed.

(** C4. As initiator, with [max_reintentos] at least one and the object
    running: [_conectar_servidor] makes at most [max_reintentos]
    connection attempts, whatever they give. When they all fail, it makes
    exactly [max_reintentos] of them, the one of index [i] (from 0) at
    2 * (2^i - 1) seconds after the first, that is, it waits 2^k seconds
    after the k-th failure before the next attempt (2 s, 4 s, ...: twice
    longer each time); it then returns [False] and has counted one error.
    The connection is left inactive, and in that state neither
    [enviar_mensaje] nor a round of the heartbeat makes any further
    attempt: only a detected failure ([_manejar_error_conexion]) calls
    [_conectar_servidor] again. *)
Theorem _conectar_servidor_reintentos st :
  ejecutando st = true ->
  0 < max_reintentos st ->
  conexion_activa st = false ->
  (exists nuevos,
     traza (_conectar_servidor st).2 = traza st ++ nuevos /\
     (List.length (tiempos_intentos nuevos) <= Z.to_nat (max_reintentos st))%nat) /\
  ((forall i, (i < Z.to_nat (max_reintentos st))%nat -> conexiones st !! i <> Some true) ->
   exists st' nuevos,
     _conectar_servidor st = (Normal false, st') /\
     stats st' = Stats.incr_errores (stats st) /\
     traza st' = traza st ++ nuevos /\
     tiempos_intentos nuevos =
       map (fun i : nat => reloj st + 2000 * (2 ^ Z.of_nat i - 1))
           (seq 0 (Z.to_nat (max_reintentos st))) /\
     conexion_activa st' = false /\
     (forall fuel contenido requiere_ack,
        tiempos_intentos (traza (enviar_mensaje fuel contenido requiere_ack st').2)
          = tiempos_intentos (traza st')) /\
     tiempos_intentos (traza (heartbeat_ronda st').2) = tiempos_intentos (traza st')).
Proof.
  intros He Hm Ha. unfold _conectar_servidor. rewrite !bind_leer. split.
  - apply conectar_bucle_intentos.
  - intros Ho.
    destruct (conectar_bucle_fallos (Z.to_nat (max_reintentos st)) 0 st)
      as (st' & nuevos & Hb & Ha' & Hs & Ht & Hi); try done; try lia.
    exists st', nuevos. split; [exact Hb|].
    destruct (Z.to_nat (max_reintentos st)) as [|n] eqn:En; [lia|].
    split; [exact Hs|]. split; [exact Ht|]. split.
    { rewrite Hi. apply map_ext. intros i. change (2 ^ (0 + 1)) with 2. lia. }
    rewrite Ha in Ha'. split; [exact Ha'|]. split.
    + intros fuel contenido requiere_ack.
      by rewrite (enviar_mensaje_inactiva fuel contenido requiere_ack st' (or_introl Ha')).
    + unfold heartbeat_ronda, time_sleep.
      rewrite bind_leer, bind_bind, bind_emitir, bind_modificar, bind_leer.
      cbn -[tiempos_intentos]. rewrite Ha'. cbn -[tiempos_intentos].
      rewrite tiempos_intentos_app. cbn. by rewrite app_nil_r.
Qed.

(** ** Waiting for the ACK *)

#[global] Instance mismas_llegadas_preorder : PreOrder mismas_llegadas.
Proof.
  split.
  - intros st. reflexivity.
  - intros a b c. unfold mismas_llegadas. congruence.
Qed.

(** Only the polling sleep of a waiting sender consumes the script of
    arrivals. *)
Ltac llegadas_auto :=
  unfold connect, socket_socket, close, sendall, codificar, struct_pack, py_get,
    py_get_def, hash, time_sleep, anotar, emitir, incr;
  repeat first
    [ preserva_paso
    | solve [eauto]
    | match goal with
      | |- preserva _ (modificar _) => intros ?; reflexivity
      | |- preserva _ (fun st => _) => intros ?; reflexivity
      end ].

Lemma llegadas_conectar_bucle n : forall reintentos,
  preserva mismas_llegadas (conectar_bucle n reintentos).
Proof. induction n as [|n IH]; intros r; cbn [conectar_bucle]; llegadas_auto. Qed.

Lemma llegadas__manejar_error_conexion : preserva mismas_llegadas _manejar_error_conexion.
Proof.
  pose proof llegadas_conectar_bucle.
  unfold _manejar_error_conexion, _conectar_servidor. llegadas_auto.
Qed.

Lemma llegadas__enviar_mensaje_raw m s :
  preserva mismas_llegadas (_enviar_mensaje_raw m s).
Proof.
  pose proof llegadas__manejar_error_conexion.
  unfold _enviar_mensaje_raw. llegadas_auto.
Qed.

Lemma llegadas__procesar_mensaje_recibido texto s :
  preserva mismas_llegadas (_procesar_mensaje_recibido texto s).
Proof.
  pose proof llegadas__enviar_mensaje_raw.
  unfold _procesar_mensaje_recibido, despachar. llegadas_auto.
Qed.

Lemma llegadas_procesar_todos tramas :
  preserva mismas_llegadas (procesar_todos tramas).
Proof.
  pose proof llegadas__procesar_mensaje_recibido.
  induction tramas as [|[s texto] tramas IH]; cbn [procesar_todos]; llegadas_auto.
Qed.

Lemma tiempos_envios_app mensaje tr tr' :
  tiempos_envios mensaje (tr ++ tr') =
    tiempos_envios mensaje tr ++ tiempos_envios mensaje tr'.
Proof. unfold tiempos_envios. by rewrite filter_app, map_app. Qed.

Lemma tiempos_envios_ninguno mensaje tr :
  Forall (fun te => ~ es_envio_de mensaje te.2) tr -> tiempos_envios mensaje tr = [].
Proof.
  unfold tiempos_envios. induction 1 as [|te tr Hte _ IH]; [done|].
  by rewrite filter_cons_False.
Qed.

Lemma tiempos_envios_uno mensaje t e :
  es_envio_de mensaje e -> tiempos_envios mensaje [(t, e)] = [t].
Proof. intros H. unfold tiempos_envios. by rewrite filter_cons_True. Qed.

Lemma de_despacho_no_envio mensaje e :
  ~ es_respuesta mensaje -> de_despacho e -> ~ es_envio_de mensaje e.
Proof. intros Hm. destruct e; cbn; try done; intros ? Heq; by subst. Qed.

Lemma de_conexion_no_envio mensaje e : de_conexion e -> ~ es_envio_de mensaje e.
Proof. destruct e; cbn; tauto. Qed.

Lemma separados_mono d a b ts : a <= b -> separados d (b :: ts) -> separados d (a :: ts).
Proof. intros Hab. destruct ts as [|c ts]; cbn; [done|]. intros [? ?]. split; [lia|done]. Qed.

(** What the dispatcher has no reply to write for leaves the socket and
    the script of writes alone. *)
Lemma _procesar_mensaje_recibido_sin_replica texto s st :
  sin_replica texto ->
  socket_cliente (_procesar_mensaje_recibido texto s st).2 = socket_cliente st /\
  envios (_procesar_mensaje_recibido texto s st).2 = envios st.
Proof.
  intros H. unfold _procesar_mensaje_recibido, despachar.
  destruct (json_loads texto) as [m|] eqn:Hl; [|done].
  destruct m as [| | | | | |d]; try done.
  destruct (H d Hl) as [H1 H4].
  py_simpl. rewrite H1, H4.
  destruct (es_cadena (dict_get "tipo" d) "HEARTBEAT_RESPONSE"); [done|].
  destruct (es_cadena (dict_get "tipo" d) "ACK"); [|done].
  cbn. destruct (clave_de (dict_get "mensaje_id" d)) as [k|]; cbn; [|done].
  destruct (mensajes_pendientes st !! k); done.
Qed.

Lemma procesar_todos_sin_replica tramas :
  Forall (fun trama : nat * string => sin_replica trama.2) tramas ->
  forall st,
    socket_cliente (procesar_todos tramas st).2 = socket_cliente st /\
    envios (procesar_todos tramas st).2 = envios st.
Proof.
  induction 1 as [|[s texto] tramas Ht _ IH]; intros st; cbn [procesar_todos]; [done|].
  destruct (_procesar_mensaje_recibido_sin_replica texto s st Ht) as [Hs He].
  unfold bind.
  destruct (_procesar_mensaje_recibido texto s st) as [[[]|e|] st1];
    cbn -[procesar_todos] in *; [|done..].
  destruct (IH st1) as [Hs' He']. split; congruence.
Qed.

Lemma sin_tropiezos_dormir_cediendo ms s st :
  socket_cliente st = Some s ->
  sin_tropiezos st ->
  socket_cliente (dormir_cediendo ms st).2 = Some s /\
  sin_tropiezos (dormir_cediendo ms st).2.
Proof.
  intros Hs [He Hl].
  unfold dormir_cediendo, time_sleep.
  rewrite bind_leer, bind_modificar, bind_bind, bind_emitir, bind_modificar.
  set (st1 := con_reloj _ _).
  set (tramas := match llegadas st with [] => [] | t :: _ => t end).
  assert (Forall (fun trama : nat * string => sin_replica trama.2) tramas) as Ht.
  { subst tramas. destruct Hl; [constructor|done]. }
  destruct (procesar_todos_sin_replica tramas Ht st1) as [Hs1 He1].
  pose proof (llegadas_procesar_todos tramas st1) as Hl1.
  unfold mismas_llegadas in Hl1.
  split; [rewrite Hs1; exact Hs|].
  split; [rewrite He1; exact He|].
  rewrite Hl1. subst st1. cbn. destruct Hl; [constructor|done].
Qed.

Lemma sin_tropiezos_sondear fuel id s : forall tiempo_inicio st,
  socket_cliente st = Some s ->
  sin_tropiezos st ->
  socket_cliente (sondear fuel id tiempo_inicio st).2 = Some s /\
  sin_tropiezos (sondear fuel id tiempo_inicio st).2.
Proof.
  induction fuel as [|fuel IH]; intros t0 st Hs Hst; [done|].
  cbn [sondear]. rewrite bind_time_time, bind_leer.
  destruct (reloj st - t0 <? timeout_ack st); [|split; [exact Hs|exact Hst]].
  destruct (bool_decide (KInt id ∈ acks_recibidos st));
    [rewrite bind_modificar; split; [exact Hs|exact Hst]|].
  destruct (sin_tropiezos_dormir_cediendo 100 s st Hs Hst) as [Hs1 Hst1].
  unfold bind.
  destruct (dormir_cediendo 100 st) as [[[]|e|] st1]; cbn -[sondear] in *; [|done..].
  by apply IH.
Qed.

Lemma escrituras_de_tiempos mensaje e nuevos :
  Forall (fun te : Z * evento => es_envio_de mensaje te.2 -> te.2 = e) nuevos ->
  filter (fun te : Z * evento => es_envio_de mensaje te.2) nuevos =
    map (fun t => (t, e)) (tiempos_envios mensaje nuevos).
Proof.
  unfold tiempos_envios.
  induction 1 as [|[t e'] nuevos He _ IH]; [done|].
  destruct (decide (es_envio_de mensaje e')) as [Hd|Hd].
  - rewrite !filter_cons_True by done. cbn in *. rewrite (He Hd). f_equal. exact IH.
  - rewrite !filter_cons_False by done. exact IH.
Qed.

Section Espera.

Context (id : Z).

(** A sender of the message [id] to which no ACK comes: during its sleeps
    the dispatcher leaves its pending entry and its place in the set of
    ACKs alone ([marco (solo (KInt id))]). *)

Lemma marco_procesar_todos tramas :
  Forall (fun trama : nat * string =>
            forall mensaje, json_loads trama.2 = Some mensaje ->
                            ~ es_ack_para mensaje (KInt id)) tramas ->
  preserva (marco (solo (KInt id)) de_despacho) (procesar_todos tramas).
Proof.
  induction 1 as [|[s texto] tramas Ht _ IH]; cbn [procesar_todos].
  - preserva_auto.
  - apply preserva_bind; [tc_solve| |intros _; exact IH].
    apply marco__procesar_mensaje_recibido. intros mensaje k Hl ->. by apply Ht.
Qed.

Lemma dormir_cediendo_sin_ack ms st :
  0 <= ms ->
  sin_ack (KInt id) (llegadas st) ->
  exists st',
    dormir_cediendo ms st = (Normal tt, st') /\
    marco (solo (KInt id)) de_despacho st st' /\
    reloj st + ms <= reloj st' /\
    llegadas st' = tail (llegadas st).
Proof.
  intros Hms Hsa.
  pose proof (retorna_dormir_cediendo ms st) as [[] Hn].
  destruct (dormir_cediendo ms st) as [r st'] eqn:E. cbn in Hn. subst r.
  exists st'. split; [done|].
  unfold dormir_cediendo, time_sleep in E.
  rewrite bind_leer, bind_modificar, bind_bind, bind_emitir, bind_modificar in E.
  set (st1 := con_reloj _ _) in E.
  set (tramas := match llegadas st with [] => [] | t :: _ => t end) in E.
  assert (Forall (fun trama : nat * string =>
            forall mensaje, json_loads trama.2 = Some mensaje ->
                            ~ es_ack_para mensaje (KInt id)) tramas) as Ht.
  { subst tramas. destruct Hsa; [constructor|done]. }
  pose proof (marco_procesar_todos tramas Ht st1) as Hm.
  pose proof (llegadas_procesar_todos tramas st1) as Hl.
  rewrite E in Hm, Hl. cbn in Hm, Hl.
  assert (marco (solo (KInt id)) de_despacho st st1) as Hm1.
  { split; cbn; try done; try lia.
    exists [(reloj st, Sueno ms)]. split; [done|].
    constructor; [|done]. cbn. split; [lia|done]. }
  split; [by etrans|].
  split; [|done].
  pose proof (marco_reloj _ _ _ _ Hm). cbn in *. lia.
Qed.

Lemma sin_ack_tail k ll : sin_ack k ll -> sin_ack k (tail ll).
Proof. intros H. destruct H; [constructor|done]. Qed.

(** The polling loop, when no ACK for [id] is there or comes: it gives up
    once [timeout_ack] has passed, not before. *)
Lemma sondear_sin_ack fuel : forall tiempo_inicio st,
  KInt id ∉ acks_recibidos st ->
  sin_ack (KInt id) (llegadas st) ->
  (Z.to_nat ((tiempo_inicio + timeout_ack st - reloj st + 99) / 100) < fuel)%nat ->
  exists st',
    sondear fuel id tiempo_inicio st = (Normal false, st') /\
    marco (solo (KInt id)) de_despacho st st' /\
    tiempo_inicio + timeout_ack st <= reloj st' /\
    sin_ack (KInt id) (llegadas st').
Proof.
  induction fuel as [|fuel IH]; intros t0 st Hna Hsa Hf; [lia|].
  cbn [sondear]. rewrite bind_time_time, bind_leer.
  destruct (reloj st - t0 <? timeout_ack st) eqn:Ht.
  - apply Z.ltb_lt in Ht.
    rewrite bool_decide_eq_false_2 by done.
    destruct (dormir_cediendo_sin_ack 100 st) as (st1 & Hd & Hm & Hr & Hl);
      [lia|done|].
    rewrite (bind_normal _ _ _ _ _ Hd).
    pose proof (marco_timeout_ack _ _ _ _ Hm) as HT.
    destruct (IH t0 st1) as (st' & Hs & Hm' & Hr' & Hl').
    + rewrite (marco_acks _ _ _ _ Hm (KInt id)); done.
    + rewrite Hl. by apply sin_ack_tail.
    + rewrite HT. clear -Hf Hr Ht. zify. Z.to_euclidean_division_equations. lia.
    + exists st'. split; [exact Hs|]. split; [by etrans|]. rewrite <- HT. done.
  - apply Z.ltb_ge in Ht. exists st. split; [done|]. split; [reflexivity|].
    split; [lia|done].
Qed.

Lemma last_cons_default (x d : Z) l : List.last (x :: l) d = List.last l x.
Proof.
  revert x d. induction l as [|y l IH]; intros x d; [done|].
  change (List.last (x :: y :: l) d) with (List.last (y :: l) d).
  rewrite IH. symmetry. apply IH.
Qed.

Lemma last_mono l : forall a b : Z, a <= b -> List.last l a <= List.last l b.
Proof.
  destruct l as [|x l]; intros a b Hab; [done|].
  rewrite !last_cons_default. lia.
Qed.

Context (mensaje : pyval) (T M : Z).
Hypothesis mensaje_no_respuesta : ~ es_respuesta mensaje.
Context (s : nat) (longitud : list byte).
Hypothesis mensaje_cabe :
  struct_pack_I (N.of_nat (List.length (list_byte_of_string (json_dumps mensaje))))
    = Some longitud.

(** The rounds of [_esperar_ack] for a message to which no ACK comes:
    with [n + 1] rounds left, [n] more writes of the message, done or
    failed, each a full [timeout_ack] after the round before began, then
    the failure, a full [timeout_ack] after the last of them. On a socket
    [s] that nothing troubles, every one of them is the write of the same
    frame on [s]. *)
Lemma esperar_bucle_sin_ack n : forall reintentos st fuel,
  timeout_ack st = T ->
  max_reintentos st = M ->
  Z.of_nat (S n) = M - reintentos ->
  mensajes_pendientes st !! KInt id = Some mensaje ->
  KInt id ∉ acks_recibidos st ->
  sin_ack (KInt id) (llegadas st) ->
  (S n + Z.to_nat ((T + 99) / 100) < fuel)%nat ->
  exists st' nuevos tx,
    esperar_bucle fuel id reintentos st = (Normal false, st') /\
    mensajes_pendientes st' !! KInt id = None /\
    traza st' = traza st ++ nuevos /\
    tiempos_envios mensaje nuevos = tx /\
    List.length tx = n /\
    separados T (reloj st :: tx) /\
    List.last tx (reloj st) + T <= reloj st' /\
    (socket_cliente st = Some s ->
     sin_tropiezos st ->
     Forall (fun te : Z * evento =>
               es_envio_de mensaje te.2 ->
               te.2 = Envio s mensaje (longitud ++ list_byte_of_string (json_dumps mensaje)))
       nuevos).
Proof.
  induction n as [|n IH]; intros r st fuel HT HM Hn Hp Hna Hsa Hf.
  - (* the last round *)
    destruct fuel as [|fuel]; [lia|]. cbn [esperar_bucle].
    rewrite bind_leer. rewrite HM.
    replace (r <? M) with true by (symmetry; apply Z.ltb_lt; lia).
    rewrite bind_time_time.
    destruct (sondear_sin_ack (S fuel) (reloj st) st Hna Hsa)
      as (st1 & Hs & Hm & Hr & Hsa1).
    { rewrite HT. replace (reloj st + T - reloj st + 99) with (T + 99) by lia. lia. }
    rewrite (bind_normal _ _ _ _ _ Hs). cbn iota.
    rewrite bind_leer.
    rewrite (marco_max_reintentos _ _ _ _ Hm), HM.
    replace (r + 1 <? M) with false by (symmetry; apply Z.ltb_ge; lia).
    rewrite bind_ret.
    destruct fuel as [|fuel]; [lia|]. cbn [esperar_bucle].
    rewrite bind_leer, (marco_max_reintentos _ _ _ _ Hm), HM.
    replace (r + 1 <? M) with false by (symmetry; apply Z.ltb_ge; lia).
    rewrite bind_anotar, bind_leer. cbn [mensajes_pendientes con_registro].
    rewrite (marco_pendientes _ _ _ _ Hm (KInt id) eq_refl), Hp.
    rewrite bind_modificar.
    destruct (marco_traza _ _ _ _ Hm) as (nuevos & Ht & Hfa).
    eexists _, nuevos, []. split; [reflexivity|]. cbn.
    split; [apply lookup_delete_eq|]. split; [exact Ht|].
    split.
    { apply tiempos_envios_ninguno. eapply Forall_impl; [exact Hfa|].
      intros te [_ Hd]. by apply de_despacho_no_envio. }
    split; [done|]. split; [done|]. split; [rewrite HT in Hr; lia|].
    intros _ _. eapply Forall_impl; [exact Hfa|].
    intros te [_ Hd] He. destruct (de_despacho_no_envio mensaje te.2 mensaje_no_respuesta Hd He).
  - (* a round followed by a retransmission *)
    destruct fuel as [|fuel]; [lia|]. cbn [esperar_bucle].
    rewrite bind_leer. rewrite HM.
    replace (r <? M) with true by (symmetry; apply Z.ltb_lt; lia).
    rewrite bind_time_time.
    destruct (sondear_sin_ack (S fuel) (reloj st) st Hna Hsa)
      as (st1 & Hs & Hm & Hr & Hsa1).
    { rewrite HT. replace (reloj st + T - reloj st + 99) with (T + 99) by lia. lia. }
    rewrite (bind_normal _ _ _ _ _ Hs). cbn iota.
    rewrite bind_leer.
    rewrite (marco_max_reintentos _ _ _ _ Hm), HM.
    replace (r + 1 <? M) with true by (symmetry; apply Z.ltb_lt; lia).
    rewrite (marco_pendientes _ _ _ _ Hm (KInt id) eq_refl), Hp.
    rewrite !bind_bind, bind_anotar.
    set (st1a := con_registro _ st1).
    destruct (_enviar_mensaje_raw_traza mensaje (socket_cliente st1) st1a)
      as (b & st2 & e & nuevos2 & Hraw & He & Ht2 & Hfa2).
    pose proof (marco__enviar_mensaje_raw (fun _ => True) (fun _ => True)
                  (fun _ _ => I) mensaje (socket_cliente st1) (fun _ _ => I) st1a) as Hm2.
    pose proof (llegadas__enviar_mensaje_raw mensaje (socket_cliente st1) st1a) as Hl2.
    rewrite Hraw in Hm2, Hl2. cbn [snd] in Hm2, Hl2.
    rewrite !bind_bind, (bind_normal _ _ _ _ _ Hraw), !bind_ret.
    destruct (IH (r + 1) st2 fuel) as (st' & nuevos3 & tx3 & Hb & Hp' & Ht' & Htx & Hlen & Hsep & Hult & Hfirme).
    + rewrite (marco_timeout_ack _ _ _ _ Hm2). cbn.
      by rewrite (marco_timeout_ack _ _ _ _ Hm).
    + rewrite (marco_max_reintentos _ _ _ _ Hm2). cbn.
      by rewrite (marco_max_reintentos _ _ _ _ Hm).
    + lia.
    + rewrite (marco_pendientes _ _ _ _ Hm2 (KInt id) I). cbn.
      by rewrite (marco_pendientes _ _ _ _ Hm (KInt id) eq_refl).
    + rewrite (marco_acks _ _ _ _ Hm2 (KInt id) I). cbn.
      by rewrite (marco_acks _ _ _ _ Hm (KInt id) eq_refl).
    + rewrite Hl2. done.
    + lia.
    + destruct (marco_traza _ _ _ _ Hm) as (nuevos1 & Ht1 & Hfa1).
      pose proof (marco_reloj _ _ _ _ Hm2) as Hr2. cbn in Hr2, Ht2.
      exists st', (nuevos1 ++ (reloj st1, e) :: nuevos2 ++ nuevos3), (reloj st1 :: tx3).
      split; [exact Hb|]. split; [exact Hp'|].
      split; [rewrite Ht', Ht2, Ht1, <- !app_assoc; done|].
      split.
      { rewrite tiempos_envios_app.
        change ((reloj st1, e) :: nuevos2 ++ nuevos3)
          with ([(reloj st1, e)] ++ nuevos2 ++ nuevos3).
        rewrite !tiempos_envios_app, Htx, (tiempos_envios_uno _ _ _ He).
        rewrite (tiempos_envios_ninguno mensaje nuevos1), (tiempos_envios_ninguno mensaje nuevos2).
        - done.
        - eapply Forall_impl; [exact Hfa2|]. intros te [_ Hd]. by apply de_conexion_no_envio.
        - eapply Forall_impl; [exact Hfa1|]. intros te [_ Hd]. by apply de_despacho_no_envio. }
      split; [cbn; lia|].
      split.
      { cbn [separados]. split; [rewrite HT in Hr; lia|].
        eapply separados_mono; [exact Hr2|exact Hsep]. }
      split.
      { rewrite last_cons_default.
        pose proof (last_mono tx3 _ _ Hr2). lia. }
      intros Hso Hst.
      destruct (sin_tropiezos_sondear (S fuel) id s (reloj st) st Hso Hst) as [Hso1 Hst1].
      rewrite Hs in Hso1, Hst1. cbn [snd] in Hso1, Hst1.
      assert (match envios st1a with [] => true | b :: _ => b end = true) as Ho.
      { destruct Hst1 as [He1 _]. subst st1a. cbn. destruct He1; done. }
      rewrite Hso1, (_enviar_mensaje_raw_exito mensaje s st1a longitud mensaje_cabe Ho) in Hraw.
      injection Hraw as _ Hst2.
      rewrite <- Hst2 in Ht2. cbn [traza con_traza] in Ht2.
      apply app_inv_head in Ht2. injection Ht2 as <- <-.
      apply Forall_app. split.
      { eapply Forall_impl; [exact Hfa1|].
        intros te [_ Hd] He'.
        destruct (de_despacho_no_envio mensaje te.2 mensaje_no_respuesta Hd He'). }
      constructor; [done|]. cbn [app].
      apply Hfirme.
      { rewrite <- Hst2. cbn. exact Hso1. }
      rewrite <- Hst2. destruct Hst1 as [He1 Hl1]. split; cbn; [|exact Hl1].
      destruct He1; [constructor|done].
Qed.

End Espera.

(** C1 (as the code has it). [enviar_mensaje(contenido,
    requiere_ack=True)] on an active connection, whose first write
    succeeds, for whose id no ACK is in [acks_recibidos] nor ever comes
    while it waits. The call returns [False]. By then the message has
    been written once and, after that, [max_reintentos - 1] times the
    same message (same id, same content) has been handed to
    [_enviar_mensaje_raw] again: [max_reintentos - 1] retransmissions,
    not [max_reintentos] of them. A retransmission is an attempt: its
    write may fail, the round is counted all the same and the next one
    is tried. Where nothing troubles the connection (every [sendall]
    succeeds, and what arrives meanwhile asks the dispatcher for no
    reply), each retransmission is the write of the same frame on the
    same socket as the first. Each attempt comes at least a full
    [timeout_ack] after the one before, and the failure at least a full
    [timeout_ack] after the last; the entry of the message is no longer
    in [mensajes_pendientes]. *)
Theorem enviar_mensaje_sin_respuesta fuel contenido st s longitud :
  let id := mensaje_id st + 1 in
  let mensaje :=
    VDict [("tipo", VStr "MENSAJE");
           ("id", VInt id);
           ("contenido", contenido);
           ("remitente", VStr (nombre st));
           ("timestamp", VFloat (reloj st));
           ("requiere_ack", VBool true)] in
  let datos := longitud ++ list_byte_of_string (json_dumps mensaje) in
  conexion_activa st = true ->
  socket_cliente st = Some s ->
  struct_pack_I (N.of_nat (List.length (list_byte_of_string (json_dumps mensaje))))
    = Some longitud ->
  match envios st with [] => true | b :: _ => b end = true ->
  0 < max_reintentos st ->
  KInt id ∉ acks_recibidos st ->
  sin_ack (KInt id) (llegadas st) ->
  (Z.to_nat (max_reintentos st) + Z.to_nat ((timeout_ack st + 99) / 100) < fuel)%nat ->
  exists st' nuevos retransmisiones,
    enviar_mensaje fuel contenido true st = (Normal false, st') /\
    mensajes_pendientes st' !! KInt id = None /\
    traza st' = traza st ++ (reloj st, Envio s mensaje datos) :: nuevos /\
    tiempos_envios mensaje nuevos = retransmisiones /\
    List.length retransmisiones = Z.to_nat (max_reintentos st - 1) /\
    separados (timeout_ack st) (reloj st :: retransmisiones) /\
    List.last retransmisiones (reloj st) + timeout_ack st <= reloj st' /\
    (sin_tropiezos st ->
     filter (fun te : Z * evento => es_envio_de mensaje te.2) nuevos =
       map (fun t => (t, Envio s mensaje datos)) retransmisiones).
Proof.
  intros id mensaje datos Hc Hs Hp Ho HM Hna Hsa Hf.
  unfold enviar_mensaje.
  rewrite bind_leer, Hc, Hs. cbn [negb orb].
  rewrite bool_decide_eq_true_2 by eauto. cbn [negb].
  rewrite bind_modificar, bind_leer, bind_time_time.
  cbn [reloj con_mensaje_id mensaje_id nombre socket_cliente]. rewrite Hs.
  fold id. fold mensaje.
  rewrite (bind_normal _ _ _ _ _
             (_enviar_mensaje_raw_exito mensaje s (con_mensaje_id id st) longitud Hp Ho)).
  rewrite bind_incr, bind_leer, bind_modificar.
  cbn [mensaje_id con_stats con_traza con_envios con_mensaje_id]. fold id.
  set (st2 := con_mensajes_pendientes _ _).
  assert (~ es_respuesta mensaje) as Hnr by (cbn; intros [|]; discriminate).
  destruct (esperar_bucle_sin_ack id mensaje (timeout_ack st) (max_reintentos st)
              Hnr s longitud Hp (Z.to_nat (max_reintentos st - 1)) 0 st2 fuel)
    as (st' & nuevos & tx & Hb & Hp' & Ht & Htx & Hlen & Hsep & Hult & Hfirme);
    try done; try (cbn; lia).
  { cbn. apply lookup_insert_eq. }
  exists st', nuevos, tx.
  split; [exact Hb|]. split; [exact Hp'|].
  split; [rewrite Ht; cbn; by rewrite <- app_assoc|].
  split; [exact Htx|]. split; [exact Hlen|]. split; [exact Hsep|]. split; [exact Hult|].
  intros [He Hl]. rewrite <- Htx. apply escrituras_de_tiempos, Hfirme.
  - subst st2. cbn. exact Hs.
  - subst st2. split; cbn; [|exact Hl]. destruct He; [constructor|done].
Qed.
(** ** More on receiving *)

Lemma take_length_take {A} n (l : list A) : take (List.length (take n l)) l = take n l.
Proof.
  rewrite length_take. destruct (Nat.min_spec n (List.length l)) as [[_ ->]|[H ->]].
  - done.
  - by rewrite !take_ge by lia.
Qed.

(** Whenever the loop of [_recibir_completo] returns bytes, they are the
    ones it had followed by the next ones of the stream, [longitud] in
    all; the state is untouched. *)
Lemma recibir_bucle_exacto guion : forall corriente datos longitud st r c' g' st',
  (N.of_nat (List.length datos) <= longitud)%N ->
  recibir_bucle guion corriente datos longitud st = (Normal (Some r, (c', g')), st') ->
  exists leidos,
    r = datos ++ leidos /\ corriente = leidos ++ c' /\
    N.of_nat (List.length r) = longitud /\ st' = st.
Proof.
  induction guion as [|e guion IH]; intros corriente datos longitud st r c' g' st' Hle;
    cbn [recibir_bucle];
    destruct (N.of_nat (List.length datos) <? longitud)%N eqn:E.
  - discriminate.
  - apply N.ltb_ge in E. intros [= <- <- <- <-]. exists [].
    rewrite app_nil_r. split; [done|]. split; [done|]. split; [lia|done].
  - apply N.ltb_lt in E. destruct e as [k| |].
    + set (n := N.to_nat (N.min (longitud - N.of_nat (List.length datos)) (N.of_nat (S k)))).
      destruct (take n corriente) as [|b fragmento] eqn:Et; [discriminate|].
      rewrite <- Et. intros H. apply IH in H as (leidos & -> & Hc & Hl & ->).
      * exists (take n corriente ++ leidos). rewrite app_assoc. split; [done|].
        split; [|done]. rewrite <- app_assoc, <- Hc.
        rewrite <- (take_length_take n corriente) at 1. symmetry. apply take_drop.
      * rewrite length_app, length_take. subst n. lia.
    + apply IH. lia.
    + discriminate.
  - apply N.ltb_ge in E. intros [= <- <- <- <-]. exists [].
    rewrite app_nil_r. split; [done|]. split; [done|]. split; [lia|done].
Qed.

(** When the peer closes before [longitud] bytes are there, the loop of
    [_recibir_completo] reads what is left and returns [None] on the
    empty [recv]. *)
Lemma recibir_bucle_fin_de_flujo guion : forall corriente datos longitud st,
  sin_fallas guion ->
  (List.length datos + List.length corriente < N.to_nat longitud)%nat ->
  (List.length corriente < entregas guion)%nat ->
  exists guion',
    recibir_bucle guion corriente datos longitud st = (Normal (None, ([], guion')), st).
Proof.
  induction guion as [|e guion IH]; intros corriente datos longitud st Hsf Hl He;
    [cbn in He; lia|].
  apply sin_fallas_cons in Hsf as [Hne Hsf].
  cbn [recibir_bucle].
  destruct (N.of_nat (List.length datos) <? longitud)%N eqn:E.
  2:{ apply N.ltb_ge in E. lia. }
  destruct e as [k| |]; [| |done].
  - set (n := N.to_nat (N.min (longitud - N.of_nat (List.length datos)) (N.of_nat (S k)))).
    assert (1 <= n)%nat as Hn by (subst n; lia).
    destruct corriente as [|b corriente].
    { rewrite take_nil. by exists guion. }
    destruct n as [|n]; [lia|]. cbn [take].
    set (fragmento := b :: take n corriente).
    apply IH; [done| |].
    + rewrite length_app, length_drop. subst fragmento.
      cbn [List.length] in *. rewrite length_take. lia.
    + rewrite length_drop. subst fragmento.
      cbn [List.length entregas] in *. rewrite length_take. lia.
  - apply IH; [done|done|]. by cbn in He.
Qed.

(** Timeouts are skipped; the first [recv] that fails otherwise makes
    [_recibir_completo] log it and give up. *)
Lemma recibir_bucle_falla k : forall guion corriente datos longitud st,
  (N.of_nat (List.length datos) < longitud)%N ->
  recibir_bucle (replicate k Expira ++ Falla :: guion) corriente datos longitud st =
    (Normal (None, (corriente, guion)),
     con_registro (registro st ++ [(ERROR, ErrorRecibiendoDatos)]) st).
Proof.
  induction k as [|k IH]; intros guion corriente datos longitud st Hl;
    cbn [replicate app recibir_bucle];
    apply N.ltb_lt in Hl as Hb; rewrite Hb; [reflexivity|by apply IH].
Qed.

(** X1. [_recibir_completo] never returns a short or a long read:
    whenever it returns bytes, they are exactly [longitud] bytes, the
    next ones of the stream in order, and nothing behind them has been
    taken from the stream; the object is untouched. *)
Theorem _recibir_completo_exacto socket_obj longitud st datos socket_obj' st' :
  _recibir_completo socket_obj longitud st = (Normal (Some datos, socket_obj'), st') ->
  N.of_nat (List.length datos) = longitud /\
  corriente socket_obj = datos ++ corriente socket_obj' /\
  fileno socket_obj' = fileno socket_obj /\
  st' = st.
Proof.
  unfold _recibir_completo, bind, ret.
  destruct (recibir_bucle _ _ _ _ _) as [[[r [c g]]|e|] st1] eqn:E; [|done..].
  cbn [fst snd]. intros [= -> <- <-].
  apply recibir_bucle_exacto in E as (leidos & -> & Hc & Hl & ->); [|cbn; lia].
  done.
Qed.

(** [_recibir_completo] on a stream that ends too soon. *)
Lemma _recibir_completo_cierre socket_obj longitud st :
  sin_fallas (guion socket_obj) ->
  (List.length (corriente socket_obj) < N.to_nat longitud)%nat ->
  (List.length (corriente socket_obj) < entregas (guion socket_obj))%nat ->
  exists guion',
    _recibir_completo socket_obj longitud st =
      (Normal (None, {| fileno := fileno socket_obj; corriente := []; guion := guion' |}),
       st).
Proof.
  intros Hsf Hl He.
  destruct (recibir_bucle_fin_de_flujo (guion socket_obj) (corriente socket_obj) []
              longitud st Hsf) as (guion' & Hr); [cbn; lia|done|].
  exists guion'. unfold _recibir_completo, bind, ret. by rewrite Hr.
Qed.

(** X2. When the peer closes the connection before [longitud] bytes have
    come (and no [recv] fails), [_recibir_completo] returns [None] once
    it has read what was left, however the bytes were cut and whatever
    timeouts came between; nothing is logged or counted. *)
Theorem _recibir_completo_fin_de_flujo socket_obj longitud st :
  sin_fallas (guion socket_obj) ->
  (List.length (corriente socket_obj) < N.to_nat longitud)%nat ->
  (List.length (corriente socket_obj) < entregas (guion socket_obj))%nat ->
  exists guion',
    _recibir_completo socket_obj longitud st =
      (Normal (None, {| fileno := fileno socket_obj; corriente := []; guion := guion' |}),
       st).
Proof. apply _recibir_completo_cierre. Qed.

(** X3. A connection that the peer closes in the middle of a frame, or
    between two frames: the receive loop ends, [_manejar_cliente] cleans
    the connection up and returns. The partial frame is dropped without
    a word: nothing reaches the dispatcher, no error is counted or
    logged. *)
Theorem _manejar_cliente_trama_incompleta fuel socket_cliente st :
  ejecutando st = true ->
  conexion_activa st = true ->
  trama_incompleta (corriente socket_cliente) ->
  sin_fallas (guion socket_cliente) ->
  (List.length (corriente socket_cliente) < entregas (guion socket_cliente))%nat ->
  _manejar_cliente (S fuel) socket_cliente st =
    (Normal tt, limpiada (fileno socket_cliente) st).
Proof.
  intros Hej Ha Hinc Hsf He.
  assert (exists s', recibir_trama socket_cliente st = (Normal (None, s'), st)) as [s' Hr].
  { unfold recibir_trama.
    destruct Hinc as [H4|(cabecera & parcial & n & Hc & H4 & Hu & Hn)].
    - destruct (_recibir_completo_cierre socket_cliente 4 st Hsf) as (g & Hg);
        [change (N.to_nat 4) with 4%nat; lia|done|].
      rewrite (bind_normal _ _ _ _ _ Hg). by eexists.
    - destruct (_recibir_completo_completo socket_cliente 4 st Hsf)
        as (g1 & Hr1 & Hsf1 & He1).
      { change (N.to_nat 4) with 4%nat. rewrite Hc, length_app in He. lia. }
      { change (N.to_nat 4) with 4%nat. rewrite Hc, length_app. lia. }
      change (N.to_nat 4) with 4%nat in *.
      rewrite Hc in Hr1. rewrite <- H4 in Hr1 at 1 2.
      rewrite take_app_length, drop_app_length in Hr1.
      rewrite (bind_normal _ _ _ _ _ Hr1). cbn [fst snd].
      destruct cabecera as [|c0 cabecera]; [done|].
      unfold struct_unpack. rewrite Hu, bind_ret.
      set (s1 := {| fileno := _; corriente := parcial; guion := g1 |}).
      destruct (_recibir_completo_cierre s1 n st Hsf1) as (g2 & Hg2).
      { cbn. lia. }
      { cbn. rewrite Hc, length_app in He. lia. }
      rewrite (bind_normal _ _ _ _ _ Hg2). by eexists. }
  unfold _manejar_cliente, finalmente, intentar. cbn [manejar_bucle].
  rewrite bind_leer, Hej, Ha. cbn [andb].
  rewrite (bind_normal _ _ _ _ _ Hr). reflexivity.
Qed.

(** X4. A [recv] that fails with anything but a timeout, after any
    number of timeouts: [_recibir_completo] logs the error and returns
    [None], the receive loop takes it for a closed connection and
    [_manejar_cliente] cleans up. The failure is in the log only: the
    counter [errores] does not move. *)
Theorem _manejar_cliente_error_de_recepcion fuel socket_cliente st k guion' :
  ejecutando st = true ->
  conexion_activa st = true ->
  guion socket_cliente = replicate k Expira ++ Falla :: guion' ->
  exists st',
    _manejar_cliente (S fuel) socket_cliente st = (Normal tt, st') /\
    st' = limpiada (fileno socket_cliente)
            (con_registro (registro st ++ [(ERROR, ErrorRecibiendoDatos)]) st) /\
    stats st' = stats st /\
    conexion_activa st' = false /\
    traza st' = traza st ++ [(reloj st, Cierre (fileno socket_cliente))].
Proof.
  intros Hej Ha Hg. eexists. split; [|split; [reflexivity|done]].
  set (st1 := con_registro _ st).
  assert (_recibir_completo socket_cliente 4 st =
            (Normal (None, {| fileno := fileno socket_cliente;
                              corriente := corriente socket_cliente;
                              guion := guion' |}), st1)) as Hrc.
  { unfold _recibir_completo. rewrite Hg.
    erewrite bind_normal by (apply recibir_bucle_falla; cbn; lia). reflexivity. }
  unfold _manejar_cliente, finalmente, intentar. cbn [manejar_bucle].
  rewrite bind_leer, Hej, Ha. cbn [andb].
  unfold recibir_trama. rewrite bind_bind, (bind_normal _ _ _ _ _ Hrc).
  reflexivity.
Qed.
(** ** Relations that every method keeps

    A relation kept by the primitive steps of the dispatcher, of the
    sender and of the receive loop is kept by these methods. *)

Section Metodos.

Context (R : relation estado) `{!PreOrder R}.

Hypothesis R_anotar : forall n x, preserva R (anotar n x).
Hypothesis R_emitir : forall e, es_intento e = false -> preserva R (emitir e).
Hypothesis R_time_sleep : forall ms, 0 <= ms -> preserva R (time_sleep ms).
Hypothesis R_incr_errores : preserva R (incr Stats.incr_errores).
Hypothesis R_incr_mensajes_recibidos : preserva R (incr Stats.incr_mensajes_recibidos).
Hypothesis R_incr_acks_enviados : preserva R (incr Stats.incr_acks_enviados).
Hypothesis R_incr_acks_recibidos : preserva R (incr Stats.incr_acks_recibidos).
Hypothesis R_envios :
  forall f, preserva R (modificar (fun st => con_envios (f st) st)).
Hypothesis R_llegadas :
  forall f, preserva R (modificar (fun st => con_llegadas (f st) st)).
Hypothesis R_acks :
  forall f, preserva R (modificar (fun st => con_acks_recibidos (f st) st)).
Hypothesis R_pendientes :
  forall f, preserva R (modificar (fun st => con_mensajes_pendientes (f st) st)).
Hypothesis R_conexion_activa : forall b, preserva R (modificar (con_conexion_activa b)).
Hypothesis R__manejar_error_conexion : preserva R _manejar_error_conexion.

Ltac metodo_auto :=
  repeat first
    [ preserva_paso
    | solve [eauto]
    | apply R_emitir; reflexivity
    | apply R_time_sleep; lia ].

Lemma metodo_codificar m : preserva R (codificar m).
Proof. unfold codificar, struct_pack. metodo_auto. Qed.

Lemma metodo_sendall s m datos : preserva R (sendall s m datos).
Proof. unfold sendall. metodo_auto. Qed.

Lemma metodo_close s : preserva R (close s).
Proof. unfold close. metodo_auto. Qed.

Lemma metodo__limpiar_conexion s : preserva R (_limpiar_conexion s).
Proof. unfold _limpiar_conexion. pose proof metodo_close. metodo_auto. Qed.

Lemma metodo__enviar_mensaje_raw m s : preserva R (_enviar_mensaje_raw m s).
Proof.
  unfold _enviar_mensaje_raw.
  pose proof metodo_codificar. pose proof metodo_sendall. metodo_auto.
Qed.

Lemma metodo_despachar mensaje s : preserva R (despachar mensaje s).
Proof.
  unfold despachar, py_get, py_get_def, hash.
  pose proof metodo__enviar_mensaje_raw. metodo_auto.
Qed.

Lemma metodo__procesar_mensaje_recibido texto s :
  preserva R (_procesar_mensaje_recibido texto s).
Proof.
  unfold _procesar_mensaje_recibido. pose proof metodo_despachar. metodo_auto.
Qed.

Lemma metodo_procesar_todos tramas : preserva R (procesar_todos tramas).
Proof.
  pose proof metodo__procesar_mensaje_recibido.
  induction tramas as [|[s texto] tramas IH]; cbn [procesar_todos]; metodo_auto.
Qed.

Lemma metodo_dormir_cediendo ms : 0 <= ms -> preserva R (dormir_cediendo ms).
Proof.
  intros Hms. unfold dormir_cediendo. pose proof metodo_procesar_todos. metodo_auto.
Qed.

Lemma metodo_sondear fuel mensaje_id tiempo_inicio :
  preserva R (sondear fuel mensaje_id tiempo_inicio).
Proof.
  assert (0 <= 100) as H100 by lia. pose proof (metodo_dormir_cediendo 100 H100).
  induction fuel as [|fuel IH]; cbn [sondear]; metodo_auto.
Qed.

Lemma metodo_esperar_bucle fuel : forall mensaje_id reintentos,
  preserva R (esperar_bucle fuel mensaje_id reintentos).
Proof.
  pose proof metodo_sondear. pose proof metodo__enviar_mensaje_raw.
  induction fuel as [|fuel IH]; intros mensaje_id reintentos; cbn [esperar_bucle];
    metodo_auto.
Qed.

Lemma metodo_recibir_bucle guion : forall corriente datos longitud,
  preserva R (recibir_bucle guion corriente datos longitud).
Proof.
  induction guion as [|e guion IH]; intros corriente datos longitud;
    cbn [recibir_bucle]; metodo_auto.
Qed.

Lemma metodo__recibir_completo socket_obj longitud :
  preserva R (_recibir_completo socket_obj longitud).
Proof. unfold _recibir_completo. pose proof metodo_recibir_bucle. metodo_auto. Qed.

Lemma metodo_recibir_trama socket_cliente : preserva R (recibir_trama socket_cliente).
Proof.
  unfold recibir_trama, struct_unpack, decode_utf8.
  pose proof metodo__recibir_completo. metodo_auto.
Qed.

Lemma metodo_manejar_bucle fuel : forall socket_cliente,
  preserva R (manejar_bucle fuel socket_cliente).
Proof.
  pose proof metodo_recibir_trama. pose proof metodo__procesar_mensaje_recibido.
  induction fuel as [|fuel IH]; intros socket_cliente; cbn [manejar_bucle]; metodo_auto.
Qed.

Lemma metodo__manejar_cliente fuel socket_cliente :
  preserva R (_manejar_cliente fuel socket_cliente).
Proof.
  unfold _manejar_cliente.
  pose proof metodo_manejar_bucle. pose proof metodo__limpiar_conexion. metodo_auto.
Qed.

(** What follows the guard and the new id in [enviar_mensaje]. *)
Lemma metodo_enviar_resto fuel mensaje socket_destino (requiere_ack : bool)
    (f : estado -> gmap clave pyval) (g : estado -> Z) :
  preserva R (incr Stats.incr_mensajes_enviados) ->
  preserva R
    (ok <- _enviar_mensaje_raw mensaje socket_destino ;;
     if ok then
       incr Stats.incr_mensajes_enviados ;;
       if requiere_ack then
         st <- leer ;;
         modificar (fun st => con_mensajes_pendientes (f st) st) ;;
         _esperar_ack fuel (g st)
       else ret true
     else ret false).
Proof.
  intros Hincr. unfold _esperar_ack.
  pose proof metodo__enviar_mensaje_raw. pose proof metodo_esperar_bucle. metodo_auto.
Qed.

(** A round of the heartbeat: what it does once it has slept, and the
    whole of it when the interval is not negative. *)
Lemma metodo_heartbeat_envio : preserva R heartbeat_envio.
Proof. unfold heartbeat_envio. pose proof metodo__enviar_mensaje_raw. metodo_auto. Qed.

Lemma metodo_heartbeat_ronda st :
  0 <= intervalo_heartbeat st -> R st (heartbeat_ronda st).2.
Proof.
  intros Hi.
  change (heartbeat_ronda st)
    with (heartbeat_envio (dormida (intervalo_heartbeat st) st)).
  etrans; [|apply metodo_heartbeat_envio].
  apply (R_time_sleep _ Hi st).
Qed.

End Metodos.
(** ** The frame of the threads *)

#[global] Instance igual_preorder {A} (g : estado -> A) : PreOrder (igual g).
Proof.
  split.
  - intros st. reflexivity.
  - intros a b c. unfold igual. congruence.
Qed.

Lemma marco_libre_modificar f :
  (forall st, nombre (f st) = nombre st /\ es_servidor (f st) = es_servidor st /\
              timeout_ack (f st) = timeout_ack st /\
              max_reintentos (f st) = max_reintentos st /\
              intervalo_heartbeat (f st) = intervalo_heartbeat st /\
              ejecutando (f st) = ejecutando st /\
              callback_mensaje (f st) = callback_mensaje st /\
              mensaje_id (f st) = mensaje_id st /\
              reloj (f st) = reloj st /\ stats (f st) = stats st /\
              traza (f st) = traza st) ->
  preserva (marco nada cualquiera) (modificar f).
Proof.
  intros H st. destruct (H st) as (?&?&?&?&?&?&?&?&Hr&Hs&Ht).
  split; cbn; try done.
  - lia.
  - rewrite Hs. reflexivity.
  - exists []. by rewrite app_nil_r.
Qed.

(** The hypotheses of [Metodos] for [marco nada cualquiera]. *)
Ltac libre_hipotesis :=
  first
    [ tc_solve
    | intros; apply marco_anotar
    | intros; apply marco_emitir; exact I
    | intros; apply marco_time_sleep; [assumption|exact I]
    | apply marco_incr; auto with marco
    | intros; apply marco_libre_modificar; intros; cbn; done
    | apply marco__manejar_error_conexion; intros; exact I ].

Lemma libre__procesar_mensaje_recibido texto s :
  preserva (marco nada cualquiera) (_procesar_mensaje_recibido texto s).
Proof. apply metodo__procesar_mensaje_recibido; libre_hipotesis. Qed.

Lemma libre__manejar_cliente fuel socket_cliente :
  preserva (marco nada cualquiera) (_manejar_cliente fuel socket_cliente).
Proof. apply metodo__manejar_cliente; libre_hipotesis. Qed.

Lemma libre_heartbeat_ronda st :
  0 <= intervalo_heartbeat st -> marco nada cualquiera st (heartbeat_ronda st).2.
Proof. apply metodo_heartbeat_ronda; libre_hipotesis. Qed.

(** X5. The receive thread changes nothing of what the sender and the
    application rely on: across [_manejar_cliente], and across each
    message handed to [_procesar_mensaje_recibido], whatever comes in and
    however it ends, the configuration ([nombre], [es_servidor],
    [timeout_ack], [max_reintentos], [intervalo_heartbeat]), the flag
    [ejecutando], the callback and the counter [mensaje_id] are the same;
    the clock and the six counters of [stats] have not gone back; the
    trace has only grown, by events stamped between the two clocks. *)
Theorem hilo_de_recepcion_conserva :
  (forall texto s st,
     marco nada cualquiera st (_procesar_mensaje_recibido texto s st).2) /\
  (forall fuel socket_cliente st,
     marco nada cualquiera st (_manejar_cliente fuel socket_cliente st).2).
Proof.
  split.
  - intros texto s. apply libre__procesar_mensaje_recibido.
  - intros fuel socket_cliente. apply libre__manejar_cliente.
Qed.

(** X6. [enviar_mensaje] takes a new id exactly when it passes its guard
    (an active connection and a socket), whatever becomes of the message
    afterwards: the write may fail, the ACK may come or not. Otherwise it
    changes nothing of the configuration, of [ejecutando] or of the
    callback; the clock and the counters do not go back and the trace
    only grows. *)
Theorem enviar_mensaje_conserva fuel contenido requiere_ack st :
  let st' := (enviar_mensaje fuel contenido requiere_ack st).2 in
  mensaje_id st' =
    (if conexion_activa st && bool_decide (is_Some (socket_cliente st))
     then mensaje_id st + 1 else mensaje_id st) /\
  nombre st' = nombre st /\
  es_servidor st' = es_servidor st /\
  timeout_ack st' = timeout_ack st /\
  max_reintentos st' = max_reintentos st /\
  intervalo_heartbeat st' = intervalo_heartbeat st /\
  ejecutando st' = ejecutando st /\
  callback_mensaje st' = callback_mensaje st /\
  reloj st <= reloj st' /\
  Stats.le (stats st) (stats st') /\
  exists nuevos, traza st' = traza st ++ nuevos.
Proof.
  unfold enviar_mensaje. rewrite bind_leer.
  destruct (conexion_activa st && bool_decide (is_Some (socket_cliente st))) eqn:Hg.
  - apply andb_true_iff in Hg as [-> ->]. cbn [negb orb].
    rewrite bind_modificar, bind_leer, bind_time_time.
    set (st1 := con_mensaje_id _ st).
    match goal with
    | |- context [(?m st1).2] =>
      assert (preserva (marco nada cualquiera) m) as Hm
    end.
    { apply metodo_enviar_resto; libre_hipotesis. }
    destruct (Hm st1) as [? ? ? ? ? ? ? ? _ _ ? ? (nuevos & ? & _)].
    cbn in *. repeat (split; [congruence || done|]). by exists nuevos.
  - assert (negb (conexion_activa st) || negb (bool_decide (is_Some (socket_cliente st)))
            = true) as ->.
    { apply andb_false_iff in Hg as [-> | ->]; [done|by rewrite orb_true_r]. }
    cbn. repeat (split; [done || lia || reflexivity|]). exists []. by rewrite app_nil_r.
Qed.
(** ** No exception gets out *)

Lemma sin_excepcion_retorna {A} (m : Py A) : retorna m -> sin_excepcion m.
Proof. intros H st e. destruct (H st) as [a ->]. done. Qed.

Lemma sin_excepcion_intentar {A} (m : Py A) h :
  (forall e, retorna (h e)) -> sin_excepcion (intentar m h).
Proof.
  intros Hh st e. unfold intentar.
  destruct (m st) as [[a|e'|] st1]; cbn; [done| |done].
  destruct (Hh e' st1) as [a ->]. done.
Qed.

Lemma sin_excepcion_finalmente {A} (m : Py A) f :
  sin_excepcion m -> retorna f -> sin_excepcion (finalmente m f).
Proof.
  intros Hm Hf st e. unfold finalmente. specialize (Hm st).
  destruct (m st) as [[a|e'|] st1]; cbn in *; [|by destruct (Hm e')|done].
  unfold bind, ret. destruct (Hf st1) as [[] Ha].
  destruct (f st1) as [r st2]. cbn in Ha. by subst r.
Qed.

(** X7. The error handling of the class is complete where it says so:
    [_enviar_mensaje_raw], [_procesar_mensaje_recibido],
    [_conectar_servidor] and [_manejar_error_conexion] return on every
    input and in every state, whatever the transport does (a frame too
    long to be packed, a missing socket, a failed write, a refused
    connection, a message that is no JSON, no object, or carries an
    unhashable id, a callback that raises); and no exception gets out of
    [_manejar_cliente], whose [finally] has then run. *)
Theorem sin_excepciones :
  (forall mensaje socket_destino, retorna (_enviar_mensaje_raw mensaje socket_destino)) /\
  (forall texto s, retorna (_procesar_mensaje_recibido texto s)) /\
  retorna _conectar_servidor /\
  retorna _manejar_error_conexion /\
  (forall fuel socket_cliente, sin_excepcion (_manejar_cliente fuel socket_cliente)).
Proof.
  split; [exact retorna__enviar_mensaje_raw|].
  split; [exact retorna__procesar_mensaje_recibido|].
  split; [exact retorna__conectar_servidor|].
  split; [exact retorna__manejar_error_conexion|].
  intros fuel socket_cliente. unfold _manejar_cliente.
  apply sin_excepcion_finalmente; [|apply retorna__limpiar_conexion].
  apply sin_excepcion_intentar. intros e. retorna_auto.
Qed.
(** ** What the counters count *)

Lemma intentar_bind_ret {A B} (a : A) (k : A -> Py B) h st :
  intentar (bind (ret a) k) h st = intentar (k a) h st.
Proof. reflexivity. Qed.

Lemma intentar_bind_incr {B} f (k : unit -> Py B) h st :
  intentar (bind (incr f) k) h st = intentar (k tt) h (con_stats (f (stats st)) st).
Proof. reflexivity. Qed.

(** The hypotheses of [Metodos] for a value that only [stats] of the
    connection handling could touch. *)
Ltac igual_hipotesis :=
  first
    [ tc_solve
    | intros; intros ?; reflexivity
    | let s := fresh "st" in
      intros s; destruct (solo_conexion__manejar_error_conexion s) as (?&?&?&?&?&?);
      assumption ].

Lemma recibidos__enviar_mensaje_raw m s :
  preserva (igual (fun st => Stats.mensajes_recibidos (stats st))) (_enviar_mensaje_raw m s).
Proof. apply metodo__enviar_mensaje_raw; igual_hipotesis. Qed.

(** X8. What [mensajes_recibidos] counts. A text handed to the
    dispatcher is counted as received exactly when it is a JSON object,
    of whatever kind, known or not, and whatever happens while it is
    processed (the reply cannot be written, the id is unhashable, the
    callback raises). A text that is JSON but no object (a list, a
    number, a string) is an error, and a text that is no JSON is another
    one: [errores] grows by one, the log says which, and nothing else
    changes. *)
Theorem mensajes_recibidos_cuenta texto s st :
  let st' := (_procesar_mensaje_recibido texto s st).2 in
  match json_loads texto with
  | Some (VDict d) =>
    Stats.mensajes_recibidos (stats st') = Stats.mensajes_recibidos (stats st) + 1
  | Some _ =>
    st' = con_stats (Stats.incr_errores (stats st))
            (con_registro (registro st ++ [(ERROR, ErrorProcesando AttributeError)]) st)
  | None =>
    st' = con_stats (Stats.incr_errores (stats st))
            (con_registro (registro st ++ [(ERROR, ErrorDecodificandoJSON texto)]) st)
  end.
Proof.
  unfold _procesar_mensaje_recibido.
  destruct (json_loads texto) as [mensaje|]; [|reflexivity].
  destruct mensaje as [| | | | | |d]; try reflexivity.
  rewrite intentar_bind_ret. unfold despachar, py_get.
  rewrite intentar_bind_ret, intentar_bind_incr.
  set (st0 := con_stats _ st).
  match goal with
  | |- context [(?m st0).2] =>
    assert (preserva (igual (fun st => Stats.mensajes_recibidos (stats st))) m) as Hm
  end.
  { pose proof recibidos__enviar_mensaje_raw. llegadas_auto. }
  cbv zeta. rewrite (Hm st0). reflexivity.
Qed.

Lemma escribe_true mensaje st :
  escribe mensaje st = true ->
  exists longitud,
    struct_pack_I (N.of_nat (List.length (list_byte_of_string (json_dumps mensaje))))
      = Some longitud /\
    match envios st with [] => true | b :: _ => b end = true.
Proof. unfold escribe. destruct (struct_pack_I _) as [longitud|]; [eauto|done]. Qed.

(** A write that does not go through: the failure is recorded, the
    connection error is handled, one error is counted and the result is
    [False]. *)
Lemma _enviar_mensaje_raw_fallo mensaje s st :
  escribe mensaje st = false ->
  exists e st0 st2,
    (st0 = st \/ st0 = con_envios (tail (envios st)) st) /\
    _manejar_error_conexion
      (con_registro (registro st0 ++ [(ERROR, ErrorEnviando e)])
         (con_traza (traza st0 ++ [(reloj st0, EnvioFallido (Some s) mensaje e)]) st0))
      = (Normal tt, st2) /\
    _enviar_mensaje_raw mensaje (Some s) st =
      (Normal false, con_stats (Stats.incr_errores (stats st2)) st2).
Proof.
  unfold escribe. intros He.
  destruct (struct_pack_I _) as [longitud|] eqn:Hp.
  - set (st0 := con_envios (tail (envios st)) st).
    set (st1 := con_registro (registro st0 ++ [(ERROR, ErrorEnviando OSError)])
                  (con_traza (traza st0 ++ [(reloj st0, EnvioFallido (Some s) mensaje OSError)])
                     st0)).
    destruct (retorna__manejar_error_conexion st1) as [[] Hn].
    destruct (_manejar_error_conexion st1) as [r st2] eqn:Hm. cbn in Hn. subst r.
    exists OSError, st0, st2. split; [by right|]. split; [exact Hm|].
    unfold _enviar_mensaje_raw, codificar, sendall, struct_pack. rewrite Hp.
    unfold intentar.
    rewrite bind_bind, bind_ret, bind_ret, bind_bind, bind_leer, He.
    rewrite bind_bind, bind_modificar, bind_lanzar. cbv beta iota.
    rewrite bind_emitir, bind_anotar. fold st0. fold st1.
    rewrite (bind_normal _ _ _ _ _ Hm). reflexivity.
  - set (st1 := con_registro (registro st ++ [(ERROR, ErrorEnviando StructError)])
                  (con_traza (traza st ++ [(reloj st, EnvioFallido (Some s) mensaje StructError)])
                     st)).
    destruct (retorna__manejar_error_conexion st1) as [[] Hn].
    destruct (_manejar_error_conexion st1) as [r st2] eqn:Hm. cbn in Hn. subst r.
    exists StructError, st, st2. split; [by left|]. split; [exact Hm|].
    unfold _enviar_mensaje_raw, codificar, struct_pack. rewrite Hp.
    unfold intentar. rewrite bind_bind, bind_lanzar. cbv beta iota.
    rewrite bind_emitir, bind_anotar. fold st1.
    rewrite (bind_normal _ _ _ _ _ Hm). reflexivity.
Qed.

(** As an acceptor, or once stopped, [_manejar_error_conexion] drops the
    connection and leaves it there. *)
Lemma _manejar_error_conexion_sin_reconexion st :
  es_servidor st = true \/ ejecutando st = false ->
  _manejar_error_conexion st = (Normal tt, desconectada st).
Proof.
  intros H. unfold _manejar_error_conexion, desconectada, close.
  rewrite bind_anotar, bind_modificar, bind_leer. cbn [socket_cliente con_conexion_activa
    con_registro].
  destruct (socket_cliente st) as [s|].
  - rewrite bind_bind, bind_emitir, bind_modificar, bind_leer.
    cbn. destruct H as [-> | ->]; cbn; rewrite ?andb_false_r; reflexivity.
  - rewrite bind_ret, bind_leer.
    cbn. destruct H as [-> | ->]; cbn; rewrite ?andb_false_r; reflexivity.
Qed.

Lemma enviados__enviar_mensaje_raw m s :
  preserva (igual (fun st => Stats.mensajes_enviados (stats st))) (_enviar_mensaje_raw m s).
Proof. apply metodo__enviar_mensaje_raw; igual_hipotesis. Qed.

Lemma enviados_esperar_bucle fuel mensaje_id reintentos :
  preserva (igual (fun st => Stats.mensajes_enviados (stats st)))
    (esperar_bucle fuel mensaje_id reintentos).
Proof. apply metodo_esperar_bucle; igual_hipotesis. Qed.

(** The first steps of [enviar_mensaje] past its guard: the new id, the
    message, its write. *)
Lemma enviar_mensaje_activa fuel contenido requiere_ack st s :
  conexion_activa st = true ->
  socket_cliente st = Some s ->
  let mensaje := mensaje_nuevo contenido requiere_ack st in
  enviar_mensaje fuel contenido requiere_ack st =
    (ok <- _enviar_mensaje_raw mensaje (Some s) ;;
     if ok then
       incr Stats.incr_mensajes_enviados ;;
       if requiere_ack then
         st <- leer ;;
         modificar (fun st =>
           con_mensajes_pendientes
             (<[KInt (mensaje_id st) := mensaje]> (mensajes_pendientes st)) st) ;;
         _esperar_ack fuel (mensaje_id st)
       else ret true
     else ret false) (con_mensaje_id (mensaje_id st + 1) st).
Proof.
  intros Ha Hs mensaje. unfold enviar_mensaje.
  rewrite bind_leer, Ha, Hs. cbn [negb orb].
  rewrite bool_decide_eq_true_2 by eauto. cbn [negb].
  rewrite bind_modificar, bind_leer, bind_time_time.
  cbn [mensaje_id con_mensaje_id nombre reloj socket_cliente]. rewrite Hs.
  reflexivity.
Qed.

(** X9. A message whose first write does not go through (the frame
    cannot be built, or [sendall] fails): [enviar_mensaje] returns
    [False] without waiting for anything. The id is spent all the same;
    the message is not counted as sent and leaves no entry in
    [mensajes_pendientes]; at least one error is counted. The trace gets
    the failed write, then connection handling only; as an acceptor, or
    once stopped, that is the close of the socket, which is forgotten,
    and the connection is left inactive. *)
Theorem enviar_mensaje_escritura_fallida fuel contenido requiere_ack st s :
  conexion_activa st = true ->
  socket_cliente st = Some s ->
  let mensaje := mensaje_nuevo contenido requiere_ack st in
  escribe mensaje st = false ->
  exists st' e nuevos,
    enviar_mensaje fuel contenido requiere_ack st = (Normal false, st') /\
    mensaje_id st' = mensaje_id st + 1 /\
    mensajes_pendientes st' = mensajes_pendientes st /\
    acks_recibidos st' = acks_recibidos st /\
    Stats.mensajes_enviados (stats st') = Stats.mensajes_enviados (stats st) /\
    Stats.errores (stats st) + 1 <= Stats.errores (stats st') /\
    traza st' = traza st ++ (reloj st, EnvioFallido (Some s) mensaje e) :: nuevos /\
    Forall (fun te => de_conexion te.2) nuevos /\
    (es_servidor st = true \/ ejecutando st = false ->
     conexion_activa st' = false /\ socket_cliente st' = None /\
     nuevos = [(reloj st, Cierre s)]).
Proof.
  intros Ha Hs mensaje He.
  rewrite (enviar_mensaje_activa fuel contenido requiere_ack st s Ha Hs). fold mensaje.
  set (sti := con_mensaje_id (mensaje_id st + 1) st).
  destruct (_enviar_mensaje_raw_fallo mensaje s sti He) as (e & st0 & st2 & H0 & Hm & Hr).
  rewrite (bind_normal _ _ _ _ _ Hr).
  set (st1 := con_registro _ _) in Hm.
  pose proof (marco__manejar_error_conexion (fun _ => True) de_conexion (fun _ H => H) st1)
    as Hmarco.
  pose proof (solo_conexion__manejar_error_conexion st1) as Hsolo.
  rewrite Hm in Hmarco, Hsolo. cbn [snd] in Hmarco, Hsolo.
  destruct Hmarco as [_ _ _ _ _ _ _ Hid Hpe Hac _ _ (nuevos & Htr & Hfor)].
  destruct Hsolo as (Hen & _ & _ & _ & _ & Her).
  assert (mensaje_id st1 = mensaje_id st + 1 /\
          mensajes_pendientes st1 = mensajes_pendientes st /\
          acks_recibidos st1 = acks_recibidos st /\
          stats st1 = stats st /\
          traza st1 = traza st ++ [(reloj st, EnvioFallido (Some s) mensaje e)] /\
          socket_cliente st1 = Some s /\
          es_servidor st1 = es_servidor st /\ ejecutando st1 = ejecutando st /\
          reloj st1 = reloj st)
    as (Hi1 & Hp1 & Ha1 & Hs1 & Ht1 & Hso1 & Hse1 & Hej1 & Hre1).
  { subst st1 sti. destruct H0 as [-> | ->]; cbn; done. }
  exists (con_stats (Stats.incr_errores (stats st2)) st2), e, nuevos.
  split; [reflexivity|]. cbn.
  split; [congruence|].
  split; [rewrite <- Hp1; apply map_eq; intros k; by apply Hpe|].
  split; [rewrite <- Ha1; apply set_eq; intros k; by apply Hac|].
  split; [congruence|].
  split; [rewrite Hs1 in Her; lia|].
  split; [by rewrite Htr, Ht1, <- app_assoc|].
  split; [eapply Forall_impl; [exact Hfor|]; by intros te [_ ?]|].
  intros Hrol.
  rewrite _manejar_error_conexion_sin_reconexion in Hm by (rewrite Hse1, Hej1; exact Hrol).
  injection Hm as <-. unfold desconectada in *. rewrite Hso1 in *. cbn in *.
  split; [done|]. split; [done|].
  apply app_inv_head in Htr. rewrite <- Htr, Hre1. reflexivity.
Qed.

(** X10. What [mensajes_enviados] counts: the messages of
    [enviar_mensaje] whose first write went through, one each, whether
    their ACK then comes or not. Retransmissions, ACKs, heartbeat
    responses and heartbeats are not counted: the counter is the same
    across the receive thread and across a round of the heartbeat. *)
Theorem mensajes_enviados_cuenta :
  (forall fuel contenido requiere_ack st,
     Stats.mensajes_enviados (stats (enviar_mensaje fuel contenido requiere_ack st).2) =
       Stats.mensajes_enviados (stats st) +
       (if conexion_activa st && bool_decide (is_Some (socket_cliente st)) &&
           escribe (mensaje_nuevo contenido requiere_ack st) st
        then 1 else 0)) /\
  (forall fuel socket_cliente st,
     Stats.mensajes_enviados (stats (_manejar_cliente fuel socket_cliente st).2) =
       Stats.mensajes_enviados (stats st)) /\
  (forall st,
     0 <= intervalo_heartbeat st ->
     Stats.mensajes_enviados (stats (heartbeat_ronda st).2) =
       Stats.mensajes_enviados (stats st)).
Proof.
  split; [|split].
  - intros fuel contenido requiere_ack st.
    destruct (conexion_activa st) eqn:Ha.
    2:{ rewrite enviar_mensaje_inactiva by (by left). cbn. lia. }
    destruct (socket_cliente st) as [s|] eqn:Hs.
    2:{ rewrite enviar_mensaje_inactiva by (by right). cbn. lia. }
    rewrite bool_decide_eq_true_2 by eauto. cbn [andb].
    rewrite (enviar_mensaje_activa fuel contenido requiere_ack st s Ha Hs).
    set (mensaje := mensaje_nuevo contenido requiere_ack st).
    set (sti := con_mensaje_id (mensaje_id st + 1) st).
    assert (escribe mensaje sti = escribe mensaje st) as Hesc by reflexivity.
    destruct (escribe mensaje st) eqn:He.
    + apply escribe_true in Hesc as (longitud & Hp & Ho).
      rewrite (bind_normal _ _ _ _ _ (_enviar_mensaje_raw_exito _ _ _ _ Hp Ho)).
      rewrite bind_incr. destruct requiere_ack.
      * rewrite bind_leer, bind_modificar. unfold _esperar_ack.
        match goal with
        | |- context [esperar_bucle ?f ?i ?r ?s0] =>
          rewrite (enviados_esperar_bucle f i r s0)
        end.
        cbn. lia.
      * cbn. lia.
    + destruct (_enviar_mensaje_raw_fallo mensaje s sti Hesc)
        as (e & st0 & st2 & H0 & Hm & Hr).
      rewrite (bind_normal _ _ _ _ _ Hr).
      set (st1 := con_registro _ _) in Hm.
      pose proof (solo_conexion__manejar_error_conexion st1) as Hsolo.
      rewrite Hm in Hsolo. destruct Hsolo as (Hen & _). cbn in Hen |- *.
      rewrite Hen. subst st1. destruct H0 as [-> | ->]; cbn; lia.
  - intros fuel socket_cliente st.
    apply (metodo__manejar_cliente
             (igual (fun st => Stats.mensajes_enviados (stats st)))). all: igual_hipotesis.
  - intros st Hi.
    apply (metodo_heartbeat_ronda
             (igual (fun st => Stats.mensajes_enviados (stats st)))); igual_hipotesis || done.
Qed.
(** ** The branches of the dispatcher *)

Lemma ack_procesado texto d s st k :
  json_loads texto = Some (VDict d) ->
  es_cadena (dict_get "tipo" d) "ACK" = true ->
  clave_de (dict_get "mensaje_id" d) = Some k ->
  _procesar_mensaje_recibido texto s st =
    (Normal tt, tras_ack (VDict d) (dict_get "mensaje_id" d) k st).
Proof.
  intros Hl Ht Hk. unfold _procesar_mensaje_recibido, despachar, tras_ack. rewrite Hl.
  apply es_cadena_true in Ht. py_simpl. rewrite Ht. cbn. rewrite Hk. cbn.
  destruct (mensajes_pendientes st !! k) eqn:E; cbn; [reflexivity|].
  rewrite delete_id by done. reflexivity.
Qed.

(** X11. An ACK whose [mensaje_id] can be a key (a number, a string,
    [None], a boolean): the dispatcher puts the id in [acks_recibidos],
    where the waiting sender looks for it, removes the message's entry
    from [mensajes_pendientes] if there is one, and leaves every other
    entry and every other id alone; the ACK is counted as a message
    received and as an ACK received. Nothing is written and no time
    passes. Ids are compared as Python compares them: the ACK of [True]
    or of [1.0] is an ACK for the message 1. When the id cannot be a key
    (a list, an object), nothing is recorded: the message is counted as
    received, and one error is counted. *)
Theorem ack_registrado texto d s st :
  json_loads texto = Some (VDict d) ->
  es_cadena (dict_get "tipo" d) "ACK" = true ->
  exists st',
    _procesar_mensaje_recibido texto s st = (Normal tt, st') /\
    traza st' = traza st /\
    reloj st' = reloj st /\
    conexion_activa st' = conexion_activa st /\
    Stats.mensajes_recibidos (stats st') = Stats.mensajes_recibidos (stats st) + 1 /\
    match clave_de (dict_get "mensaje_id" d) with
    | Some k =>
      acks_recibidos st' = {[k]} ∪ acks_recibidos st /\
      mensajes_pendientes st' = delete k (mensajes_pendientes st) /\
      stats st' = Stats.incr_acks_recibidos (Stats.incr_mensajes_recibidos (stats st))
    | None =>
      acks_recibidos st' = acks_recibidos st /\
      mensajes_pendientes st' = mensajes_pendientes st /\
      stats st' = Stats.incr_errores (Stats.incr_mensajes_recibidos (stats st))
    end.
Proof.
  intros Hl Ht.
  destruct (clave_de (dict_get "mensaje_id" d)) as [k|] eqn:Hk.
  - rewrite (ack_procesado texto d s st k Hl Ht Hk). eexists. split; [reflexivity|]. done.
  - unfold _procesar_mensaje_recibido, despachar. rewrite Hl.
    apply es_cadena_true in Ht. py_simpl. rewrite Ht. cbn. rewrite Hk. cbn.
    eexists. split; [reflexivity|]. done.
Qed.

(** X12. A [HEARTBEAT] is answered at once, on the socket it came from,
    by a [HEARTBEAT_RESPONSE] that carries the time of the answer. When
    that write goes through, the heartbeat has been counted as a message
    received and nothing else has changed: no ACK is sent for it, the
    callback is not called, the pending table and the set of ACKs are as
    before. *)
Theorem heartbeat_respondido texto d s st :
  json_loads texto = Some (VDict d) ->
  es_cadena (dict_get "tipo" d) "HEARTBEAT" = true ->
  let respuesta :=
    VDict [("tipo", VStr "HEARTBEAT_RESPONSE"); ("timestamp", VFloat (reloj st))] in
  escribe respuesta st = true ->
  exists st' datos,
    _procesar_mensaje_recibido texto s st = (Normal tt, st') /\
    codificar respuesta st = (Normal datos, st) /\
    traza st' = traza st ++ [(reloj st, Envio s respuesta datos)] /\
    stats st' = Stats.incr_mensajes_recibidos (stats st) /\
    mensajes_pendientes st' = mensajes_pendientes st /\
    acks_recibidos st' = acks_recibidos st /\
    conexion_activa st' = conexion_activa st /\
    socket_cliente st' = socket_cliente st /\
    reloj st' = reloj st.
Proof.
  intros Hl Ht respuesta He.
  apply escribe_true in He as (longitud & Hp & Ho).
  apply es_cadena_true in Ht.
  unfold _procesar_mensaje_recibido, despachar, py_get. rewrite Hl.
  unfold intentar. rewrite !bind_ret, bind_incr, bind_anotar, Ht.
  cbn [es_cadena String.eqb Ascii.eqb Bool.eqb]. rewrite bind_time_time.
  cbn [reloj con_registro con_stats]. fold respuesta.
  set (st1 := con_registro _ _).
  rewrite (bind_normal _ _ _ _ _ (_enviar_mensaje_raw_exito respuesta s st1 longitud Hp Ho)).
  eexists _, _. split; [reflexivity|]. split.
  { unfold codificar, struct_pack. rewrite Hp. reflexivity. }
  done.
Qed.

Lemma _procesar_mensaje_recibido_sin_efecto texto d s st :
  json_loads texto = Some (VDict d) ->
  es_cadena (dict_get "tipo" d) "HEARTBEAT" = false ->
  es_cadena (dict_get "tipo" d) "ACK" = false ->
  es_cadena (dict_get "tipo" d) "MENSAJE" = false ->
  _procesar_mensaje_recibido texto s st =
    (Normal tt,
     con_registro (registro st ++ [(INFO, Recibido (VDict d))])
       (con_stats (Stats.incr_mensajes_recibidos (stats st)) st)).
Proof.
  intros H H1 H3 H4. unfold _procesar_mensaje_recibido, despachar. rewrite H.
  py_simpl. rewrite H1, H3, H4.
  destruct (es_cadena (dict_get "tipo" d) "HEARTBEAT_RESPONSE"); reflexivity.
Qed.

(** X13. What the receive loop drops, it drops without stopping. A
    well-framed UTF-8 text that is no JSON, or a JSON object that is no
    heartbeat, no ACK and no message (a heartbeat response, an unknown
    kind, no kind), is dropped: it is counted, as an error or as a
    message received, nothing is written, the connection stays as it is,
    and the loop goes on with the bytes that follow the frame. *)
Theorem trama_descartada fuel socket_obj st cabecera cuerpo resto :
  ejecutando st = true ->
  conexion_activa st = true ->
  corriente socket_obj = cabecera ++ cuerpo ++ resto ->
  List.length cabecera = 4%nat ->
  struct_unpack_I cabecera = Some (N.of_nat (List.length cuerpo)) ->
  cuerpo <> [] ->
  utf8_valido cuerpo = true ->
  sin_fallas (guion socket_obj) ->
  (4 + List.length cuerpo <= entregas (guion socket_obj))%nat ->
  inerte (string_of_list_byte cuerpo) ->
  exists guion' st1,
    manejar_bucle (S fuel) socket_obj st =
      manejar_bucle fuel
        {| fileno := fileno socket_obj; corriente := resto; guion := guion' |} st1 /\
    sin_fallas guion' /\
    (entregas (guion socket_obj) <= entregas guion' + 4 + List.length cuerpo)%nat /\
    traza st1 = traza st /\
    reloj st1 = reloj st /\
    ejecutando st1 = true /\
    conexion_activa st1 = true /\
    socket_cliente st1 = socket_cliente st /\
    mensajes_pendientes st1 = mensajes_pendientes st /\
    acks_recibidos st1 = acks_recibidos st /\
    Stats.errores (stats st1) + Stats.mensajes_recibidos (stats st1) =
      Stats.errores (stats st) + Stats.mensajes_recibidos (stats st) + 1.
Proof.
  intros Hej Ha Hc H4 Hu Hne Hv Hsf Hen Hin.
  destruct (manejar_bucle_trama fuel socket_obj st cabecera cuerpo resto)
    as (guion' & Hb & Hsf' & Hen'); try done.
  exists guion'.
  destruct Hin as [Hl|(d & Hl & H1 & H3 & H4')].
  - eexists. split.
    { rewrite Hb.
      rewrite (bind_normal _ _ _ _ _
                 (_procesar_mensaje_recibido_json_invalido _ _ _ Hl)).
      reflexivity. }
    cbn. repeat (split; [done|]). lia.
  - eexists. split.
    { rewrite Hb.
      rewrite (bind_normal _ _ _ _ _
                 (_procesar_mensaje_recibido_sin_efecto _ _ _ _ Hl H1 H3 H4')).
      reflexivity. }
    cbn. repeat (split; [done|]). lia.
Qed.
(** ** The ACK that comes *)

Lemma dormir_cediendo_nada ms st resto :
  llegadas st = [] :: resto ->
  dormir_cediendo ms st =
    (Normal tt, dormida ms (con_llegadas (tail (llegadas st)) st)).
Proof.
  intros H. unfold dormir_cediendo, time_sleep.
  rewrite bind_leer, bind_modificar, bind_bind, bind_emitir, bind_modificar, H.
  reflexivity.
Qed.

Lemma dormir_cediendo_ack ms st s texto resto d k :
  llegadas st = [(s, texto)] :: resto ->
  json_loads texto = Some (VDict d) ->
  es_cadena (dict_get "tipo" d) "ACK" = true ->
  clave_de (dict_get "mensaje_id" d) = Some k ->
  dormir_cediendo ms st =
    (Normal tt,
     tras_ack (VDict d) (dict_get "mensaje_id" d) k
       (dormida ms (con_llegadas (tail (llegadas st)) st))).
Proof.
  intros H Hl Ht Hk. unfold dormir_cediendo, time_sleep.
  rewrite bind_leer, bind_modificar, bind_bind, bind_emitir, bind_modificar, H.
  cbn [procesar_todos].
  rewrite (bind_normal _ _ _ _ _ (ack_procesado texto d s _ k Hl Ht Hk)).
  reflexivity.
Qed.

Lemma siestas_campos n : forall st,
  reloj (siestas n st) = reloj st + 100 * Z.of_nat n /\
  traza (siestas n st) =
    traza st ++ map (fun i : nat => (reloj st + 100 * Z.of_nat i, Sueno 100)) (seq 0 n) /\
  llegadas (siestas n st) = drop n (llegadas st) /\
  mensajes_pendientes (siestas n st) = mensajes_pendientes st /\
  acks_recibidos (siestas n st) = acks_recibidos st /\
  stats (siestas n st) = stats st /\
  mensaje_id (siestas n st) = mensaje_id st /\
  conexion_activa (siestas n st) = conexion_activa st /\
  socket_cliente (siestas n st) = socket_cliente st.
Proof.
  induction n as [|n IH]; intros st; cbn [siestas].
  - cbn. rewrite app_nil_r, drop_0. repeat (split; [done || lia|]). done.
  - set (st1 := dormida 100 _).
    destruct (IH st1) as (Hr & Ht & Hl & Hp & Ha & Hs & Hi & Hc & Hso).
    assert (reloj st1 = reloj st + 100) as Hr1 by reflexivity.
    assert (traza st1 = traza st ++ [(reloj st, Sueno 100)]) as Ht1 by reflexivity.
    assert (llegadas st1 = tail (llegadas st)) as Hl1 by reflexivity.
    rewrite Hr, Ht, Hl, Hp, Ha, Hs, Hi, Hc, Hso, Hr1, Ht1, Hl1.
    split; [rewrite Nat2Z.inj_succ; lia|]. split.
    { rewrite <- app_assoc. f_equal. cbn [seq map app]. f_equal.
      - replace (reloj st + 100 * Z.of_nat 0) with (reloj st) by lia. reflexivity.
      - rewrite <- seq_shift, map_map. apply map_ext. intros i.
        replace (reloj st + 100 + 100 * Z.of_nat i) with (reloj st + 100 * Z.of_nat (S i))
          by lia.
        reflexivity. }
    split; [destruct (llegadas st); cbn; by rewrite ?drop_nil|].
    done.
Qed.

(** The polling loop when the ACK for [id] is dispatched during its
    [k + 1]-th sleep, and nothing before. *)
Lemma sondear_ack_llega id k : forall fuel st t0 s texto resto d,
  (k + 2 <= fuel)%nat ->
  KInt id ∉ acks_recibidos st ->
  t0 <= reloj st ->
  reloj st - t0 + 100 * Z.of_nat (S k) < timeout_ack st ->
  llegadas st = replicate k [] ++ [(s, texto)] :: resto ->
  json_loads texto = Some (VDict d) ->
  es_cadena (dict_get "tipo" d) "ACK" = true ->
  clave_de (dict_get "mensaje_id" d) = Some (KInt id) ->
  let stx := tras_ack (VDict d) (dict_get "mensaje_id" d) (KInt id) (siestas (S k) st) in
  sondear fuel id t0 st =
    (Normal true, con_acks_recibidos (acks_recibidos stx ∖ {[KInt id]}) stx).
Proof.
  induction k as [|k IH]; intros fuel st t0 s texto resto d Hf Hna Ht0 HT Hll Hl Ht Hk.
  - destruct fuel as [|[|fuel]]; [lia..|].
    cbn [replicate app] in Hll. cbn [sondear].
    rewrite bind_time_time, bind_leer.
    assert ((reloj st - t0 <? timeout_ack st) = true) as -> by (apply Z.ltb_lt; lia).
    rewrite bool_decide_eq_false_2 by done.
    rewrite (bind_normal _ _ _ _ _ (dormir_cediendo_ack 100 st s texto resto d _ Hll Hl Ht Hk)).
    cbn [siestas]. set (stx := tras_ack _ _ _ _).
    rewrite bind_time_time, bind_leer.
    assert ((reloj stx - t0 <? timeout_ack stx) = true) as ->
      by (apply Z.ltb_lt; subst stx; cbn; lia).
    rewrite bool_decide_eq_true_2.
    2:{ subst stx. cbn. apply elem_of_union_l, elem_of_singleton. reflexivity. }
    reflexivity.
  - destruct fuel as [|fuel]; [lia|].
    cbn [replicate app] in Hll. cbn [sondear].
    rewrite bind_time_time, bind_leer.
    assert ((reloj st - t0 <? timeout_ack st) = true) as -> by (apply Z.ltb_lt; lia).
    rewrite bool_decide_eq_false_2 by done.
    rewrite (bind_normal _ _ _ _ _ (dormir_cediendo_nada 100 st _ Hll)).
    set (st1 := dormida 100 _).
    change (siestas (S (S k)) st) with (siestas (S k) st1).
    apply (IH fuel st1 t0 s texto resto d); try done.
    + lia.
    + subst st1. cbn. lia.
    + subst st1. cbn. lia.
    + subst st1. cbn. by rewrite Hll.
Qed.

(** X14. The round trip of an acknowledged message. [enviar_mensaje]
    with [requiere_ack], on an active connection, whose write goes
    through and whose ACK is dispatched by the receive thread before
    [timeout_ack] has passed (during the [k + 1]-th polling sleep of 0.1
    s) returns [True], [100 * (k + 1)] ms after the write. The message
    went out once and was not sent again; its entry in
    [mensajes_pendientes] is gone, and its id has been taken out of
    [acks_recibidos] again; the message counts as sent and its ACK as
    received. *)
Theorem enviar_mensaje_con_ack fuel contenido st s k s' texto resto d :
  let mensaje := mensaje_nuevo contenido true st in
  let id := mensaje_id st + 1 in
  conexion_activa st = true ->
  socket_cliente st = Some s ->
  escribe mensaje st = true ->
  0 < max_reintentos st ->
  KInt id ∉ acks_recibidos st ->
  llegadas st = replicate k [] ++ [(s', texto)] :: resto ->
  json_loads texto = Some (VDict d) ->
  es_cadena (dict_get "tipo" d) "ACK" = true ->
  clave_de (dict_get "mensaje_id" d) = Some (KInt id) ->
  100 * Z.of_nat (S k) < timeout_ack st ->
  (k + 2 <= fuel)%nat ->
  exists st' datos,
    enviar_mensaje fuel contenido true st = (Normal true, st') /\
    codificar mensaje st = (Normal datos, st) /\
    traza st' =
      traza st ++ (reloj st, Envio s mensaje datos) ::
        map (fun i : nat => (reloj st + 100 * Z.of_nat i, Sueno 100)) (seq 0 (S k)) /\
    reloj st' = reloj st + 100 * Z.of_nat (S k) /\
    mensajes_pendientes st' = delete (KInt id) (mensajes_pendientes st) /\
    acks_recibidos st' = acks_recibidos st /\
    stats st' =
      Stats.incr_acks_recibidos
        (Stats.incr_mensajes_recibidos (Stats.incr_mensajes_enviados (stats st))) /\
    mensaje_id st' = id /\
    conexion_activa st' = true /\
    llegadas st' = resto.
Proof.
  intros mensaje id Ha Hs He Hm Hna Hll Hl Ht Hk HT Hf.
  apply escribe_true in He as (longitud & Hp & Ho).
  rewrite (enviar_mensaje_activa fuel contenido true st s Ha Hs). fold mensaje.
  set (sti := con_mensaje_id (mensaje_id st + 1) st).
  rewrite (bind_normal _ _ _ _ _ (_enviar_mensaje_raw_exito mensaje s sti longitud Hp Ho)).
  rewrite bind_incr, bind_leer, bind_modificar.
  set (stp := con_mensajes_pendientes _ _).
  destruct fuel as [|fuel]; [lia|].
  unfold _esperar_ack. cbn [esperar_bucle].
  rewrite bind_leer.
  assert ((0 <? max_reintentos stp) = true) as -> by (apply Z.ltb_lt; exact Hm).
  rewrite bind_time_time.
  pose proof (sondear_ack_llega id k (S fuel) stp (reloj stp) s' texto resto d) as Hso.
  rewrite (bind_normal _ _ _ _ _ (Hso Hf Hna (Z.le_refl _)
             ltac:(subst stp; cbn; lia) Hll Hl Ht Hk)).
  destruct (siestas_campos (S k) stp) as (Hr & Htr & Hlg & Hpe & Hac & Hst & Hid & Hca & _).
  eexists _, (longitud ++ list_byte_of_string (json_dumps mensaje)).
  split; [reflexivity|]. split.
  { unfold codificar, struct_pack. rewrite Hp. reflexivity. }
  cbn [traza reloj mensajes_pendientes acks_recibidos stats mensaje_id conexion_activa
       llegadas tras_ack con_acks_recibidos con_mensajes_pendientes con_registro con_stats].
  rewrite Htr, Hr, Hpe, Hac, Hst, Hid, Hca, Hlg.
  subst stp sti. cbn. rewrite <- app_assoc.
  split; [done|]. split; [done|].
  split; [apply delete_insert_eq|].
  split.
  { apply set_eq. intros x. rewrite elem_of_difference, elem_of_union, elem_of_singleton.
    split; [intros [[->|?] ?]; done|].
    intros Hx. split; [by right|]. intros ->. done. }
  split; [done|]. split; [done|]. split; [done|].
  rewrite Hll.
  change (replicate k [] ++ [(s', texto)] :: resto)
    with (replicate k [] ++ [[(s', texto)]] ++ resto).
  rewrite app_assoc.
  replace (S k) with (List.length (replicate k ([] : list (nat * string)) ++ [[(s', texto)]])).
  - apply drop_app_length.
  - rewrite length_app, length_replicate. cbn. lia.
Qed.
(** ** Connecting, at last *)

(** The loop of [_conectar_servidor] when [k] attempts fail and the next
    one succeeds, within the attempts allowed. *)
Lemma conectar_bucle_exito_tras_fallos k : forall n reintentos st resto,
  ejecutando st = true ->
  0 <= reintentos ->
  reintentos + Z.of_nat k < max_reintentos st ->
  (k < n)%nat ->
  conexiones st = replicate k false ++ true :: resto ->
  exists st' nuevos,
    conectar_bucle n reintentos st = (Normal true, st') /\
    conexion_activa st' = true /\
    socket_cliente st' = Some (sockets_creados st + k)%nat /\
    sockets_creados st' = S (sockets_creados st + k) /\
    conexiones st' = resto /\
    reloj st' = reloj st + 1000 * 2 ^ (reintentos + 1) * (2 ^ Z.of_nat k - 1) /\
    stats st' =
      (if 0 <? reintentos + Z.of_nat k then Stats.incr_reconexiones (stats st)
       else stats st) /\
    traza st' = traza st ++ nuevos /\
    tiempos_intentos nuevos =
      map (fun i : nat => reloj st + 1000 * 2 ^ (reintentos + 1) * (2 ^ Z.of_nat i - 1))
          (seq 0 (S k)) /\
    List.last nuevos (0, Sueno 0) = (reloj st', HiloEscucha (sockets_creados st + k)).
Proof.
  induction k as [|k IH]; intros n r st resto He Hr Hk Hn Hc.
  - destruct n as [|n]; [lia|].
    rewrite conectar_bucle_exito; [|done|lia|by unfold proxima_conexion; rewrite Hc].
    exists (tras_exito r st),
      [(reloj st, IntentoConexion (sockets_creados st) true);
       (reloj st, HiloEscucha (sockets_creados st))].
    split; [done|]. rewrite Nat.add_0_r, Z.add_0_r.
    unfold tras_exito. destruct (0 <? r); cbn; rewrite Hc; cbn;
      (repeat (split; [done || lia|])); (split; [f_equal; lia|done]).
  - destruct n as [|n]; [lia|].
    rewrite conectar_bucle_fallo; [|done|lia|by unfold proxima_conexion; rewrite Hc].
    assert (r + 1 < max_reintentos st) as Hlt by lia.
    assert (tras_fallo (r + 1) st =
            let s := sockets_creados st in
            dormida (1000 * 2 ^ (r + 1))
              (con_registro (registro st ++ [(WARNING, IntentoFallo (r + 1))])
                 (con_traza (traza st ++ [(reloj st, IntentoConexion s false)])
                    (con_conexiones (tail (conexiones st))
                       (con_socket_cliente (Some s)
                          (con_sockets_creados (S s) st)))))) as Hf.
    { unfold tras_fallo. apply Z.ltb_lt in Hlt. rewrite Hlt. reflexivity. }
    rewrite Hf. cbv zeta. set (st1 := dormida _ _).
    destruct (IH n (r + 1) st1 resto)
      as (st' & nuevos & E & Ha & Hs & Hsc & Hco & Hre & Hst & Htr & Hti & Hla).
    + exact He.
    + lia.
    + subst st1. cbn. lia.
    + lia.
    + subst st1. cbn. by rewrite Hc.
    + assert (0 < 2 ^ (r + 1)) as Hpos by (apply Z.pow_pos_nonneg; lia).
      assert (2 ^ (r + 1 + 1) = 2 * 2 ^ (r + 1)) as Hdoble
        by (rewrite Z.pow_add_r by lia; lia).
      assert (forall i : nat, 2 ^ Z.of_nat (S i) = 2 * 2 ^ Z.of_nat i) as Hpot
        by (intros i; rewrite Nat2Z.inj_succ, Z.pow_succ_r; lia).
      assert (reloj st1 = reloj st + 1000 * 2 ^ (r + 1)) as Hr1 by reflexivity.
      assert (sockets_creados st1 = S (sockets_creados st)) as Hsc1 by reflexivity.
      assert (stats st1 = stats st) as Hst1 by reflexivity.
      assert (traza st1 =
              traza st ++ [(reloj st, IntentoConexion (sockets_creados st) false);
                           (reloj st, Sueno (1000 * 2 ^ (r + 1)))]) as Htr1
        by (subst st1; cbn; by rewrite <- app_assoc).
      rewrite Hsc1 in Hs, Hsc, Hla. rewrite Hr1 in Hre, Hti. rewrite Hst1 in Hst.
      rewrite Htr1, <- app_assoc in Htr.
      exists st', ([(reloj st, IntentoConexion (sockets_creados st) false);
                    (reloj st, Sueno (1000 * 2 ^ (r + 1)))] ++ nuevos).
      split; [exact E|]. split; [exact Ha|].
      split; [rewrite Hs; f_equal; lia|].
      split; [rewrite Hsc; lia|].
      split; [exact Hco|].
      split; [rewrite Hre, Hdoble, Hpot; lia|].
      split.
      { rewrite Hst.
        assert ((0 <? r + 1 + Z.of_nat k) = true) as -> by (apply Z.ltb_lt; lia).
        assert ((0 <? r + Z.of_nat (S k)) = true) as -> by (apply Z.ltb_lt; lia).
        reflexivity. }
      split; [exact Htr|].
      split.
      { rewrite tiempos_intentos_app, Hti.
        change (seq 0 (S (S k))) with (0%nat :: seq 1 (S k)).
        rewrite <- (seq_shift (S k) 0). cbn [map]. rewrite (map_map S).
        cbn [tiempos_intentos List.filter es_intento map fst snd app].
        f_equal; [lia|].
        apply map_ext. intros i. rewrite Hdoble, Hpot. lia. }
      destruct nuevos as [|x nuevos]; [discriminate Hti|].
      replace (sockets_creados st + S k)%nat with (S (sockets_creados st) + k)%nat by lia.
      exact Hla.
Qed.

(** X15. [_conectar_servidor] when the server answers after [k] refused
    attempts, [k] being less than [max_reintentos]: it returns [True]
    with the connection active on a socket of its own (each attempt had
    created a new one), having waited 2, 4, ... seconds between the
    attempts, 2 * (2^k - 1) seconds in all, and having started the
    receive thread on the new socket. No error is counted.
    [reconexiones] counts this connection only if an attempt had failed
    before it: a connection that succeeds at once is not counted. *)
Theorem _conectar_servidor_exito_tras_fallos st k resto :
  ejecutando st = true ->
  Z.of_nat k < max_reintentos st ->
  conexiones st = replicate k false ++ true :: resto ->
  exists st' nuevos,
    _conectar_servidor st = (Normal true, st') /\
    conexion_activa st' = true /\
    socket_cliente st' = Some (sockets_creados st + k)%nat /\
    conexiones st' = resto /\
    reloj st' = reloj st + 2000 * (2 ^ Z.of_nat k - 1) /\
    stats st' = (if Nat.eqb k 0 then stats st else Stats.incr_reconexiones (stats st)) /\
    traza st' = traza st ++ nuevos /\
    tiempos_intentos nuevos =
      map (fun i : nat => reloj st + 2000 * (2 ^ Z.of_nat i - 1)) (seq 0 (S k)) /\
    List.last nuevos (0, Sueno 0) = (reloj st', HiloEscucha (sockets_creados st + k)).
Proof.
  intros He Hk Hc. unfold _conectar_servidor. rewrite bind_leer.
  destruct (conectar_bucle_exito_tras_fallos k (Z.to_nat (max_reintentos st)) 0 st resto)
    as (st' & nuevos & E & Ha & Hs & _ & Hco & Hre & Hst & Htr & Hti & Hla);
    try done; try lia.
  exists st', nuevos. split; [exact E|]. split; [exact Ha|]. split; [exact Hs|].
  split; [exact Hco|].
  split; [rewrite Hre; change (2 ^ (0 + 1)) with 2; lia|].
  split.
  { rewrite Hst. destruct k as [|k]; [reflexivity|].
    assert ((0 <? 0 + Z.of_nat (S k)) = true) as -> by (apply Z.ltb_lt; lia).
    reflexivity. }
  split; [exact Htr|]. split; [|exact Hla].
  rewrite Hti. apply map_ext. intros i. change (2 ^ (0 + 1)) with 2. lia.
Qed.

(** As an initiator that is running, with at least one attempt allowed
    and a server that answers: [_manejar_error_conexion] drops the
    connection, waits two seconds and connects at the first attempt. *)
Lemma _manejar_error_conexion_reconecta st :
  es_servidor st = false ->
  ejecutando st = true ->
  0 < max_reintentos st ->
  proxima_conexion st = true ->
  _manejar_error_conexion st = (Normal tt, reconectada st).
Proof.
  intros Hse Hej Hm Hp.
  assert (forall st1 : estado,
            es_servidor st1 = false -> ejecutando st1 = true ->
            max_reintentos st1 = max_reintentos st ->
            conexiones st1 = conexiones st ->
            (st0 <- leer ;;
             if negb (es_servidor st0) && ejecutando st0 then
               anotar INFO IntentandoReconectar ;;
               time_sleep 2000 ;;
               _ <- _conectar_servidor ;;
               ret tt
             else ret tt) st1 =
            (Normal tt,
             tras_exito 0
               (dormida 2000
                  (con_registro (registro st1 ++ [(INFO, IntentandoReconectar)]) st1))))
    as Hresto.
  { intros st1 Hse1 Hej1 Hm1 Hc1.
    rewrite bind_leer, Hse1, Hej1. cbn [negb andb].
    unfold time_sleep. rewrite bind_anotar, bind_bind, bind_emitir, bind_modificar.
    unfold _conectar_servidor. rewrite bind_bind, bind_leer.
    set (st2 := con_reloj _ _).
    change (max_reintentos st2) with (max_reintentos st1). rewrite Hm1.
    destruct (Z.to_nat (max_reintentos st)) as [|n] eqn:En; [lia|].
    rewrite (bind_normal _ _ _ _ _ (conectar_bucle_exito n 0 st2 Hej1
               ltac:(change (max_reintentos st2) with (max_reintentos st1); lia)
               ltac:(unfold proxima_conexion in *;
                     change (conexiones st2) with (conexiones st1);
                     by rewrite Hc1))).
    reflexivity. }
  unfold _manejar_error_conexion, reconectada, desconectada, close.
  rewrite bind_anotar, bind_modificar, bind_leer.
  cbn [socket_cliente con_conexion_activa con_registro].
  destruct (socket_cliente st) as [s|].
  - rewrite bind_bind, bind_emitir, bind_modificar. by apply Hresto.
  - rewrite bind_ret. by apply Hresto.
Qed.

Lemma reconectada_campos st s :
  socket_cliente st = Some s ->
  conexion_activa (reconectada st) = true /\
  socket_cliente (reconectada st) = Some (sockets_creados st) /\
  sockets_creados (reconectada st) = S (sockets_creados st) /\
  reloj (reconectada st) = reloj st + 2000 /\
  stats (reconectada st) = stats st /\
  conexiones (reconectada st) = tail (conexiones st) /\
  es_servidor (reconectada st) = es_servidor st /\
  ejecutando (reconectada st) = ejecutando st /\
  max_reintentos (reconectada st) = max_reintentos st /\
  traza (reconectada st) =
    traza st ++ [(reloj st, Cierre s);
                 (reloj st, Sueno 2000);
                 (reloj st + 2000, IntentoConexion (sockets_creados st) true);
                 (reloj st + 2000, HiloEscucha (sockets_creados st))].
Proof.
  intros Hs. unfold reconectada, desconectada, tras_exito, dormida. rewrite Hs. cbn.
  rewrite <- !app_assoc. done.
Qed.

(** X16. A connection error on an initiator that is running, whose
    server answers at once: [_manejar_error_conexion] closes the old
    socket, waits two seconds and connects again on a new socket, on
    which it starts a receive thread; the connection is active again.
    That new connection is not counted in [reconexiones], for no attempt
    failed before it; the other counters stay too. *)
Theorem reconexion_inmediata st s :
  es_servidor st = false ->
  ejecutando st = true ->
  0 < max_reintentos st ->
  socket_cliente st = Some s ->
  proxima_conexion st = true ->
  exists st',
    _manejar_error_conexion st = (Normal tt, st') /\
    conexion_activa st' = true /\
    socket_cliente st' = Some (sockets_creados st) /\
    reloj st' = reloj st + 2000 /\
    stats st' = stats st /\
    traza st' =
      traza st ++ [(reloj st, Cierre s);
                   (reloj st, Sueno 2000);
                   (reloj st + 2000, IntentoConexion (sockets_creados st) true);
                   (reloj st + 2000, HiloEscucha (sockets_creados st))].
Proof.
  intros Hse Hej Hm Hs Hp.
  rewrite _manejar_error_conexion_reconecta by done.
  destruct (reconectada_campos st s Hs) as (Ha & Hso & _ & Hr & Hst & _ & _ & _ & _ & Ht).
  eexists. split; [reflexivity|]. done.
Qed.
(** ** The heartbeat *)

Lemma heartbeat_ronda_envio st :
  heartbeat_ronda st = heartbeat_envio (dormida (intervalo_heartbeat st) st).
Proof. reflexivity. Qed.

Lemma retorna_heartbeat_envio : retorna heartbeat_envio.
Proof.
  unfold heartbeat_envio.
  pose proof retorna__enviar_mensaje_raw. pose proof retorna__manejar_error_conexion.
  retorna_auto.
Qed.

Lemma libre_heartbeat_envio : preserva (marco nada cualquiera) heartbeat_envio.
Proof. apply metodo_heartbeat_envio; libre_hipotesis. Qed.

(** A round returns, within the frame, at least one interval later. *)
Lemma heartbeat_ronda_vuelve st :
  0 <= intervalo_heartbeat st ->
  exists st',
    heartbeat_ronda st = (Normal tt, st') /\
    marco nada cualquiera st st' /\
    reloj st + intervalo_heartbeat st <= reloj st'.
Proof.
  intros Hi. rewrite heartbeat_ronda_envio.
  set (st1 := dormida _ st).
  destruct (retorna_heartbeat_envio st1) as [[] Hn].
  pose proof (libre_heartbeat_envio st1) as Hm.
  destruct (heartbeat_envio st1) as [r st'] eqn:E. cbn in Hn, Hm. subst r.
  exists st'. split; [done|]. split.
  - etrans; [|exact Hm]. apply (marco_time_sleep nada cualquiera _ Hi I st).
  - pose proof (marco_reloj _ _ _ _ Hm) as Hr. subst st1. cbn in Hr. lia.
Qed.

(** X17. The heartbeat thread does not end by itself. While the object
    is running ([ejecutando]), [_heartbeat_loop] goes on round after
    round, whatever its writes and the reconnections they cause do: it
    is still running after any number of rounds, each of which took at
    least [intervalo_heartbeat], and it has not touched the
    configuration, [ejecutando], the callback or [mensaje_id]. Only a
    false [ejecutando] ends it: it then returns at once, having done
    nothing. *)
Theorem _heartbeat_loop_sigue fuel st :
  0 <= intervalo_heartbeat st ->
  if ejecutando st then
    exists st',
      _heartbeat_loop fuel st = (Agotado, st') /\
      marco nada cualquiera st st' /\
      reloj st + Z.of_nat fuel * intervalo_heartbeat st <= reloj st'
  else _heartbeat_loop (S fuel) st = (Normal tt, st).
Proof.
  intros Hi. destruct (ejecutando st) eqn:He.
  2:{ cbn [_heartbeat_loop]. by rewrite bind_leer, He. }
  revert st Hi He. induction fuel as [|fuel IH]; intros st Hi He.
  - exists st. split; [reflexivity|]. split; [reflexivity|]. cbn. lia.
  - cbn [_heartbeat_loop]. rewrite bind_leer, He.
    destruct (heartbeat_ronda_vuelve st Hi) as (st1 & E & Hm & Hr).
    rewrite (bind_normal _ _ _ _ _ E).
    pose proof (marco_intervalo_heartbeat _ _ _ _ Hm) as Hi1.
    pose proof (marco_ejecutando _ _ _ _ Hm) as He1.
    destruct (IH st1) as (st' & E' & Hm' & Hr'); [rewrite Hi1; exact Hi|congruence|].
    exists st'. split; [exact E'|]. split; [by etrans|].
    rewrite Hi1 in Hr'. rewrite Nat2Z.inj_succ. lia.
Qed.

Lemma campos_con_registro v st :
  conexiones (con_registro v st) = conexiones st /\
  socket_cliente (con_registro v st) = socket_cliente st /\
  reloj (con_registro v st) = reloj st /\
  stats (con_registro v st) = stats st /\
  sockets_creados (con_registro v st) = sockets_creados st /\
  traza (con_registro v st) = traza st /\
  es_servidor (con_registro v st) = es_servidor st /\
  ejecutando (con_registro v st) = ejecutando st /\
  max_reintentos (con_registro v st) = max_reintentos st.
Proof. done. Qed.

Lemma campos_con_stats v st :
  conexiones (con_stats v st) = conexiones st /\
  socket_cliente (con_stats v st) = socket_cliente st /\
  reloj (con_stats v st) = reloj st /\
  stats (con_stats v st) = v /\
  sockets_creados (con_stats v st) = sockets_creados st /\
  traza (con_stats v st) = traza st /\
  es_servidor (con_stats v st) = es_servidor st /\
  ejecutando (con_stats v st) = ejecutando st /\
  max_reintentos (con_stats v st) = max_reintentos st.
Proof. done. Qed.

(** The second handling of a failed heartbeat, after the first one
    reconnected from [st1]. *)
Lemma segunda_reconexion st1 s resto :
  es_servidor st1 = false ->
  ejecutando st1 = true ->
  0 < max_reintentos st1 ->
  socket_cliente st1 = Some s ->
  conexiones st1 = true :: true :: resto ->
  exists st',
    _manejar_error_conexion
      (con_registro
         (registro (con_stats (Stats.incr_errores (stats (reconectada st1)))
                      (reconectada st1)) ++ [(WARNING, HeartbeatFallo)])
         (con_stats (Stats.incr_errores (stats (reconectada st1))) (reconectada st1)))
      = (Normal tt, st') /\
    conexion_activa st' = true /\
    socket_cliente st' = Some (S (sockets_creados st1)) /\
    reloj st' = reloj st1 + 4000 /\
    stats st' = Stats.incr_errores (stats st1) /\
    conexiones st' = resto /\
    traza st' =
      traza st1 ++
        [(reloj st1, Cierre s);
         (reloj st1, Sueno 2000);
         (reloj st1 + 2000, IntentoConexion (sockets_creados st1) true);
         (reloj st1 + 2000, HiloEscucha (sockets_creados st1));
         (reloj st1 + 2000, Cierre (sockets_creados st1));
         (reloj st1 + 2000, Sueno 2000);
         (reloj st1 + 4000, IntentoConexion (S (sockets_creados st1)) true);
         (reloj st1 + 4000, HiloEscucha (S (sockets_creados st1)))].
Proof.
  intros Hse1 Hej1 Hm1 Hs1 Hc1.
  destruct (reconectada_campos st1 s Hs1)
    as (_ & Hs2 & Hn2 & Hr2 & Hst2 & Hc2 & Hse2 & Hej2 & Hm2 & Ht2).
  generalize dependent (reconectada st1). intros st2 Hs2 Hn2 Hr2 Hst2 Hc2 Hse2 Hej2 Hm2 Ht2.
  destruct (campos_con_stats (Stats.incr_errores (stats st2)) st2)
    as (Hcx & Hsx & Hrx & Hstx & Hnx & Htx & Hsex & Hejx & Hmx).
  generalize dependent (con_stats (Stats.incr_errores (stats st2)) st2).
  intros stx Hcx Hsx Hrx Hstx Hnx Htx Hsex Hejx Hmx.
  destruct (campos_con_registro (registro stx ++ [(WARNING, HeartbeatFallo)]) stx)
    as (Hc3 & Hs3 & Hr3 & Hst3 & Hn3 & Ht3 & Hse3 & Hej3 & Hm3).
  generalize dependent (con_registro (registro stx ++ [(WARNING, HeartbeatFallo)]) stx).
  intros st3 Hc3 Hs3 Hr3 Hst3 Hn3 Ht3 Hse3 Hej3 Hm3.
  assert (socket_cliente st3 = Some (sockets_creados st1)) as Hs3' by congruence.
  rewrite _manejar_error_conexion_reconecta;
    [|congruence|congruence|lia
     |unfold proxima_conexion; by rewrite Hc3, Hcx, Hc2, Hc1].
  destruct (reconectada_campos st3 _ Hs3')
    as (Ha4 & Hs4 & _ & Hr4 & Hst4 & Hc4 & _ & _ & _ & Ht4).
  exists (reconectada st3). split; [reflexivity|].
  split; [exact Ha4|].
  split; [rewrite Hs4, Hn3, Hnx, Hn2; reflexivity|].
  split; [rewrite Hr4, Hr3, Hrx, Hr2; lia|].
  split; [rewrite Hst4, Hst3, Hstx, Hst2; reflexivity|].
  split; [rewrite Hc4, Hc3, Hcx, Hc2, Hc1; reflexivity|].
  rewrite Ht4, Ht3, Htx, Ht2, Hr3, Hrx, Hr2, Hn3, Hnx, Hn2, <- !app_assoc.
  replace (reloj st1 + 2000 + 2000) with (reloj st1 + 4000) by lia. reflexivity.
Qed.

(** X18. A heartbeat that cannot be written makes the initiator
    reconnect twice. [_enviar_mensaje_raw] has already handled the
    failure when it returns [False] (with a server that answers at once:
    the old socket closed, a new connection after two seconds), and
    [_heartbeat_loop] then calls [_manejar_error_conexion] again: the
    connection just made is closed and, two seconds later, made a second
    time. The round ends four seconds after the failed write, on the
    second new socket, with two receive threads started, one error
    counted and no reconnection counted. *)
Theorem heartbeat_fallido_reconecta_dos_veces st s resto :
  es_servidor st = false ->
  ejecutando st = true ->
  0 < max_reintentos st ->
  conexion_activa st = true ->
  socket_cliente st = Some s ->
  conexiones st = true :: true :: resto ->
  let t := reloj st + intervalo_heartbeat st in
  let n := sockets_creados st in
  let heartbeat :=
    VDict [("tipo", VStr "HEARTBEAT");
           ("timestamp", VFloat t);
           ("remitente", VStr (nombre st))] in
  escribe heartbeat st = false ->
  exists st' e,
    heartbeat_ronda st = (Normal tt, st') /\
    conexion_activa st' = true /\
    socket_cliente st' = Some (S n) /\
    reloj st' = t + 4000 /\
    stats st' = Stats.incr_errores (stats st) /\
    conexiones st' = resto /\
    traza st' =
      traza st ++
        [(reloj st, Sueno (intervalo_heartbeat st));
         (t, EnvioFallido (Some s) heartbeat e);
         (t, Cierre s);
         (t, Sueno 2000);
         (t + 2000, IntentoConexion n true);
         (t + 2000, HiloEscucha n);
         (t + 2000, Cierre n);
         (t + 2000, Sueno 2000);
         (t + 4000, IntentoConexion (S n) true);
         (t + 4000, HiloEscucha (S n))].
Proof.
  intros Hse Hej Hm Ha Hs Hc t n heartbeat He.
  rewrite heartbeat_ronda_envio. set (sa := dormida _ st).
  unfold heartbeat_envio. rewrite bind_leer.
  change (conexion_activa sa) with (conexion_activa st).
  change (socket_cliente sa) with (socket_cliente st).
  rewrite Ha, Hs, bool_decide_eq_true_2 by eauto. cbn [andb].
  rewrite bind_time_time.
  change (reloj sa) with t. change (nombre sa) with (nombre st). fold heartbeat.
  destruct (_enviar_mensaje_raw_fallo heartbeat s sa He) as (e & st0 & st2 & H0 & Hmec & Hr).
  rewrite (bind_normal _ _ _ _ _ Hr). rewrite bind_anotar.
  set (st1 := con_registro _ (con_traza _ st0)) in Hmec.
  assert (es_servidor st1 = false /\ ejecutando st1 = true /\
          max_reintentos st1 = max_reintentos st /\ conexiones st1 = conexiones st /\
          socket_cliente st1 = Some s /\ reloj st1 = t /\ stats st1 = stats st /\
          sockets_creados st1 = n /\
          traza st1 = traza st ++ [(reloj st, Sueno (intervalo_heartbeat st));
                                   (t, EnvioFallido (Some s) heartbeat e)])
    as (Hse1 & Hej1 & Hm1 & Hc1 & Hs1 & Hr1 & Hst1 & Hn1 & Ht1).
  { subst st1. destruct H0 as [-> | ->]; cbn; rewrite <- app_assoc; done. }
  clearbody st1.
  rewrite _manejar_error_conexion_reconecta in Hmec;
    [|done|done|lia|by unfold proxima_conexion; rewrite Hc1, Hc].
  injection Hmec as <-.
  destruct (segunda_reconexion st1 s resto Hse1 Hej1 ltac:(lia) Hs1 ltac:(congruence))
    as (st' & E & Ha' & Hs' & Hr' & Hst' & Hc' & Ht').
  exists st', e. split; [exact E|].
  split; [exact Ha'|].
  split; [rewrite Hs', Hn1; reflexivity|].
  split; [rewrite Hr', Hr1; reflexivity|].
  split; [rewrite Hst', Hst1; reflexivity|].
  split; [exact Hc'|].
  rewrite Ht', Ht1, Hr1, Hn1, <- !app_assoc. reflexivity.
Qed.
(** ** The end of the receive thread *)

(** X19. However [_manejar_cliente] ends (the peer closed, a [recv]
    failed, a frame was not UTF-8, the object was stopped), it ends by
    returning, and [_limpiar_conexion] was the last thing it did: the
    connection is marked inactive and the socket of this thread is
    closed, whatever was received before. From that state
    [enviar_mensaje] refuses to send. *)
Theorem _manejar_cliente_siempre_limpia fuel socket_obj st :
  match _manejar_cliente fuel socket_obj st with
  | (Normal _, st') =>
    (exists st0, st' = limpiada (fileno socket_obj) st0) /\
    conexion_activa st' = false /\
    (forall fuel' contenido requiere_ack,
       (enviar_mensaje fuel' contenido requiere_ack st').1 = Normal false)
  | (Lanza _, _) => False
  | (Agotado, _) => True
  end.
Proof.
  unfold _manejar_cliente, finalmente.
  set (m := intentar _ _).
  assert (sin_excepcion m) as Hm.
  { apply sin_excepcion_intentar. intros e. retorna_auto. }
  specialize (Hm st). destruct (m st) as [[[]|e|] st1]; [|by destruct (Hm e)|done].
  rewrite (bind_normal _ _ _ _ _ (_limpiar_conexion_eq _ _)). unfold ret.
  split; [by eexists|]. split; [reflexivity|].
  intros fuel' contenido requiere_ack.
  by rewrite enviar_mensaje_inactiva by (by left).
Qed.

(** ** The acceptor never dials *)

#[global] Instance sin_marcar_preorder : PreOrder sin_marcar.
Proof.
  split.
  - intros st Hs. done.
  - intros a b c Hab Hbc Ha. destruct (Hab Ha) as (Hb & Ht & Hs).
    destruct (Hbc Hb) as (Hc & Ht' & Hs'). split; [done|]. split; congruence.
Qed.

Lemma tiempos_intentos_otro tr t e :
  es_intento e = false -> tiempos_intentos (tr ++ [(t, e)]) = tiempos_intentos tr.
Proof.
  intros He. rewrite tiempos_intentos_app. unfold tiempos_intentos at 2.
  cbn. rewrite He. cbn. by rewrite app_nil_r.
Qed.

Lemma sin_marcar__manejar_error_conexion : preserva sin_marcar _manejar_error_conexion.
Proof.
  intros st Hs. rewrite _manejar_error_conexion_sin_reconexion by (by left).
  unfold desconectada. destruct (socket_cliente st); cbn -[tiempos_intentos]; [|done].
  by rewrite tiempos_intentos_otro.
Qed.

(** The hypotheses of [Metodos] for [sin_marcar]. *)
Ltac sin_marcar_hipotesis :=
  first
    [ tc_solve
    | apply sin_marcar__manejar_error_conexion
    | intros; intros ? ?; cbn -[tiempos_intentos];
      rewrite ?tiempos_intentos_otro by done; done ].

(** X20. Only the initiator reconnects. On an acceptor ([es_servidor])
    no method ever creates a socket or tries to connect: not
    [enviar_mensaje], whose write may fail, not the receive thread,
    whose replies may fail, not the heartbeat. After a failure the
    acceptor stays without a connection until a peer connects to it. *)
Theorem servidor_no_reconecta st :
  es_servidor st = true ->
  (forall fuel contenido requiere_ack,
     let st' := (enviar_mensaje fuel contenido requiere_ack st).2 in
     tiempos_intentos (traza st') = tiempos_intentos (traza st) /\
     sockets_creados st' = sockets_creados st) /\
  (forall fuel socket_obj,
     let st' := (_manejar_cliente fuel socket_obj st).2 in
     tiempos_intentos (traza st') = tiempos_intentos (traza st) /\
     sockets_creados st' = sockets_creados st) /\
  (0 <= intervalo_heartbeat st ->
   let st' := (heartbeat_ronda st).2 in
   tiempos_intentos (traza st') = tiempos_intentos (traza st) /\
   sockets_creados st' = sockets_creados st).
Proof.
  intros Hs. split; [|split].
  - intros fuel contenido requiere_ack.
    destruct (conexion_activa st) eqn:Ha.
    2:{ by rewrite enviar_mensaje_inactiva by (by left). }
    destruct (socket_cliente st) as [s|] eqn:Hso.
    2:{ by rewrite enviar_mensaje_inactiva by (by right). }
    rewrite (enviar_mensaje_activa fuel contenido requiere_ack st s Ha Hso).
    set (sti := con_mensaje_id _ st).
    match goal with
    | |- context [(?m sti).2] => assert (preserva sin_marcar m) as Hm
    end.
    { apply metodo_enviar_resto; sin_marcar_hipotesis. }
    destruct (Hm sti Hs) as (_ & Ht & Hsc). done.
  - intros fuel socket_obj.
    assert (preserva sin_marcar (_manejar_cliente fuel socket_obj)) as Hm
      by (apply metodo__manejar_cliente; sin_marcar_hipotesis).
    destruct (Hm st Hs) as (_ & Ht & Hsc). done.
  - intros Hi.
    assert (sin_marcar st (heartbeat_ronda st).2) as Hm
      by (apply metodo_heartbeat_ronda; sin_marcar_hipotesis || done).
    destruct (Hm Hs) as (_ & Ht & Hsc). done.
Qed.
(** ** ACKs sent, and ACKs that came first *)

Lemma intentar_bind_modificar {B} f (k : unit -> Py B) h st :
  intentar (bind (modificar f) k) h st = intentar (k tt) h (f st).
Proof. reflexivity. Qed.

Lemma intentar_bind_bind {A B C} (m : Py A) (k : A -> Py B) (k' : B -> Py C) h st :
  intentar (bind (bind m k) k') h st = intentar (bind m (fun a => bind (k a) k')) h st.
Proof. unfold intentar. by rewrite bind_bind. Qed.

Lemma intentar_bind_normal {A B} (m : Py A) (k : A -> Py B) h st a st' :
  m st = (Normal a, st') -> intentar (bind m k) h st = intentar (k a) h st'.
Proof. intros H. unfold intentar. by rewrite (bind_normal _ _ _ _ _ H). Qed.

Lemma acks_enviados__enviar_mensaje_raw m s :
  preserva (igual (fun st => Stats.acks_enviados (stats st))) (_enviar_mensaje_raw m s).
Proof. apply metodo__enviar_mensaje_raw; igual_hipotesis. Qed.

(** X21. What [acks_enviados] counts: the messages received that carry
    a true id, one each, not the ACKs written. The counter moves
    whether or not the ACK could be written (the result of
    [_enviar_mensaje_raw] is not looked at) and whether the callback
    then returns or raises; a message with no id, or a null one, leaves
    it alone. *)
Theorem acks_enviados_cuenta texto d s st :
  json_loads texto = Some (VDict d) ->
  es_cadena (dict_get "tipo" d) "MENSAJE" = true ->
  let st' := (_procesar_mensaje_recibido texto s st).2 in
  Stats.acks_enviados (stats st') =
    Stats.acks_enviados (stats st) + (if verdadero (dict_get "id" d) then 1 else 0).
Proof.
  intros Hl Ht. apply es_cadena_true in Ht.
  unfold _procesar_mensaje_recibido. rewrite Hl, intentar_bind_ret.
  unfold despachar, py_get.
  rewrite intentar_bind_ret, intentar_bind_incr. unfold anotar at 1.
  rewrite intentar_bind_modificar, Ht.
  cbn [es_cadena String.eqb Ascii.eqb Bool.eqb]. rewrite intentar_bind_ret.
  set (st1 := con_registro _ _).
  set (R := igual (fun st => Stats.acks_enviados (stats st))).
  assert (forall m : Py unit,
            m = (st <- leer ;;
                 match callback_mensaje st with
                 | Some f =>
                   contenido <- ret (dict_get "contenido" d) ;;
                   remitente <- ret (dict_get "remitente" d) ;;
                   emitir (Retrollamada contenido remitente) ;;
                   if f contenido remitente then ret tt else lanzar ErrorRetrollamada
                 | None =>
                   remitente <- ret (dict_get_def "remitente" (VStr "desconocido") d) ;;
                   contenido <- ret (dict_get "contenido" d) ;;
                   emitir (Impresion remitente contenido)
                 end) ->
            preserva R
              (intentar m
                 (fun e =>
                    match e with
                    | JSONDecodeError =>
                      anotar ERROR (ErrorDecodificandoJSON texto) ;; incr Stats.incr_errores
                    | _ => anotar ERROR (ErrorProcesando e) ;; incr Stats.incr_errores
                    end))) as Hresto.
  { intros m ->. subst R. llegadas_auto. }
  destruct (verdadero (dict_get "id" d)).
  - rewrite intentar_bind_bind.
    destruct (retorna__enviar_mensaje_raw
                (VDict [("tipo", VStr "ACK"); ("mensaje_id", dict_get "id" d)]) (Some s) st1)
      as [b Hb].
    pose proof (acks_enviados__enviar_mensaje_raw
                  (VDict [("tipo", VStr "ACK"); ("mensaje_id", dict_get "id" d)]) (Some s) st1)
      as Hraw.
    destruct (_enviar_mensaje_raw _ _ st1) as [r st2] eqn:E. cbn in Hb, Hraw. subst r.
    rewrite (intentar_bind_normal _ _ _ _ _ _ E), intentar_bind_incr.
    cbv zeta. rewrite (Hresto _ eq_refl _). cbn. rewrite Hraw. reflexivity.
  - rewrite intentar_bind_ret. cbv zeta. rewrite (Hresto _ eq_refl _). cbn. lia.
Qed.

(** X22. An ACK that is already in [acks_recibidos] when its message
    is sent (it came before the message, for an id the peer could
    foresee) is taken for the answer: [enviar_mensaje] returns [True]
    at once, without sleeping or looking at what arrives, and takes the
    id out of the set. The entry it had just put in
    [mensajes_pendientes] is still there when it returns: on this path
    nothing removes it. *)
Theorem enviar_mensaje_ack_anticipado fuel contenido st s :
  let mensaje := mensaje_nuevo contenido true st in
  let id := mensaje_id st + 1 in
  conexion_activa st = true ->
  socket_cliente st = Some s ->
  escribe mensaje st = true ->
  0 < max_reintentos st ->
  0 < timeout_ack st ->
  KInt id ∈ acks_recibidos st ->
  (1 <= fuel)%nat ->
  exists st' datos,
    enviar_mensaje fuel contenido true st = (Normal true, st') /\
    codificar mensaje st = (Normal datos, st) /\
    traza st' = traza st ++ [(reloj st, Envio s mensaje datos)] /\
    reloj st' = reloj st /\
    llegadas st' = llegadas st /\
    acks_recibidos st' = acks_recibidos st ∖ {[KInt id]} /\
    mensajes_pendientes st' = <[KInt id := mensaje]> (mensajes_pendientes st) /\
    mensajes_pendientes st' !! KInt id = Some mensaje.
Proof.
  intros mensaje id Ha Hs He Hm HT Hin Hf.
  apply escribe_true in He as (longitud & Hp & Ho).
  rewrite (enviar_mensaje_activa fuel contenido true st s Ha Hs). fold mensaje.
  set (sti := con_mensaje_id (mensaje_id st + 1) st).
  rewrite (bind_normal _ _ _ _ _ (_enviar_mensaje_raw_exito mensaje s sti longitud Hp Ho)).
  rewrite bind_incr, bind_leer, bind_modificar.
  set (stp := con_mensajes_pendientes _ _).
  destruct fuel as [|fuel]; [lia|].
  unfold _esperar_ack. cbn [esperar_bucle sondear].
  rewrite bind_leer.
  assert ((0 <? max_reintentos stp) = true) as -> by (apply Z.ltb_lt; exact Hm).
  rewrite bind_time_time, bind_bind, bind_time_time, bind_bind, bind_leer.
  assert ((reloj stp - reloj stp <? timeout_ack stp) = true) as ->
    by (apply Z.ltb_lt; change (timeout_ack stp) with (timeout_ack st); lia).
  rewrite bool_decide_eq_true_2 by exact Hin.
  rewrite bind_bind, bind_modificar, bind_ret.
  eexists _, (longitud ++ list_byte_of_string (json_dumps mensaje)).
  split; [reflexivity|]. split.
  { unfold codificar, struct_pack. rewrite Hp. reflexivity. }
  cbn. repeat (split; [done|]). apply lookup_insert_eq.
Qed.

End Comunicacion.

(** * The theorems at concrete inputs, with [Json] for the [json] module *)

(** C1, instance: the client of the examples ([max_reintentos] 3,
    [timeout_ack] 5 s) sends "hola" and gets no ACK. Nothing troubles its
    connection: the message is written three times. *)
Lemma enviar_mensaje_sin_respuesta_testigo :
  let mensaje := mensaje_de (VStr "hola") true in
  let datos := [x00; x00; x00; x71] ++ list_byte_of_string (Json.dumps mensaje) in
  conexion_activa cliente = true /\
  socket_cliente cliente = Some 0%nat /\
  0 < max_reintentos cliente /\
  (KInt (mensaje_id cliente + 1) ∉ acks_recibidos cliente) /\
  sin_ack Json.loads (KInt (mensaje_id cliente + 1)) (llegadas cliente) /\
  sin_tropiezos Json.loads cliente /\
  exists st' nuevos retransmisiones,
    enviar_mensaje Json.dumps Json.loads 100 (VStr "hola") true cliente
      = (Normal false, st') /\
    traza st' = traza cliente ++ (0, Envio 0 mensaje datos) :: nuevos /\
    filter (fun te : Z * evento => es_envio_de mensaje te.2) nuevos =
      map (fun t => (t, Envio 0 mensaje datos)) retransmisiones /\
    List.length retransmisiones = 2%nat /\
    separados 5000 (0 :: retransmisiones) /\
    mensajes_pendientes st' !! KInt 1 = None.
Proof.
  intros mensaje datos.
  assert (KInt (mensaje_id cliente + 1) ∉ acks_recibidos cliente) as Hna
    by apply not_elem_of_empty.
  assert (sin_ack Json.loads (KInt (mensaje_id cliente + 1)) (llegadas cliente)) as Hsa
    by constructor.
  assert (sin_tropiezos Json.loads cliente) as Hst by (split; constructor).
  split; [reflexivity|]. split; [reflexivity|]. split; [reflexivity|].
  split; [exact Hna|]. split; [exact Hsa|]. split; [exact Hst|].
  destruct (enviar_mensaje_sin_respuesta Json.dumps Json.loads 100 (VStr "hola") cliente
              0%nat [x00; x00; x00; x71] eq_refl eq_refl eq_refl eq_refl eq_refl Hna Hsa)
    as (st' & nuevos & tx & E & Hp & Ht & _ & Hl & Hs & _ & Hf).
  { vm_compute. lia. }
  exists st', nuevos, tx. split; [exact E|]. split; [exact Ht|].
  split; [exact (Hf Hst)|]. split; [exact Hl|]. split; [exact Hs|exact Hp].
Defined.

(** C1, as stated, fails: with [max_reintentos] 3 the message goes out at
    0 s, 5 s and 10 s and the call fails at 15 s: two retransmissions,
    not three. *)
Lemma tres_intentos_dos_retransmisiones :
  let r := enviar_mensaje Json.dumps Json.loads 100 (VStr "hola") true cliente in
  r.1 = Normal false /\
  tiempos_envios (mensaje_de (VStr "hola") true) (traza r.2) = [0; 5000; 10000] /\
  reloj r.2 = 15000 /\
  List.length (tail (tiempos_envios (mensaje_de (VStr "hola") true) (traza r.2)))
    <> Z.to_nat (max_reintentos cliente).
Proof. vm_compute. repeat split; discriminate. Qed.

(** A retransmission is an attempt. On a server whose second [sendall]
    fails, the message is written once; the first retransmission fails
    and ends the connection, the second is tried on no socket at all.
    The call makes its three rounds all the same and returns [False] at
    15 s. *)
Lemma retransmisiones_fallidas :
  let st := con_envios [true; false] servidor in
  let mensaje := mensaje_nuevo (VStr "hola") true st in
  let r := enviar_mensaje Json.dumps Json.loads 100 (VStr "hola") true st in
  r.1 = Normal false /\
  reloj r.2 = 15000 /\
  tiempos_envios mensaje (traza r.2) = [0; 5000; 10000] /\
  List.filter (fun te : Z * evento => match te.2 with Sueno _ => false | _ => true end)
    (traza r.2) =
    [(0, Envio 0 mensaje (trama_de (Json.dumps mensaje)));
     (5000, EnvioFallido (Some 0%nat) mensaje OSError);
     (5000, Cierre 0);
     (10000, EnvioFallido None mensaje AttributeError)].
Proof. vm_compute. repeat split. Qed.



(** C3, instance: the message of the examples, framed and read back from
    a stream cut in pieces of at most three bytes, with timeouts. *)
Lemma trama_ida_y_vuelta_testigo :
  let mensaje := mensaje_de (VStr "hola") true in
  let mensaje_bytes := list_byte_of_string (Json.dumps mensaje) in
  Json.loads (Json.dumps mensaje) = Some mensaje /\
  utf8_valido mensaje_bytes = true /\
  mensaje_bytes <> [] /\
  (N.of_nat (List.length mensaje_bytes) < 2 ^ 32)%N /\
  exists datos texto socket_cliente,
    codificar Json.dumps mensaje cliente = (Normal datos, cliente) /\
    recibir_trama (socket_con datos) servidor = (Normal (Some texto, socket_cliente), servidor) /\
    Json.loads texto = Some mensaje.
Proof.
  intros mensaje mensaje_bytes.
  assert (Json.loads (Json.dumps mensaje) = Some mensaje) as H1 by (vm_compute; reflexivity).
  assert (utf8_valido mensaje_bytes = true) as H2 by (vm_compute; reflexivity).
  assert (mensaje_bytes <> []) as H3 by (vm_compute; discriminate).
  assert (N.of_nat (List.length mensaje_bytes) < 2 ^ 32)%N as H4 by (vm_compute; reflexivity).
  split; [exact H1|]. split; [exact H2|]. split; [exact H3|]. split; [exact H4|].
  destruct (trama_ida_y_vuelta Json.dumps Json.loads mensaje cliente H1 H2 H3 H4)
    as (datos & Hc & Hlen & _ & Hr).
  destruct (Hr (socket_con datos) [] servidor) as (texto & guion' & Hrt & Hl).
  - cbn. by rewrite app_nil_r.
  - unfold socket_con. cbn [guion]. apply Forall_concat, Forall_replicate.
    repeat constructor; discriminate.
  - unfold socket_con. cbn [guion].
    generalize (List.length datos). intros n. induction n as [|n IH]; cbn; lia.
  - eexists datos, texto, _. split; [exact Hc|]. split; [exact Hrt|exact Hl].
Defined.

Lemma escapar_letras n : Json.escapar (replicate n x61) = replicate n x61.
Proof. induction n as [|n IH]; [done|]. cbn [replicate]. by rewrite <- IH at 2. Qed.

Lemma imprimir_contenido_largo n requiere_ack :
  (n <= List.length
          (Json.imprimir (mensaje_de (VStr (string_of_list_byte (replicate n x61)))
                            requiere_ack)))%nat.
Proof.
  unfold mensaje_de. set (s := string_of_list_byte (replicate n x61)).
  assert (List.length (Json.literal s) = S (S n)) as Hs.
  { subst s. unfold Json.literal.
    rewrite list_byte_of_string_of_list_byte, escapar_letras.
    cbn [List.length]. rewrite length_app, length_replicate. cbn. lia. }
  cbn [Json.imprimir map Json.unir fst snd]. rewrite !length_app, Hs. lia.
Qed.

Lemma codificar_contenido_largo n requiere_ack st :
  (2 ^ 32 <= N.of_nat n)%N ->
  codificar Json.dumps
    (mensaje_de (VStr (string_of_list_byte (replicate n x61))) requiere_ack) st
    = (Lanza StructError, st).
Proof.
  intros Hn. unfold codificar, struct_pack.
  rewrite struct_pack_I_None; [reflexivity|].
  unfold Json.dumps. rewrite list_byte_of_string_of_list_byte.
  pose proof (imprimir_contenido_largo n requiere_ack) as Hl.
  set (len := List.length _) in *. clearbody len. lia.
Qed.

(** C3, as stated, fails: a message whose content has 2^32 characters has
    no frame at all: its length does not fit the four bytes of the
    prefix, [struct.pack] raises and [_enviar_mensaje_raw] gives up. *)
Lemma mensaje_enorme_sin_trama :
  ~ exists datos st',
      codificar Json.dumps (mensaje_de contenido_enorme true) cliente = (Normal datos, st').
Proof.
  intros (datos & st' & H).
  pose proof (codificar_contenido_largo (N.to_nat (2 ^ 32)) true cliente) as Hc.
  rewrite N2Nat.id in Hc. specialize (Hc (N.le_refl _)).
  unfold contenido_enorme in H. congruence.
Qed.

(** C4, instance: a client whose server is not there. *)
Lemma _conectar_servidor_reintentos_testigo :
  ejecutando cliente_sin_servidor = true /\
  0 < max_reintentos cliente_sin_servidor /\
  conexion_activa cliente_sin_servidor = false /\
  exists st',
    _conectar_servidor cliente_sin_servidor = (Normal false, st') /\
    tiempos_intentos (traza st') = [0; 2000; 6000] /\
    Stats.errores (stats st') = 1.
Proof.
  split; [reflexivity|]. split; [reflexivity|]. split; [reflexivity|].
  destruct (_conectar_servidor_reintentos Json.dumps Json.loads cliente_sin_servidor
              eq_refl eq_refl eq_refl) as [_ H].
  destruct H as (st' & nuevos & E & Hs & Ht & Hi & _).
  { intros i _. cbn. by rewrite lookup_nil. }
  exists st'. split; [exact E|]. rewrite Ht, Hs. split; [exact Hi|reflexivity].
Defined.

(** C5, instance: an ACK for message 7 reaches a client that waits for
    the ACK of message 1. The entry of message 1 stays; 7 is now in
    [acks_recibidos]. *)
Lemma ack_sin_pendiente_testigo :
  let texto := Json.dumps ack_7 in
  Json.loads texto = Some ack_7 /\
  mensajes_pendientes cliente_en_espera !! KInt 7 = None /\
  exists st',
    _procesar_mensaje_recibido Json.dumps Json.loads texto 0 cliente_en_espera
      = (Normal tt, st') /\
    mensajes_pendientes st' !! KInt 1 = Some (mensaje_de (VStr "hola") true) /\
    mensajes_pendientes st' = mensajes_pendientes cliente_en_espera /\
    traza st' = traza cliente_en_espera /\
    acks_recibidos st' = {[KInt 7]} ∪ acks_recibidos cliente_en_espera /\
    Stats.mensajes_recibidos (stats st') = 1 /\
    Stats.acks_recibidos (stats st') = 1.
Proof.
  intros texto.
  assert (Json.loads texto = Some ack_7) as Hl by (vm_compute; reflexivity).
  assert (mensajes_pendientes cliente_en_espera !! KInt 7 = None) as Hn
    by (vm_compute; reflexivity).
  split; [exact Hl|]. split; [exact Hn|].
  destruct (ack_sin_pendiente Json.dumps Json.loads texto _ 0%nat cliente_en_espera Hl eq_refl)
    as (st' & E & Hp & Ht & _ & _ & _ & _ & _ & Ha & Hs & _).
  { intros k Hk. injection Hk as <-. exact Hn. }
  exists st'. split; [exact E|].
  split; [rewrite Hp; vm_compute; reflexivity|].
  split; [exact Hp|]. split; [exact Ht|]. split; [exact Ha|].
  rewrite Hs. split; reflexivity.
Defined.

(** C5, as stated, fails: the ACK is no no-op. An ACK for message 1
    reaches a client that has sent nothing yet and waits for nothing.
    Its id stays in [acks_recibidos] and both counters move; when the
    client then sends its message 1, which nobody acknowledges,
    [enviar_mensaje] finds that id and returns [True] at once, where
    without the stray ACK it returns [False] after 15 s. *)
Lemma ack_huerfano_confirma_el_envio :
  let texto := Json.dumps ack_1 in
  let st' := (_procesar_mensaje_recibido Json.dumps Json.loads texto 0 cliente).2 in
  let directo := enviar_mensaje Json.dumps Json.loads 100 (VStr "hola") true cliente in
  let despues := enviar_mensaje Json.dumps Json.loads 100 (VStr "hola") true st' in
  Json.loads texto = Some ack_1 /\
  mensajes_pendientes cliente = ∅ /\
  llegadas cliente = [] /\
  bool_decide (KInt 1 ∈ acks_recibidos cliente) = false /\
  bool_decide (KInt 1 ∈ acks_recibidos st') = true /\
  stats cliente = Stats.cero /\
  Stats.mensajes_recibidos (stats st') = 1 /\
  Stats.acks_recibidos (stats st') = 1 /\
  (directo.1 = Normal false /\ reloj directo.2 = 15000) /\
  (despues.1 = Normal true /\ reloj despues.2 = 0 /\
   map snd (traza despues.2)
     = [Envio 0 (mensaje_de (VStr "hola") true)
          (trama_de (Json.dumps (mensaje_de (VStr "hola") true)))]).
Proof. vm_compute. repeat split. Qed.

(** C6, instance: "hola" sent without asking for an ACK. *)
Lemma enviar_mensaje_sin_ack_testigo :
  conexion_activa cliente = true /\
  socket_cliente cliente = Some 0%nat /\
  exists st',
    enviar_mensaje Json.dumps Json.loads 0 (VStr "hola") false cliente = (Normal true, st') /\
    mensajes_pendientes st' = mensajes_pendientes cliente /\
    reloj st' = reloj cliente.
Proof.
  split; [reflexivity|]. split; [reflexivity|].
  destruct (enviar_mensaje_sin_ack Json.dumps Json.loads 0 (VStr "hola") cliente 0%nat
              [x00; x00; x00; x72] eq_refl eq_refl eq_refl eq_refl)
    as (st' & E & Hp & _ & Hr & _).
  exists st'. split; [exact E|]. split; [exact Hp|exact Hr].
Defined.

(** C7, as stated, fails: a client that sent one message loses its
    connection and reconnects; the new connection starts with
    [mensajes_enviados] still at 1. *)
Lemma reconexion_sin_reinicio :
  let st1 := (enviar_mensaje Json.dumps Json.loads 0 (VStr "hola") false
                (con_conexiones [true] cliente)).2 in
  let st2 := (_manejar_error_conexion st1).2 in
  conexion_activa st2 = true /\
  socket_cliente st2 = Some 1%nat /\
  Stats.mensajes_enviados (stats st2) = 1 /\
  stats st2 <> Stats.cero.
Proof. vm_compute. repeat split; discriminate. Qed.

(** C8, failing input. A frame whose one byte of body, FF, is not UTF-8,
    followed by a well-formed message: [_manejar_cliente] ends on the
    first frame, with an error counted and the connection closed, and the
    message behind it is never received. With a body that is UTF-8 but
    not JSON (a lone brace) in its place, the frame is dropped and the
    message behind it is received and acknowledged. *)
Lemma carga_no_utf8_termina_el_bucle :
  let siguiente := trama_de (Json.dumps (mensaje_de (VStr "hola") true)) in
  let st_utf8 :=
    (_manejar_cliente Json.dumps Json.loads 10
       (socket_con ([x00; x00; x00; x01; xff] ++ siguiente)) servidor).2 in
  let st_json :=
    (_manejar_cliente Json.dumps Json.loads 10
       (socket_con ([x00; x00; x00; x01; x7b] ++ siguiente)) servidor).2 in
  (conexion_activa st_utf8 = false /\
   Stats.mensajes_recibidos (stats st_utf8) = 0 /\
   Stats.errores (stats st_utf8) = 1 /\
   registro st_utf8
     = [(ERROR, ErrorManejandoCliente UnicodeDecodeError); (INFO, ConexionCerrada)] /\
   traza st_utf8 = [(0, Cierre 0)]) /\
  (Stats.mensajes_recibidos (stats st_json) = 1 /\
   Stats.acks_enviados (stats st_json) = 1 /\
   Stats.errores (stats st_json) = 1 /\
   map snd (traza st_json)
     = [Envio 0 ack_1 (trama_de (Json.dumps ack_1));
        Retrollamada (VStr "hola") (VStr "Cliente");
        Cierre 0]).
Proof. vm_compute. repeat split. Qed.

(** C9, instance: a client that never connected. *)
Lemma enviar_mensaje_sin_conexion_testigo :
  (conexion_activa cliente_sin_servidor = false \/
   socket_cliente cliente_sin_servidor = None) /\
  exists st',
    enviar_mensaje Json.dumps Json.loads 100 (VStr "hola") true cliente_sin_servidor
      = (Normal false, st') /\
    mensaje_id st' = 0 /\ traza st' = [] /\ stats st' = Stats.cero.
Proof.
  split; [left; reflexivity|].
  destruct (enviar_mensaje_sin_conexion Json.dumps Json.loads 100 (VStr "hola") true
              cliente_sin_servidor (or_introl eq_refl))
    as (st' & E & _ & Hi & Ht & _ & _ & Hs & _).
  exists st'. split; [exact E|]. split; [exact Hi|]. split; [exact Ht|exact Hs].
Defined.

(** C10, instance: four zero bytes, then a message that will not be
    read. *)
Lemma _manejar_cliente_longitud_cero_testigo :
  let resto := trama_de (Json.dumps ack_7) in
  let socket_cliente := socket_con ([x00; x00; x00; x00] ++ resto) in
  ejecutando servidor = true /\
  conexion_activa servidor = true /\
  exists st',
    _manejar_cliente Json.dumps Json.loads 10 socket_cliente servidor = (Normal tt, st') /\
    conexion_activa st' = false /\
    stats st' = stats servidor.
Proof.
  intros resto socket_cliente.
  split; [reflexivity|]. split; [reflexivity|].
  destruct (_manejar_cliente_longitud_cero Json.dumps Json.loads 9 socket_cliente servidor
              resto eq_refl eq_refl eq_refl)
    as (guion' & st' & _ & E & Ha & Hs & _).
  - unfold socket_cliente, socket_con. cbn [guion]. apply Forall_concat, Forall_replicate.
    repeat constructor; discriminate.
  - vm_compute. lia.
  - exists st'. split; [exact E|]. split; [exact Ha|exact Hs].
Defined.

(** * More instances *)

(** X1, instance: four bytes asked from a stream
    of five, delivered in pieces of at most three. *)
Lemma _recibir_completo_exacto_testigo :
  let s := socket_con [x01; x02; x03; x04; x05] in
  exists s',
    _recibir_completo s 4 servidor = (Normal (Some [x01; x02; x03; x04], s'), servidor) /\
    corriente s = [x01; x02; x03; x04] ++ corriente s' /\
    fileno s' = fileno s.
Proof.
  intros s.
  assert (exists s', _recibir_completo s 4 servidor
                     = (Normal (Some [x01; x02; x03; x04], s'), servidor)) as [s' E]
    by (eexists; vm_compute; reflexivity).
  destruct (_recibir_completo_exacto s 4 servidor _ s' servidor E) as (_ & Hc & Hf & _).
  exists s'. split; [exact E|]. split; [exact Hc|exact Hf].
Defined.

(** X2, instance: four bytes asked, two
    sent before the peer closed. *)
Lemma _recibir_completo_fin_de_flujo_testigo :
  let s := {| fileno := 0; corriente := [x01; x02];
              guion := [Entrega 0; Expira; Entrega 5; Entrega 5] |} in
  sin_fallas (guion s) /\
  exists guion',
    _recibir_completo s 4 servidor =
      (Normal (None, {| fileno := 0; corriente := []; guion := guion' |}), servidor).
Proof.
  intros s.
  assert (sin_fallas (guion s)) as Hsf by (repeat (constructor; [discriminate|]); constructor).
  split; [exact Hsf|].
  apply (_recibir_completo_fin_de_flujo s 4 servidor Hsf); vm_compute; lia.
Defined.

(** X3, instance: a frame that
    announces five bytes and brings two. *)
Lemma _manejar_cliente_trama_incompleta_testigo :
  let s := {| fileno := 0; corriente := [x00; x00; x00; x05; x68; x6f];
              guion := replicate 8 (Entrega 3) |} in
  trama_incompleta (corriente s) /\
  _manejar_cliente Json.dumps Json.loads 5 s servidor = (Normal tt, limpiada 0 servidor).
Proof.
  intros s.
  assert (trama_incompleta (corriente s)) as Hi.
  { right. exists [x00; x00; x00; x05], [x68; x6f], 5%N.
    split; [reflexivity|]. split; [reflexivity|]. split; reflexivity. }
  split; [exact Hi|].
  apply (_manejar_cliente_trama_incompleta Json.dumps Json.loads 4 s servidor eq_refl eq_refl Hi).
  - repeat (constructor; [discriminate|]). constructor.
  - vm_compute. lia.
Defined.

(** X4, instance: two timeouts, then
    a [recv] that fails. *)
Lemma _manejar_cliente_error_de_recepcion_testigo :
  let s := {| fileno := 0; corriente := [x00]; guion := [Expira; Expira; Falla] |} in
  exists st',
    _manejar_cliente Json.dumps Json.loads 5 s servidor = (Normal tt, st') /\
    stats st' = stats servidor /\
    conexion_activa st' = false.
Proof.
  intros s.
  destruct (_manejar_cliente_error_de_recepcion Json.dumps Json.loads 4 s servidor 2 []
              eq_refl eq_refl eq_refl) as (st' & E & _ & Hs & Ha & _).
  exists st'. split; [exact E|]. split; [exact Hs|exact Ha].
Defined.

(** X9, instance: the server of the
    examples, whose next write fails. *)
Lemma enviar_mensaje_escritura_fallida_testigo :
  let st := con_envios [false] servidor in
  escribe Json.dumps (mensaje_nuevo (VStr "hola") true st) st = false /\
  exists st',
    enviar_mensaje Json.dumps Json.loads 10 (VStr "hola") true st = (Normal false, st') /\
    mensaje_id st' = 1 /\
    conexion_activa st' = false /\
    socket_cliente st' = None /\
    mensajes_pendientes st' = mensajes_pendientes st.
Proof.
  intros st.
  assert (escribe Json.dumps (mensaje_nuevo (VStr "hola") true st) st = false) as He
    by (vm_compute; reflexivity).
  split; [exact He|].
  destruct (enviar_mensaje_escritura_fallida Json.dumps Json.loads 10 (VStr "hola") true st
              0%nat eq_refl eq_refl He)
    as (st' & e & nuevos & E & Hi & Hp & _ & _ & _ & _ & _ & Hrol).
  destruct (Hrol (or_introl eq_refl)) as (Ha & Hs & _).
  exists st'. split; [exact E|]. split; [exact Hi|]. split; [exact Ha|].
  split; [exact Hs|exact Hp].
Defined.

(** X11, instance: the ACK of [true] is an ACK for the
    message 1. *)
Lemma ack_registrado_testigo :
  let ack := VDict [("tipo", VStr "ACK"); ("mensaje_id", VBool true)] in
  let st := con_mensajes_pendientes {[KInt 1 := mensaje_de (VStr "hola") true]} cliente in
  Json.loads (Json.dumps ack) = Some ack /\
  exists st',
    _procesar_mensaje_recibido Json.dumps Json.loads (Json.dumps ack) 0 st = (Normal tt, st') /\
    mensajes_pendientes st' !! KInt 1 = None /\
    KInt 1 ∈ acks_recibidos st'.
Proof.
  intros ack st.
  assert (Json.loads (Json.dumps ack) = Some ack) as Hl by (vm_compute; reflexivity).
  split; [exact Hl|].
  destruct (ack_registrado Json.dumps Json.loads (Json.dumps ack) _ 0%nat st Hl eq_refl)
    as (st' & E & _ & _ & _ & _ & Hk).
  cbn [clave_de dict_get dict_get_def String.eqb Ascii.eqb Bool.eqb] in Hk.
  destruct Hk as (Ha & Hp & _).
  exists st'. split; [exact E|]. split.
  - rewrite Hp. apply lookup_delete_eq.
  - rewrite Ha. apply elem_of_union_l, elem_of_singleton. reflexivity.
Defined.

(** X12, instance: a heartbeat of the client reaches
    the server. *)
Lemma heartbeat_respondido_testigo :
  let heartbeat :=
    VDict [("tipo", VStr "HEARTBEAT"); ("timestamp", VFloat 0);
           ("remitente", VStr "Cliente")] in
  let respuesta := VDict [("tipo", VStr "HEARTBEAT_RESPONSE"); ("timestamp", VFloat 0)] in
  Json.loads (Json.dumps heartbeat) = Some heartbeat /\
  escribe Json.dumps respuesta servidor = true /\
  exists st' datos,
    _procesar_mensaje_recibido Json.dumps Json.loads (Json.dumps heartbeat) 0 servidor
      = (Normal tt, st') /\
    traza st' = [(0, Envio 0 respuesta datos)] /\
    stats st' = Stats.incr_mensajes_recibidos Stats.cero.
Proof.
  intros heartbeat respuesta.
  assert (Json.loads (Json.dumps heartbeat) = Some heartbeat) as Hl
    by (vm_compute; reflexivity).
  assert (escribe Json.dumps respuesta servidor = true) as He by (vm_compute; reflexivity).
  split; [exact Hl|]. split; [exact He|].
  destruct (heartbeat_respondido Json.dumps Json.loads (Json.dumps heartbeat) _ 0%nat
              servidor Hl eq_refl He) as (st' & datos & E & _ & Ht & Hs & _).
  exists st', datos. split; [exact E|]. split; [exact Ht|exact Hs].
Defined.

(** X13, instance: a lone brace, framed, with an ACK
    behind it. *)
Lemma trama_descartada_testigo :
  let resto := trama_de (Json.dumps ack_7) in
  let s := socket_con ([x00; x00; x00; x01; x7b] ++ resto) in
  inerte Json.loads (string_of_list_byte [x7b]) /\
  exists guion' st1,
    manejar_bucle Json.dumps Json.loads 5 s servidor =
      manejar_bucle Json.dumps Json.loads 4
        {| fileno := 0; corriente := resto; guion := guion' |} st1 /\
    traza st1 = traza servidor /\
    Stats.errores (stats st1) + Stats.mensajes_recibidos (stats st1) = 1.
Proof.
  intros resto s.
  assert (inerte Json.loads (string_of_list_byte [x7b])) as Hin
    by (left; vm_compute; reflexivity).
  split; [exact Hin|].
  destruct (trama_descartada Json.dumps Json.loads 4 s servidor [x00; x00; x00; x01] [x7b]
              resto eq_refl eq_refl eq_refl eq_refl eq_refl)
    as (guion' & st1 & E & _ & _ & Ht & _ & _ & _ & _ & _ & _ & Hc).
  - discriminate.
  - reflexivity.
  - unfold s, socket_con. cbn [guion]. apply Forall_concat, Forall_replicate.
    repeat constructor; discriminate.
  - vm_compute. lia.
  - exact Hin.
  - exists guion', st1. split; [exact E|]. split; [exact Ht|exact Hc].
Defined.

(** X14, instance: the client sends "hola"; the
    ACK that the server's dispatcher writes for it comes during the
    second sleep. *)
Lemma enviar_mensaje_con_ack_testigo :
  let st := con_llegadas [[]; [(0%nat, Json.dumps ack_1)]] cliente in
  Json.loads (Json.dumps ack_1) = Some ack_1 /\
  exists st',
    enviar_mensaje Json.dumps Json.loads 10 (VStr "hola") true st = (Normal true, st') /\
    reloj st' = 200 /\
    mensajes_pendientes st' = delete (KInt 1) (mensajes_pendientes st) /\
    tiempos_envios (mensaje_de (VStr "hola") true) (traza st') = [0].
Proof.
  intros st.
  assert (Json.loads (Json.dumps ack_1) = Some ack_1) as Hl by (vm_compute; reflexivity).
  split; [exact Hl|].
  assert (escribe Json.dumps (mensaje_nuevo (VStr "hola") true st) st = true) as He
    by (vm_compute; reflexivity).
  destruct (enviar_mensaje_con_ack Json.dumps Json.loads 10 (VStr "hola") st 0%nat 1%nat
              0%nat (Json.dumps ack_1) [] _ eq_refl eq_refl He eq_refl
              (not_elem_of_empty _) eq_refl Hl eq_refl eq_refl eq_refl)
    as (st' & datos & E & _ & Ht & Hr & Hp & _).
  { lia. }
  exists st'. split; [exact E|]. split; [exact Hr|]. split; [exact Hp|].
  rewrite Ht. reflexivity.
Defined.

(** X15, instance: the server
    answers at the third attempt. *)
Lemma _conectar_servidor_exito_tras_fallos_testigo :
  let st := con_conexiones [false; false; true] cliente_sin_servidor in
  exists st',
    _conectar_servidor st = (Normal true, st') /\
    conexion_activa st' = true /\
    socket_cliente st' = Some 2%nat /\
    reloj st' = 6000 /\
    stats st' = Stats.incr_reconexiones Stats.cero.
Proof.
  intros st.
  destruct (_conectar_servidor_exito_tras_fallos st 2 [] eq_refl eq_refl eq_refl)
    as (st' & nuevos & E & Ha & Hs & _ & Hr & Hst & _).
  exists st'. split; [exact E|]. split; [exact Ha|]. split; [exact Hs|].
  split; [exact Hr|exact Hst].
Defined.

(** X16, instance: the client of the examples loses
    its connection; its server answers at once. *)
Lemma reconexion_inmediata_testigo :
  let st := con_conexiones [true] cliente in
  exists st',
    _manejar_error_conexion st = (Normal tt, st') /\
    conexion_activa st' = true /\
    socket_cliente st' = Some 1%nat /\
    reloj st' = 2000 /\
    stats st' = Stats.cero.
Proof.
  intros st.
  destruct (reconexion_inmediata st 0%nat eq_refl eq_refl eq_refl eq_refl eq_refl)
    as (st' & E & Ha & Hs & Hr & Hst & _).
  exists st'. split; [exact E|]. split; [exact Ha|]. split; [exact Hs|].
  split; [exact Hr|exact Hst].
Defined.

(** X17, instance: three rounds of the client's
    heartbeat. *)
Lemma _heartbeat_loop_sigue_testigo :
  0 <= intervalo_heartbeat cliente /\
  exists st',
    _heartbeat_loop Json.dumps 3 cliente = (Agotado, st') /\
    reloj cliente + 3 * intervalo_heartbeat cliente <= reloj st'.
Proof.
  assert (0 <= intervalo_heartbeat cliente) as Hi by (vm_compute; discriminate).
  split; [exact Hi|].
  generalize (_heartbeat_loop_sigue Json.dumps 3 cliente Hi).
  change (ejecutando cliente) with true. cbv iota.
  intros (st' & E & _ & Hr). exists st'. split; [exact E|exact Hr].
Defined.

(** X18, instance: the heartbeat of
    the client cannot be written; the server accepts connections. *)
Lemma heartbeat_fallido_reconecta_dos_veces_testigo :
  let st := con_envios [false] (con_conexiones [true; true] cliente) in
  exists st',
    heartbeat_ronda Json.dumps st = (Normal tt, st') /\
    conexion_activa st' = true /\
    socket_cliente st' = Some 2%nat /\
    reloj st' = 14000 /\
    tiempos_intentos (traza st') = [12000; 14000] /\
    stats st' = Stats.incr_errores Stats.cero.
Proof.
  intros st.
  assert (escribe Json.dumps
            (VDict [("tipo", VStr "HEARTBEAT");
                    ("timestamp", VFloat (reloj st + intervalo_heartbeat st));
                    ("remitente", VStr (nombre st))]) st = false) as He
    by (vm_compute; reflexivity).
  destruct (heartbeat_fallido_reconecta_dos_veces Json.dumps st 0%nat [] eq_refl eq_refl
              eq_refl eq_refl eq_refl eq_refl He)
    as (st' & e & E & Ha & Hs & Hr & Hst & _ & Ht).
  exists st'. split; [exact E|]. split; [exact Ha|]. split; [exact Hs|].
  split; [exact Hr|]. split; [rewrite Ht; reflexivity|exact Hst].
Defined.

(** X20, instance: the server of the examples, whose
    next write fails. *)
Lemma servidor_no_reconecta_testigo :
  let st := con_envios [false] servidor in
  let st' := (enviar_mensaje Json.dumps Json.loads 10 (VStr "hola") true st).2 in
  es_servidor st = true /\
  tiempos_intentos (traza st') = [] /\
  sockets_creados st' = 1%nat.
Proof.
  intros st st'. split; [reflexivity|].
  destruct (servidor_no_reconecta Json.dumps Json.loads st eq_refl) as (H & _ & _).
  exact (H 10%nat (VStr "hola") true).
Defined.

(** X21, instance: a message reaches the server, whose
    ACK cannot be written. *)
Lemma acks_enviados_cuenta_testigo :
  let st := con_envios [false] servidor in
  let texto := Json.dumps (mensaje_de (VStr "hola") true) in
  Json.loads texto = Some (mensaje_de (VStr "hola") true) /\
  escribe Json.dumps ack_1 st = false /\
  Stats.acks_enviados (stats (_procesar_mensaje_recibido Json.dumps Json.loads texto 0 st).2)
    = 1.
Proof.
  intros st texto.
  assert (Json.loads texto = Some (mensaje_de (VStr "hola") true)) as Hl
    by (vm_compute; reflexivity).
  split; [exact Hl|]. split; [vm_compute; reflexivity|].
  exact (acks_enviados_cuenta Json.dumps Json.loads texto _ 0%nat st Hl eq_refl).
Defined.

(** X22, instance: the ACK of the message 1
    is there before the client sends it. *)
Lemma enviar_mensaje_ack_anticipado_testigo :
  let st := con_acks_recibidos {[KInt 1]} cliente in
  KInt 1 ∈ acks_recibidos st /\
  exists st',
    enviar_mensaje Json.dumps Json.loads 1 (VStr "hola") true st = (Normal true, st') /\
    reloj st' = 0 /\
    mensajes_pendientes st' !! KInt 1 = Some (mensaje_de (VStr "hola") true).
Proof.
  intros st.
  assert (KInt 1 ∈ ({[KInt 1]} : gset clave)) as Hin0
    by (apply elem_of_singleton; reflexivity).
  assert (KInt 1 ∈ acks_recibidos st) as Hin by exact Hin0.
  split; [exact Hin|].
  assert (escribe Json.dumps (mensaje_nuevo (VStr "hola") true st) st = true) as He
    by (vm_compute; reflexivity).
  destruct (enviar_mensaje_ack_anticipado Json.dumps Json.loads 1 (VStr "hola") st 0%nat
              eq_refl eq_refl He eq_refl eq_refl Hin)
    as (st' & datos & E & _ & _ & Hr & _ & _ & _ & Hp).
  { lia. }
  exists st'. split; [exact E|]. split; [exact Hr|exact Hp].
Defined.
